(** * EasyMed authentication core: OTP service, auth orchestrator, persistence

    A shallow embedding of [src/services/twilioService.ts] (the browser-safe
    mock holding [otpStore]) and of [realAuthService.ts], with the pieces of
    the JavaScript runtime they observe ([Date.now], [Math.random],
    [localStorage], string and regular-expression primitives, the JSON form
    of a [Date]). *)

From Stdlib Require Import ZArith QArith Qround Lia Lqa String Ascii List Bool.
From stdpp Require Import base option strings pretty gmap.

Local Open Scope string_scope.
Local Open Scope Z_scope.

(** ** String primitives of the runtime *)

Module Js.

(** [\d] without the unicode flag: the ten ASCII digits. *)
Definition is_digit (c : ascii) : bool :=
  let n := nat_of_ascii c in (48 <=? n)%nat && (n <=? 57)%nat.

(** [[1-9]] *)
Definition is_digit19 (c : ascii) : bool :=
  let n := nat_of_ascii c in (49 <=? n)%nat && (n <=? 57)%nat.

(** [s.replace(/\D/g, '')]: every character that is not a digit is dropped. *)
Fixpoint strip_non_digits (s : string) : string :=
  match s with
  | EmptyString => EmptyString
  | String c rest =>
      if is_digit c then String c (strip_non_digits rest)
      else strip_non_digits rest
  end.

(** [/^\d*$/] as a predicate on the whole string. *)
Fixpoint all_digits (s : string) : bool :=
  match s with
  | EmptyString => true
  | String c rest => is_digit c && all_digits rest
  end.

(** [s.startsWith(p)] *)
Definition startsWith (s p : string) : bool := String.prefix p s.

(** [s.substring(n)]: the string without its first [n] characters. *)
Fixpoint substring_from (n : nat) (s : string) : string :=
  match n, s with
  | O, _ => s
  | S n', String _ rest => substring_from n' rest
  | S _, EmptyString => EmptyString
  end.

(** [s.slice(-n)]: the last [n] characters (the whole string when shorter). *)
Definition slice_last (n : nat) (s : string) : string :=
  substring_from (String.length s - n) s.

(** [list.includes(x)] on an array of strings. *)
Definition includes (l : list string) (x : string) : bool :=
  existsb (String.eqb x) l.

End Js.

(** ** Phone numbers: [TwilioService.formatPhoneNumber], [isValidPhoneNumber] *)

Module Phone.
Import Js.

Definition formatPhoneNumber (phoneNumber : string) : option string :=
  let cleaned := strip_non_digits phoneNumber in
  if (String.length cleaned =? 10)%nat && startsWith cleaned "6789" then
    Some ("+91" +:+ cleaned)
  else if (String.length cleaned =? 12)%nat && startsWith cleaned "91" then
    Some ("+" +:+ cleaned)
  else if (String.length cleaned =? 13)%nat && startsWith cleaned "091" then
    Some ("+" +:+ substring_from 1 cleaned)
  else None.

(** [/^\+[1-9]\d{1,14}$/.test(phoneNumber)] *)
Definition isValidPhoneNumber (phoneNumber : string) : bool :=
  match phoneNumber with
  | String "+" (String c rest) =>
      is_digit19 c && all_digits rest
      && (1 <=? String.length rest)%nat && (String.length rest <=? 14)%nat
  | _ => false
  end.

(** The test at the head of [authenticateAdmin]:
    [/^\+?[1-9]\d{1,14}$/.test(identifier.replace(/\D/g, ''))]. *)
Definition admin_phone_re (s : string) : bool :=
  let body (t : string) :=
    match t with
    | String c rest =>
        is_digit19 c && all_digits rest
        && (1 <=? String.length rest)%nat && (String.length rest <=? 14)%nat
    | EmptyString => false
    end in
  match s with
  | String "+" t => body t
  | _ => body s
  end.

Definition looksLikePhone (identifier : string) : bool :=
  admin_phone_re (strip_non_digits identifier).

End Phone.

(** ** Dates: time values and their JSON form

    A [Date] holds a time value, a whole number of milliseconds since the
    epoch, or is the Invalid Date. [JSON.stringify] writes a valid date
    through [toISOString] and an invalid one as [null]; [new Date(v)] on the
    stored value reads it back. The calendar follows ECMA-262, section
    "Time Values and Time Range". *)

Module JsDate.
Import Js.

Inductive Date :=
| TimeValue (t : Z)
| InvalidDate.

Definition msPerDay : Z := 86400000.
Definition msPerHour : Z := 3600000.
Definition msPerMinute : Z := 60000.
Definition msPerSecond : Z := 1000.
Definition maxTime : Z := 8640000000000000.

Definition Day (t : Z) : Z := t / msPerDay.
Definition TimeWithinDay (t : Z) : Z := t mod msPerDay.

Definition isLeapYear (y : Z) : bool :=
  if negb (y mod 4 =? 0) then false
  else if negb (y mod 100 =? 0) then true
  else if negb (y mod 400 =? 0) then false
  else true.

Definition DaysInYear (y : Z) : Z := if isLeapYear y then 366 else 365.

Definition DayFromYear (y : Z) : Z :=
  365 * (y - 1970) + (y - 1969) / 4 - (y - 1901) / 100 + (y - 1601) / 400.

(** The largest [y] with [DayFromYear y <= d]: an estimate from the mean
    year length, moved by at most one year. *)
Definition YearFromDay (d : Z) : Z :=
  let y := 1970 + (400 * d) / 146097 in
  if d <? DayFromYear y then y - 1
  else if DayFromYear (y + 1) <=? d then y + 1
  else y.

Definition YearFromTime (t : Z) : Z := YearFromDay (Day t).
Definition InLeapYear (t : Z) : Z := if isLeapYear (YearFromTime t) then 1 else 0.
Definition DayWithinYear (t : Z) : Z := Day t - DayFromYear (YearFromTime t).

(** Day number within the year at which month [m] (0 to 11) starts. *)
Definition monthStart (leap m : Z) : Z :=
  match m with
  | 0 => 0 | 1 => 31 | 2 => 59 + leap | 3 => 90 + leap | 4 => 120 + leap
  | 5 => 151 + leap | 6 => 181 + leap | 7 => 212 + leap | 8 => 243 + leap
  | 9 => 273 + leap | 10 => 304 + leap | _ => 334 + leap
  end.

Definition monthOfDay (leap dwy : Z) : Z :=
  if dwy <? 31 then 0
  else if dwy <? 59 + leap then 1
  else if dwy <? 90 + leap then 2
  else if dwy <? 120 + leap then 3
  else if dwy <? 151 + leap then 4
  else if dwy <? 181 + leap then 5
  else if dwy <? 212 + leap then 6
  else if dwy <? 243 + leap then 7
  else if dwy <? 273 + leap then 8
  else if dwy <? 304 + leap then 9
  else if dwy <? 334 + leap then 10
  else 11.

Definition MonthFromTime (t : Z) : Z := monthOfDay (InLeapYear t) (DayWithinYear t).
Definition DateFromTime (t : Z) : Z :=
  DayWithinYear t - monthStart (InLeapYear t) (MonthFromTime t) + 1.

Definition HourFromTime (t : Z) : Z := (t / msPerHour) mod 24.
Definition MinFromTime (t : Z) : Z := (t / msPerMinute) mod 60.
Definition SecFromTime (t : Z) : Z := (t / msPerSecond) mod 60.
Definition msFromTime (t : Z) : Z := t mod msPerSecond.

Definition MakeTime (hour min sec ms : Z) : Z :=
  hour * msPerHour + min * msPerMinute + sec * msPerSecond + ms.

(** [MakeDay] for a month already within 0 to 11. *)
Definition MakeDay (year month date : Z) : Z :=
  DayFromYear year + monthStart (if isLeapYear year then 1 else 0) month + date - 1.

Definition MakeDate (day time : Z) : Z := day * msPerDay + time.

Definition TimeClip (t : Z) : Date :=
  if Z.abs t <=? maxTime then TimeValue t else InvalidDate.

(** Fixed-width decimal fields. *)
Definition digit_char (n : Z) : ascii := ascii_of_nat (48 + Z.to_nat n).

Fixpoint pad_digits (w : nat) (n : Z) : string :=
  match w with
  | O => EmptyString
  | S w' => String (digit_char ((n / 10 ^ Z.of_nat w') mod 10)) (pad_digits w' n)
  end.

Definition digit_value (c : ascii) : option Z :=
  if is_digit c then Some (Z.of_nat (nat_of_ascii c) - 48) else None.

Fixpoint read_digits (w : nat) (acc : Z) (s : string) : option (Z * string) :=
  match w with
  | O => Some (acc, s)
  | S w' =>
      match s with
      | String c rest =>
          match digit_value c with
          | Some v => read_digits w' (10 * acc + v) rest
          | None => None
          end
      | EmptyString => None
      end
  end.

Definition expect (c : ascii) (s : string) : option string :=
  match s with
  | String c' rest => if Ascii.eqb c c' then Some rest else None
  | EmptyString => None
  end.

(** [Date.prototype.toISOString] on a time value: [YYYY-MM-DDTHH:mm:ss.sssZ],
    the year written with a sign and six digits outside 0 to 9999. *)
Definition isoYear (y : Z) : string :=
  if (0 <=? y) && (y <=? 9999) then pad_digits 4 y
  else String (if 0 <=? y then "+"%char else "-"%char) (pad_digits 6 (Z.abs y)).

Definition toISOString (t : Z) : string :=
  isoYear (YearFromTime t) +:+ "-" +:+ pad_digits 2 (MonthFromTime t + 1)
  +:+ "-" +:+ pad_digits 2 (DateFromTime t)
  +:+ "T" +:+ pad_digits 2 (HourFromTime t)
  +:+ ":" +:+ pad_digits 2 (MinFromTime t)
  +:+ ":" +:+ pad_digits 2 (SecFromTime t)
  +:+ "." +:+ pad_digits 3 (msFromTime t) +:+ "Z".

Definition daysInMonth (year month : Z) : Z :=
  let leap := if isLeapYear year then 1 else 0 in
  if month =? 11 then 31 else monthStart leap (month + 1) - monthStart leap month.

(** The year of a date-time string: four digits, or a sign and six. *)
Definition year_format (s : string) : Z * nat * string :=
  match s with
  | String "+" r => (1, 6%nat, r)
  | String "-" r => (-1, 6%nat, r)
  | _ => (1, 4%nat, s)
  end.

(** What follows the year in [YYYY-MM-DDTHH:mm:ss.sssZ], and the time value
    of the fields read. *)
Definition parse_after_year (sign y : Z) (s : string) : option Date :=
  s ← expect "-" s;
  '(mo, s) ← read_digits 2 0 s;
  s ← expect "-" s;
  '(d, s) ← read_digits 2 0 s;
  s ← expect "T" s;
  '(h, s) ← read_digits 2 0 s;
  s ← expect ":" s;
  '(mi, s) ← read_digits 2 0 s;
  s ← expect ":" s;
  '(sec, s) ← read_digits 2 0 s;
  s ← expect "." s;
  '(ms, s) ← read_digits 3 0 s;
  s ← expect "Z" s;
  let year := sign * y in
  if negb (String.eqb s EmptyString) then None
  else if (sign =? -1) && (y =? 0) then None
  else if negb ((1 <=? mo) && (mo <=? 12)) then None
  else if negb ((1 <=? d) && (d <=? daysInMonth year (mo - 1))) then None
  else if negb ((h <=? 23) && (mi <=? 59) && (sec <=? 59)) then None
  else Some (TimeClip (MakeDate (MakeDay year (mo - 1) d) (MakeTime h mi sec ms))).

(** [Date.parse] on the complete UTC form that [toISOString] writes. The
    other date-time forms a runtime accepts are not recognised here. *)
Definition parseISO (s : string) : Date :=
  let '(sign, width, s) := year_format s in
  default InvalidDate
    ('(y, s) ← read_digits width 0 s; parse_after_year sign y s).

End JsDate.

Import Js Phone JsDate.

(** ** Data model *)

#[local] Set Warnings "-register-all".

(** A JSON document. [localStorage] keeps the text that [JSON.stringify]
    prints; the model keeps the document that text denotes, which is what
    [JSON.parse] returns for it. Numbers are the integral ones. *)
Inductive json :=
| JNull
| JBool (b : bool)
| JNumber (n : Z)
| JString (s : string)
| JArray (items : list json)
| JObject (fields : list (string * json)).

(** [status: 'pending' | 'approved' | 'cancelled' | 'failed'] *)
Inductive OTPStatus := pending | approved | cancelled | failed.

Record OTPVerificationResult := {
  status : OTPStatus;
  valid : bool;
  sid : option string;
  errorMessage : option string
}.

(** [OTPSendResult]; its status is only ever [pending] or [failed]. *)
Record OTPSendResult := {
  send_status : OTPStatus;
  send_sid : option string;
  send_errorMessage : option string
}.

Record OTPEntry := {
  code : string;
  expiresAt : Z
}.

Inductive UserType := patient | asha | doctor | admin.

(** [User]. An optional property is [None] when it is [undefined]. The linked
    ABHA profile is an opaque record of another service, kept as the JSON
    document it serialises to. *)
Record User := {
  id : string;
  name : string;
  email : option string;
  phone : string;
  userType : UserType;
  profilePhoto : option string;
  isVerified : bool;
  abhaProfile : option json;
  specialty : option string;
  village : option string;
  organization : option string;
  createdAt : Date;
  lastLogin : Date
}.

(** [user.lastLogin = d] *)
Definition set_lastLogin (d : Date) (u : User) : User :=
  {| id := id u; name := name u; email := email u; phone := phone u;
     userType := userType u; profilePhoto := profilePhoto u;
     isVerified := isVerified u; abhaProfile := abhaProfile u;
     specialty := specialty u; village := village u;
     organization := organization u;
     createdAt := createdAt u; lastLogin := d |}.

(** [user.abhaProfile = profile; user.isVerified = true] *)
Definition link_profile (profile : json) (u : User) : User :=
  {| id := id u; name := name u; email := email u; phone := phone u;
     userType := userType u; profilePhoto := profilePhoto u;
     isVerified := true; abhaProfile := Some profile;
     specialty := specialty u; village := village u;
     organization := organization u;
     createdAt := createdAt u; lastLogin := lastLogin u |}.

Record UserRegistration := {
  reg_name : string;
  reg_email : option string;
  reg_phone : string;
  reg_userType : UserType;
  reg_specialty : option string;
  reg_village : option string;
  reg_organization : option string
}.

(** The object literal of [createUser]. *)
Definition newUser (userId : string) (registration : UserRegistration)
    (created login : Date) : User :=
  {| id := userId;
     name := reg_name registration;
     email := reg_email registration;
     phone := reg_phone registration;
     userType := reg_userType registration;
     profilePhoto := None;
     isVerified := false;
     abhaProfile := None;
     specialty := reg_specialty registration;
     village := reg_village registration;
     organization := reg_organization registration;
     createdAt := created;
     lastLogin := login |}.

Record AuthResult := {
  success : bool;
  user : option User;
  error : option string;
  requiresOTP : option bool;
  otpSent : option bool
}.

(** A value of [otpSessions]: [{ phone, timestamp }]. *)
Record OtpSession := {
  session_phone : string;
  timestamp : Z
}.

(** Everything the two singleton services read and write: the runtime's
    clock (the successive readings of [Date.now()] and [new Date()]), its
    random source (the successive results of [Math.random()]), the rendering
    of a fraction in radix 36, the [localStorage] item ['easymed_users'], and
    the services' own maps. [users] is a JavaScript [Map]: an association
    list in insertion order with distinct keys. *)
Record World := {
  clock : nat -> Z;
  ticks : nat;
  random : nat -> Q;
  draws : nat;
  toString36 : Q -> string;
  localStorage : option json;
  otpStore : gmap string OTPEntry;
  users : list (string * User);
  pendingRegistrations : gmap string UserRegistration;
  otpSessions : gmap string OtpSession
}.

Definition set_ticks (n : nat) (w : World) : World :=
  {| clock := clock w; ticks := n; random := random w; draws := draws w;
     toString36 := toString36 w; localStorage := localStorage w;
     otpStore := otpStore w; users := users w;
     pendingRegistrations := pendingRegistrations w; otpSessions := otpSessions w |}.

Definition set_draws (n : nat) (w : World) : World :=
  {| clock := clock w; ticks := ticks w; random := random w; draws := n;
     toString36 := toString36 w; localStorage := localStorage w;
     otpStore := otpStore w; users := users w;
     pendingRegistrations := pendingRegistrations w; otpSessions := otpSessions w |}.

Definition set_localStorage (v : option json) (w : World) : World :=
  {| clock := clock w; ticks := ticks w; random := random w; draws := draws w;
     toString36 := toString36 w; localStorage := v;
     otpStore := otpStore w; users := users w;
     pendingRegistrations := pendingRegistrations w; otpSessions := otpSessions w |}.

Definition set_otpStore (m : gmap string OTPEntry) (w : World) : World :=
  {| clock := clock w; ticks := ticks w; random := random w; draws := draws w;
     toString36 := toString36 w; localStorage := localStorage w;
     otpStore := m; users := users w;
     pendingRegistrations := pendingRegistrations w; otpSessions := otpSessions w |}.

Definition set_users (l : list (string * User)) (w : World) : World :=
  {| clock := clock w; ticks := ticks w; random := random w; draws := draws w;
     toString36 := toString36 w; localStorage := localStorage w;
     otpStore := otpStore w; users := l;
     pendingRegistrations := pendingRegistrations w; otpSessions := otpSessions w |}.

Definition set_pendingRegistrations (m : gmap string UserRegistration) (w : World) : World :=
  {| clock := clock w; ticks := ticks w; random := random w; draws := draws w;
     toString36 := toString36 w; localStorage := localStorage w;
     otpStore := otpStore w; users := users w;
     pendingRegistrations := m; otpSessions := otpSessions w |}.

Definition set_otpSessions (m : gmap string OtpSession) (w : World) : World :=
  {| clock := clock w; ticks := ticks w; random := random w; draws := draws w;
     toString36 := toString36 w; localStorage := localStorage w;
     otpStore := otpStore w; users := users w;
     pendingRegistrations := pendingRegistrations w; otpSessions := m |}.

(** ** The state monad of the services *)

Definition M (A : Type) : Type := World -> A * World.

Definition ret {A} (a : A) : M A := fun w => (a, w).
Definition bind {A B} (m : M A) (k : A -> M B) : M B :=
  fun w => let (a, w') := m w in k a w'.
Definition gets {A} (f : World -> A) : M A := fun w => (f w, w).
Definition modify (f : World -> World) : M unit := fun w => (tt, f w).

Declare Scope js_scope.
Delimit Scope js_scope with js.
Notation "'let*' x := m 'in' k" := (bind m (fun x => k))
  (at level 10, x name, m at level 100, k at level 200) : js_scope.
Notation "m ;;; k" := (bind m (fun _ => k))
  (at level 100, right associativity) : js_scope.

(** [Date.now()] *)
Definition Date_now : M Z :=
  fun w => (clock w (ticks w), set_ticks (S (ticks w)) w).

(** [new Date()] *)
Definition new_Date : M Date :=
  fun w => (TimeValue (clock w (ticks w)), set_ticks (S (ticks w)) w).

(** [Math.random()] *)
Definition Math_random : M Q :=
  fun w => (random w (draws w), set_draws (S (draws w)) w).

Local Open Scope js_scope.

(** ** JavaScript [Map] with string keys, as [users] uses it *)

Module JsMap.
Section map.
Context {V : Type}.

(** [m.get(k)] *)
Fixpoint get (k : string) (m : list (string * V)) : option V :=
  match m with
  | [] => None
  | (k', v) :: rest => if String.eqb k k' then Some v else get k rest
  end.

(** [m.set(k, v)]: an existing key keeps its place, a new one goes last. *)
Fixpoint set (k : string) (v : V) (m : list (string * V)) : list (string * V) :=
  match m with
  | [] => [(k, v)]
  | (k', v') :: rest =>
      if String.eqb k k' then (k, v) :: rest else (k', v') :: set k v rest
  end.

(** The first entry, in insertion order, whose value satisfies [p]: the
    loop [for (const v of m.values()) if (p(v)) return v], which hands
    back the object stored there, named here by its key. *)
Fixpoint find (p : V -> bool) (m : list (string * V)) : option (string * V) :=
  match m with
  | [] => None
  | (k, v) :: rest => if p v then Some (k, v) else find p rest
  end.

(** An assignment to a field of the object stored under [k]. *)
Fixpoint update (k : string) (f : V -> V) (m : list (string * V)) : list (string * V) :=
  match m with
  | [] => []
  | (k', v) :: rest =>
      if String.eqb k k' then (k', f v) :: rest else (k', v) :: update k f rest
  end.
End map.
End JsMap.

(** ** [twilioService.ts]: the OTP issuer and verifier *)

Module TwilioService.

Definition formatPhoneNumber := Phone.formatPhoneNumber.
Definition isValidPhoneNumber := Phone.isValidPhoneNumber.

(** [Math.floor(100000 + Math.random() * 900000).toString()], in exact
    arithmetic on the fraction drawn. *)
Definition generateOTP (r : Q) : string :=
  pretty (Qfloor (100000 + r * 900000)).

Definition sendOTP (phoneNumber : string) : M OTPSendResult :=
  if negb (isValidPhoneNumber phoneNumber) then
    (* throw new Error(...), caught below in the same function *)
    ret {| send_status := failed; send_sid := None;
           send_errorMessage := Some "Invalid phone number format" |}
  else
    let* r := Math_random in
    let otp := generateOTP r in
    let* now := Date_now in
    let expiresAt := now + 5 * 60 * 1000 in
    modify (fun w => set_otpStore
              (<[phoneNumber := {| code := otp; expiresAt := expiresAt |}]> (otpStore w)) w) ;;;
    let* t := Date_now in
    ret {| send_status := pending;
           send_sid := Some ("demo_verification_" +:+ pretty t);
           send_errorMessage := None |}.

(** The result of the first branch of [verifyOTP], taken when the entry is
    missing and when it is out of date alike. *)
Definition expiredResult : OTPVerificationResult :=
  {| status := failed; valid := false; sid := None;
     errorMessage := Some "OTP session expired. Please request a new OTP." |}.

Definition invalidResult : OTPVerificationResult :=
  {| status := failed; valid := false; sid := None;
     errorMessage := Some "Invalid OTP" |}.

Definition deleteOTP (phoneNumber : string) : M unit :=
  modify (fun w => set_otpStore (delete phoneNumber (otpStore w)) w).

Definition verifyOTP (phoneNumber code_ : string) : M OTPVerificationResult :=
  let* session := gets (fun w => otpStore w !! phoneNumber) in
  (* !session || Date.now() > session.expiresAt : the clock is read only
     when the entry is there *)
  match session with
  | None =>
      deleteOTP phoneNumber ;;;
      ret expiredResult
  | Some s =>
      let* now := Date_now in
      if expiresAt s <? now then
        deleteOTP phoneNumber ;;;
        ret expiredResult
      else if negb (String.eqb (code s) code_) then
        ret invalidResult
      else
        deleteOTP phoneNumber ;;;
        let* t := Date_now in
        ret {| status := approved; valid := true;
               sid := Some ("demo_verification_check_" +:+ pretty t);
               errorMessage := None |}
  end.

(** The credentials and the build mode the service reads from
    [import.meta.env] when it is constructed; a variable that is not set
    reads as the empty string ([|| '']). *)
Record TwilioEnv := {
  VITE_TWILIO_ACCOUNT_SID : string;
  VITE_TWILIO_AUTH_TOKEN : string;
  VITE_TWILIO_VERIFY_SERVICE_SID : string;
  MODE : string
}.

(** [!!(this.accountSid && this.authToken && this.serviceSid)] *)
Definition isConfigured (env : TwilioEnv) : bool :=
  negb (String.eqb (VITE_TWILIO_ACCOUNT_SID env) EmptyString)
  && negb (String.eqb (VITE_TWILIO_AUTH_TOKEN env) EmptyString)
  && negb (String.eqb (VITE_TWILIO_VERIFY_SERVICE_SID env) EmptyString).

Record TwilioStatus := {
  configured : bool;
  demoMode : bool;
  accountSid : string;
  serviceSid : string
}.

(** [s ? s.substring(0, 10) + '...' : 'Not set'] *)
Definition masked (s : string) : string :=
  if String.eqb s EmptyString then "Not set"
  else String.substring 0 10 s +:+ "...".

Definition getStatus (env : TwilioEnv) : TwilioStatus :=
  {| configured := isConfigured env;
     demoMode := negb (isConfigured env) || String.eqb (MODE env) "development";
     accountSid := masked (VITE_TWILIO_ACCOUNT_SID env);
     serviceSid := masked (VITE_TWILIO_VERIFY_SERVICE_SID env) |}.

End TwilioService.

(** ** The JSON form of the user directory *)

Module Persist.

(** [JSON.stringify] of a [Date]: [toJSON] gives the ISO string, or [null]
    for the Invalid Date. *)
Definition date_toJSON (d : Date) : json :=
  match d with
  | TimeValue t => JString (toISOString t)
  | InvalidDate => JNull
  end.

(** [new Date(v)] on a property read back from the parsed document
    ([None] when the property is missing). A string is parsed, the other
    primitives are converted to a number; arrays and objects are taken as
    unparseable. *)
Definition date_revive (v : option json) : Date :=
  match v with
  | Some (JString s) => parseISO s
  | Some JNull => TimeValue 0
  | Some (JBool b) => TimeValue (if b then 1 else 0)
  | Some (JNumber n) => TimeClip n
  | Some (JArray _) | Some (JObject _) => InvalidDate
  | None => InvalidDate
  end.

Definition userType_toJSON (t : UserType) : json :=
  JString match t with
          | patient => "patient" | asha => "asha"
          | doctor => "doctor" | admin => "admin"
          end.

Definition userType_ofJSON (j : json) : option UserType :=
  match j with
  | JString s =>
      if String.eqb s "patient" then Some patient
      else if String.eqb s "asha" then Some asha
      else if String.eqb s "doctor" then Some doctor
      else if String.eqb s "admin" then Some admin
      else None
  | _ => None
  end.

(** A property whose value is [undefined] is left out by [JSON.stringify]. *)
Definition optional (k : string) (v : option json) : list (string * json) :=
  match v with
  | Some j => [(k, j)]
  | None => []
  end.

Definition user_toJSON (u : User) : json :=
  JObject
    ([("id", JString (id u)); ("name", JString (name u))]
     ++ optional "email" (JString <$> email u)
     ++ [("phone", JString (phone u)); ("userType", userType_toJSON (userType u))]
     ++ optional "specialty" (JString <$> specialty u)
     ++ optional "village" (JString <$> village u)
     ++ optional "organization" (JString <$> organization u)
     ++ [("isVerified", JBool (isVerified u));
         ("createdAt", date_toJSON (createdAt u));
         ("lastLogin", date_toJSON (lastLogin u))]
     ++ optional "abhaProfile" (abhaProfile u)
     ++ optional "profilePhoto" (JString <$> profilePhoto u)).

(** Property read on a parsed object; of a repeated key the last one counts. *)
Fixpoint prop (k : string) (fields : list (string * json)) : option json :=
  match fields with
  | [] => None
  | (k', v) :: rest =>
      match prop k rest with
      | Some v' => Some v'
      | None => if String.eqb k k' then Some v else None
      end
  end.

Definition req_string (k : string) (fields : list (string * json)) : option string :=
  match prop k fields with
  | Some (JString s) => Some s
  | _ => None
  end.

Definition opt_string (k : string) (fields : list (string * json)) : option (option string) :=
  match prop k fields with
  | Some (JString s) => Some (Some s)
  | None => Some None
  | _ => None
  end.

(** The stored object seen as a [User] ([userObj as any ... as User]), its two
    date properties replaced by [Date] objects. The cast checks nothing; the
    result is [None] for a value that is not an object or whose properties
    do not have the types [User] declares, which the record cannot hold. *)
Definition user_ofJSON (j : json) : option User :=
  match j with
  | JObject f =>
      id_ ← req_string "id" f;
      name_ ← req_string "name" f;
      email_ ← opt_string "email" f;
      phone_ ← req_string "phone" f;
      userType_ ← prop "userType" f ≫= userType_ofJSON;
      profilePhoto_ ← opt_string "profilePhoto" f;
      isVerified_ ← match prop "isVerified" f with Some (JBool b) => Some b | _ => None end;
      specialty_ ← opt_string "specialty" f;
      village_ ← opt_string "village" f;
      organization_ ← opt_string "organization" f;
      Some {| id := id_; name := name_; email := email_; phone := phone_;
              userType := userType_; profilePhoto := profilePhoto_;
              isVerified := isVerified_; abhaProfile := prop "abhaProfile" f;
              specialty := specialty_; village := village_;
              organization := organization_;
              createdAt := date_revive (prop "createdAt" f);
              lastLogin := date_revive (prop "lastLogin" f) |}
  | _ => None
  end.

(** [JSON.stringify(Object.fromEntries(this.users))] *)
Definition users_toJSON (m : list (string * User)) : json :=
  JObject (map (fun '(k, u) => (k, user_toJSON u)) m).

(** The loop of [loadUsersFromStorage] over [Object.entries(userData)]. An
    entry that is no [User] ends the loop, as the exception it raises on
    [null] or a primitive does; what was set before it stays. *)
Fixpoint load_entries (entries : list (string * json)) (m : list (string * User))
  : list (string * User) :=
  match entries with
  | [] => m
  | (k, j) :: rest =>
      match user_ofJSON j with
      | Some u => load_entries rest (JsMap.set k u m)
      | None => m
      end
  end.

End Persist.

(** ** [realAuthService.ts]: the session and login orchestrator *)

Module RealAuthService.

Definition failure (msg : string) : AuthResult :=
  {| success := false; user := None; error := Some msg;
     requiresOTP := None; otpSent := None |}.

(** [{ success: true, otpSent: true, requiresOTP: true }] *)
Definition otpSentResult : AuthResult :=
  {| success := true; user := None; error := None;
     requiresOTP := Some true; otpSent := Some true |}.

(** [localStorage.setItem] is taken to succeed; the [catch] only logs. *)
Definition saveUsersToStorage : M unit :=
  modify (fun w => set_localStorage (Some (Persist.users_toJSON (users w))) w).

Definition loadUsersFromStorage : M unit :=
  let* stored := gets localStorage in
  match stored with
  | Some (JObject entries) =>
      modify (fun w => set_users (Persist.load_entries entries (users w)) w)
  | _ => ret tt
  end.

Definition findUserByPhone (phone_ : string) : M (option (string * User)) :=
  gets (fun w => JsMap.find (fun u => String.eqb (phone u) phone_) (users w)).

Definition findUserByEmail (email_ : string) : M (option (string * User)) :=
  gets (fun w => JsMap.find (fun u => bool_decide (email u = Some email_)) (users w)).

Definition getUserById (userId : string) : M (option User) :=
  gets (fun w => JsMap.get userId (users w)).

(** [createUser]; the new object is handed back by the key it is stored
    under. *)
Definition createUser (registration : UserRegistration) : M string :=
  let* t := Date_now in
  let* r := Math_random in
  let* radix36 := gets toString36 in
  let userId := "user_" +:+ pretty t +:+ "_" +:+ String.substring 2 13 (radix36 r) in
  let* created := new_Date in
  let* login := new_Date in
  let user_ := newUser userId registration created login in
  modify (fun w => set_users (JsMap.set userId user_ (users w)) w) ;;;
  saveUsersToStorage ;;;
  ret userId.

(** [user.lastLogin = new Date(); this.saveUsersToStorage(); return
    { success: true, user }] for the object stored under [key]. *)
Definition touchAndReturn (key : string) : M AuthResult :=
  let* d := new_Date in
  modify (fun w => set_users (JsMap.update key (set_lastLogin d) (users w)) w) ;;;
  saveUsersToStorage ;;;
  let* u := getUserById key in
  ret {| success := true; user := u; error := None;
         requiresOTP := None; otpSent := None |}.

Definition sendOTP (phoneNumber : string) : M AuthResult :=
  match TwilioService.formatPhoneNumber phoneNumber with
  | None => ret (failure "Invalid phone number format")
  | Some formattedPhone =>
      let* result := TwilioService.sendOTP formattedPhone in
      match send_status result with
      | pending =>
          let* now := Date_now in
          modify (fun w => set_otpSessions
                    (<[formattedPhone :=
                         {| session_phone := formattedPhone; timestamp := now |}]>
                       (otpSessions w)) w) ;;;
          ret otpSentResult
      | _ => ret (failure (default "Failed to send OTP" (send_errorMessage result)))
      end
  end.

Definition verifyOTPAndLogin (phoneNumber otp : string) : M AuthResult :=
  match TwilioService.formatPhoneNumber phoneNumber with
  | None => ret (failure "Invalid phone number format")
  | Some formattedPhone =>
      let* session := gets (fun w => otpSessions w !! formattedPhone) in
      match session with
      | None => ret (failure "No OTP session found. Please request a new OTP.")
      | Some session =>
          let* now := Date_now in
          if 5 * 60 * 1000 <? now - timestamp session then
            modify (fun w => set_otpSessions (delete formattedPhone (otpSessions w)) w) ;;;
            ret (failure "OTP session expired. Please request a new OTP.")
          else
            let* verificationResult := TwilioService.verifyOTP formattedPhone otp in
            if negb (valid verificationResult) then
              ret (failure (default "Invalid OTP" (errorMessage verificationResult)))
            else
              modify (fun w => set_otpSessions (delete formattedPhone (otpSessions w)) w) ;;;
              let* found := findUserByPhone formattedPhone in
              let* key :=
                match found with
                | Some (k, _) => ret k
                | None =>
                    let* pendingReg := gets (fun w => pendingRegistrations w !! formattedPhone) in
                    match pendingReg with
                    | Some reg =>
                        let* k := createUser reg in
                        modify (fun w => set_pendingRegistrations
                                  (delete formattedPhone (pendingRegistrations w)) w) ;;;
                        ret k
                    | None =>
                        createUser
                          {| reg_name := "User " +:+ slice_last 4 formattedPhone;
                             reg_email := None;
                             reg_phone := formattedPhone;
                             reg_userType := patient;
                             reg_specialty := None;
                             reg_village := None;
                             reg_organization := None |}
                    end
                end in
              touchAndReturn key
      end
  end.

Definition registerUser (registration : UserRegistration) : M AuthResult :=
  match TwilioService.formatPhoneNumber (reg_phone registration) with
  | None => ret (failure "Invalid phone number format")
  | Some formattedPhone =>
      let* found := findUserByPhone formattedPhone in
      match found with
      | Some _ => ret (failure "User already exists with this phone number")
      | None =>
          modify (fun w => set_pendingRegistrations
                    (<[formattedPhone :=
                         {| reg_name := reg_name registration;
                            reg_email := reg_email registration;
                            reg_phone := formattedPhone;
                            reg_userType := reg_userType registration;
                            reg_specialty := reg_specialty registration;
                            reg_village := reg_village registration;
                            reg_organization := reg_organization registration |}]>
                       (pendingRegistrations w)) w) ;;;
          sendOTP formattedPhone
      end
  end.

Definition adminPhones : list string := ["+919060328119"].
Definition adminEmails : list string :=
  ["praveen@stellaronehealth.com"; "admin@easymed.in"; "admin@gmail.com"].
Definition adminPasswords : list string := ["dummy123"; "admin123"; "easymed2025"].

(** The [if] branch of [authenticateAdmin]. *)
Definition authenticateAdminPhone (identifier : string) : M AuthResult :=
  match TwilioService.formatPhoneNumber identifier with
  | None => ret (failure "Invalid phone number format")
  | Some formattedPhone =>
      if negb (includes adminPhones formattedPhone) then
        ret (failure "Access denied. Contact system administrator.")
      else sendOTP formattedPhone
  end.

(** The [else] branch of [authenticateAdmin]. [!password] also holds of the
    empty string. *)
Definition authenticateAdminEmail (identifier : string) (password : option string)
  : M AuthResult :=
  if negb (includes adminEmails identifier) then
    ret (failure "Access denied. Contact system administrator.")
  else
    match password with
    | None => ret (failure "Invalid password")
    | Some pw =>
        if String.eqb pw EmptyString || negb (includes adminPasswords pw) then
          ret (failure "Invalid password")
        else
          let* found := findUserByEmail identifier in
          let* key :=
            match found with
            | Some (k, _) => ret k
            | None =>
                let praveen := String.eqb identifier "praveen@stellaronehealth.com" in
                createUser
                  {| reg_name := if praveen then "Praveen - StellarOne Health"
                                 else "Admin User";
                     reg_email := Some identifier;
                     reg_phone := "+919060328119";
                     reg_userType := admin;
                     reg_specialty := None;
                     reg_village := None;
                     reg_organization :=
                       Some (if praveen then "StellarOne Health" else "EasyMed") |}
            end in
          touchAndReturn key
    end.

Definition authenticateAdmin (identifier : string) (password : option string)
  : M AuthResult :=
  if looksLikePhone identifier then authenticateAdminPhone identifier
  else authenticateAdminEmail identifier password.

Definition linkABHAProfile (userId : string) (profile : json) : M bool :=
  let* found := getUserById userId in
  match found with
  | None => ret false
  | Some _ =>
      modify (fun w => set_users (JsMap.update userId (link_profile profile) (users w)) w) ;;;
      saveUsersToStorage ;;;
      ret true
  end.

(** The state a freshly constructed service starts from on a page that
    holds [w]'s runtime and storage: empty maps, then the constructor's
    [loadUsersFromStorage]. *)
Definition fresh (w : World) : World :=
  {| clock := clock w; ticks := ticks w; random := random w; draws := draws w;
     toString36 := toString36 w; localStorage := localStorage w;
     otpStore := ∅; users := [];
     pendingRegistrations := ∅; otpSessions := ∅ |}.

Definition constructor (w : World) : World :=
  snd (loadUsersFromStorage (fresh w)).

(** What [getStatus] returns: the issuer's status and the sizes of the three
    maps. *)
Record AuthStatus := {
  twilioStatus : TwilioService.TwilioStatus;
  totalUsers : nat;
  pendingRegistrationCount : nat;
  activeSessions : nat
}.

Definition getStatus (env : TwilioService.TwilioEnv) : M AuthStatus :=
  gets (fun w =>
    {| twilioStatus := TwilioService.getStatus env;
       totalUsers := length (users w);
       pendingRegistrationCount := size (pendingRegistrations w);
       activeSessions := size (otpSessions w) |}).

(** [clearAllData]: the three maps of this service are emptied and the
    stored item is removed; the issuer's [otpStore] is not touched. *)
Definition clearAllData : M unit :=
  modify (fun w =>
    set_localStorage None
      (set_otpSessions ∅ (set_pendingRegistrations ∅ (set_users [] w)))).

End RealAuthService.

(** The routing condition in the words of the specification: the digits of
    the identifier, all other characters dropped, are two to fifteen in
    number and start with a digit from 1 to 9. *)
Definition digits_form_phone (identifier : string) : bool :=
  let digits := strip_non_digits identifier in
  (2 <=? String.length digits)%nat && (String.length digits <=? 15)%nat
  && match digits with
     | String c _ => is_digit19 c
     | EmptyString => false
     end.

(** A [Date] that holds a time value within the range of the type (100
    million days either side of the epoch): what [new Date()] makes. *)
Definition Date_ok (d : Date) : Prop :=
  exists t, d = TimeValue t /\ Z.abs t <= maxTime.

(** The entry [TwilioService.sendOTP] stores when it runs in [w]: the code
    from the next draw, the expiry five minutes after the next reading. *)
Definition issued (w : World) : OTPEntry :=
  {| code := TwilioService.generateOTP (random w (draws w));
     expiresAt := clock w (ticks w) + 5 * 60 * 1000 |}.

(** ** Runs of the orchestrator

    The calls a page makes on the [authService] singleton, and the worlds
    they lead to from a service just constructed. *)

Inductive Call :=
| CallSendOTP (phoneNumber : string)
| CallVerifyOTPAndLogin (phoneNumber otp : string)
| CallRegisterUser (registration : UserRegistration)
| CallAuthenticateAdmin (identifier : string) (password : option string)
| CallLinkABHAProfile (userId : string) (profile : json).

Definition run (c : Call) (w : World) : World :=
  match c with
  | CallSendOTP p => snd (RealAuthService.sendOTP p w)
  | CallVerifyOTPAndLogin p otp => snd (RealAuthService.verifyOTPAndLogin p otp w)
  | CallRegisterUser reg => snd (RealAuthService.registerUser reg w)
  | CallAuthenticateAdmin i pw => snd (RealAuthService.authenticateAdmin i pw w)
  | CallLinkABHAProfile u prof => snd (RealAuthService.linkABHAProfile u prof w)
  end.

Definition run_all (cs : list Call) (w : World) : World :=
  fold_left (fun w c => run c w) cs w.

(** The clock never goes back. *)
Definition monotone_clock (w : World) : Prop :=
  forall i j, (i <= j)%nat -> clock w i <= clock w j.

(** Every entry of [otpStore] is covered by a session stamped late enough to
    outlast it, or is already out of date. *)
Definition sessions_cover (w : World) : Prop :=
  forall p e, otpStore w !! p = Some e ->
    (exists s, otpSessions w !! p = Some s /\ expiresAt e <= timestamp s + 300000)
    \/ expiresAt e < clock w (ticks w).

(** What a call can do to the two OTP maps: nothing; drop the entry of one
    phone, with or without its session; drop a timed-out session; or send
    a code, which stores an entry and stamps a session after it. *)
Inductive otp_effect (w w' : World) : Prop :=
| effect_none :
    otpStore w' = otpStore w -> otpSessions w' = otpSessions w -> otp_effect w w'
| effect_consumed p :
    otpStore w' = delete p (otpStore w) ->
    (otpSessions w' = otpSessions w \/ otpSessions w' = delete p (otpSessions w)) ->
    otp_effect w w'
| effect_timeout p s :
    otpStore w' = otpStore w ->
    otpSessions w !! p = Some s ->
    300000 < clock w (ticks w) - timestamp s ->
    otpSessions w' = delete p (otpSessions w) ->
    otp_effect w w'
| effect_sent p :
    otpStore w' = <[p := issued w]> (otpStore w) ->
    otpSessions w'
    = <[p := {| session_phone := p; timestamp := clock w (S (S (ticks w))) |}]>
        (otpSessions w) ->
    otp_effect w w'.

(** ** Further notions used by the properties *)

(** A phone number in the form [formatPhoneNumber] returns as it is. *)
Definition canonical (p : string) : Prop := formatPhoneNumber p = Some p.

(** What a call can do to the directory, the pending registrations and the
    stored item: nothing; store a draft under its normalised phone; touch
    the login date of one user or link a profile to one, and save; or create
    a user from a draft, touch it and save. The dates written are readings
    of the clock, which no call replaces. *)
Inductive dir_effect (w w' : World) : Prop :=
| dir_same :
    users w' = users w ->
    pendingRegistrations w' = pendingRegistrations w ->
    localStorage w' = localStorage w ->
    clock w' = clock w ->
    dir_effect w w'
| dir_draft p reg :
    canonical p -> reg_phone reg = p ->
    users w' = users w ->
    pendingRegistrations w' = <[p := reg]> (pendingRegistrations w) ->
    localStorage w' = localStorage w ->
    clock w' = clock w ->
    dir_effect w w'
| dir_touched k (n : nat) :
    users w' = JsMap.update k (set_lastLogin (TimeValue (clock w n))) (users w) ->
    pendingRegistrations w' = pendingRegistrations w ->
    localStorage w' = Some (Persist.users_toJSON (users w')) ->
    clock w' = clock w ->
    dir_effect w w'
| dir_linked k profile :
    users w' = JsMap.update k (link_profile profile) (users w) ->
    pendingRegistrations w' = pendingRegistrations w ->
    localStorage w' = Some (Persist.users_toJSON (users w')) ->
    clock w' = clock w ->
    dir_effect w w'
| dir_created k reg (c l n : nat) :
    users w'
    = JsMap.update k (set_lastLogin (TimeValue (clock w n)))
        (JsMap.set k (newUser k reg (TimeValue (clock w c)) (TimeValue (clock w l)))
           (users w)) ->
    (pendingRegistrations w' = pendingRegistrations w /\ canonical (reg_phone reg)
     \/ exists p, pendingRegistrations w !! p = Some reg
                  /\ pendingRegistrations w' = delete p (pendingRegistrations w)) ->
    localStorage w' = Some (Persist.users_toJSON (users w')) ->
    clock w' = clock w ->
    dir_effect w w'.

(** The keys a call adds to the two OTP maps are normalised phones, and a
    session is filed under its own phone. *)
Definition otp_keys_effect (w w' : World) : Prop :=
  (forall q e, otpStore w' !! q = Some e ->
     otpStore w !! q = Some e \/ canonical q)
  /\ (forall q s, otpSessions w' !! q = Some s ->
        otpSessions w !! q = Some s \/ (canonical q /\ session_phone s = q)).

(** Every phone the service holds is a normalised one: the keys of the OTP
    maps, the sessions and the drafts (each under its own phone), and the
    phone of every user. *)
Definition phones_canonical (w : World) : Prop :=
  (forall q e, otpStore w !! q = Some e -> canonical q)
  /\ (forall q s, otpSessions w !! q = Some s -> canonical q /\ session_phone s = q)
  /\ (forall q reg, pendingRegistrations w !! q = Some reg ->
        canonical q /\ reg_phone reg = q)
  /\ (forall k u, (k, u) ∈ users w -> canonical (phone u)).

(** The stored item holds the directory. *)
Definition storage_synced (w : World) : Prop :=
  localStorage w = Some (Persist.users_toJSON (users w)).

(** A caller that tries one code after another for a phone. *)
Fixpoint verifyEach (phoneNumber : string) (codes : list string)
  : M (list OTPVerificationResult) :=
  match codes with
  | [] => ret []
  | c :: rest =>
      let* r := TwilioService.verifyOTP phoneNumber c in
      let* rs := verifyEach phoneNumber rest in
      ret (r :: rs)
  end.

(** The directory is a map from each user's own id: distinct keys, and every
    user filed under its [id]. *)
Definition directory_wf (w : World) : Prop :=
  NoDup (users w).*1 /\ forall k u, (k, u) ∈ users w -> id u = k.

(** Every date in the directory is a reading of the clock. *)
Definition dates_from_clock (w : World) : Prop :=
  forall k u, (k, u) ∈ users w ->
    (exists n, createdAt u = TimeValue (clock w n))
    /\ (exists n, lastLogin u = TimeValue (clock w n)).

(** Nothing was ever saved and the directory is empty, or the stored item
    holds the directory. *)
Definition storage_follows (w : World) : Prop :=
  (localStorage w = None /\ users w = []) \/ storage_synced w.

(** ** Sample worlds

    A clock that starts at 2023-11-14T22:13:20Z and advances by [step]
    milliseconds at every reading, a random source that always draws 1/4
    (so every code is 325000), empty maps and no stored item. *)

Definition sample_world (step : Z) : World :=
  {| clock := fun n => 1700000000000 + step * Z.of_nat n;
     ticks := 0;
     random := fun _ => (1 # 4)%Q;
     draws := 0;
     toString36 := fun _ => "0.9zzzzzzzzzz";
     localStorage := None;
     otpStore := ∅; users := [];
     pendingRegistrations := ∅; otpSessions := ∅ |}.

Definition sample_phone : string := "+919876543210".

(** One second between readings: a code sent stays live for a while. *)
Definition sample_live : World :=
  snd (TwilioService.sendOTP sample_phone (sample_world 1000)).

(** Four hundred seconds between readings: a code sent is out of date at the
    next reading. *)
Definition sample_stale : World :=
  snd (TwilioService.sendOTP sample_phone (sample_world 400000)).

(** A directory with one user in it: the administrator logged in by e-mail
    in the sample world. *)
Definition sample_directory : World :=
  snd (RealAuthService.authenticateAdmin "admin@easymed.in" (Some "admin123")
         (sample_world 1000)).

(** One second between readings for the first hundred, then none: every
    reading is a time value a date can hold. *)
Definition sample_capped : World :=
  {| clock := fun n => 1700000000000 + 1000 * Z.of_nat (Nat.min n 100);
     ticks := 0;
     random := fun _ => (1 # 4)%Q;
     draws := 0;
     toString36 := fun _ => "0.9zzzzzzzzzz";
     localStorage := None;
     otpStore := ∅; users := [];
     pendingRegistrations := ∅; otpSessions := ∅ |}.

(** * Properties *)

(** Projections of the world through its setters, and one step of the monad. *)
Ltac wsimpl :=
  cbn [clock ticks random draws toString36 localStorage otpStore users
       pendingRegistrations otpSessions
       set_ticks set_draws set_localStorage set_otpStore set_users
       set_pendingRegistrations set_otpSessions fst snd] in *.

Ltac mrun :=
  unfold bind, gets, modify, ret, Date_now, new_Date, Math_random in *; wsimpl.

(** ** Phone normalisation *)

Section phone_facts.

Lemma strip_non_digits_all_digits s : all_digits (strip_non_digits s) = true.
Proof.
  induction s as [|c s IH]; simpl; [reflexivity|].
  destruct (is_digit c) eqn:E; simpl; [rewrite E|]; assumption.
Qed.

Lemma strip_non_digits_fixed s : all_digits s = true -> strip_non_digits s = s.
Proof.
  induction s as [|c s IH]; simpl; [reflexivity|].
  intros [Hc Hs]%andb_prop. rewrite Hc, IH; auto.
Qed.

Lemma strip_non_digits_idem s : strip_non_digits (strip_non_digits s) = strip_non_digits s.
Proof. apply strip_non_digits_fixed, strip_non_digits_all_digits. Qed.

Lemma is_digit19_is_digit c : is_digit19 c = true -> is_digit c = true.
Proof.
  unfold is_digit19, is_digit. cbv zeta.
  intros [H1 H2]%andb_prop. apply Nat.leb_le in H1.
  apply andb_true_intro; split; [apply Nat.leb_le; lia | assumption].
Qed.

Lemma prefix_cons a s1 b s2 :
  String.prefix (String a s1) (String b s2) = true ->
  a = b /\ String.prefix s1 s2 = true.
Proof.
  cbn [String.prefix]. destruct (Ascii.ascii_dec a b); [auto | discriminate].
Qed.

(** What [formatPhoneNumber] returns, by the branch taken. *)
Lemma formatPhoneNumber_cases raw p :
  formatPhoneNumber raw = Some p ->
  exists rest, p = String "+" (String "9" (String "1" rest))
               /\ all_digits rest = true /\ String.length rest = 10%nat.
Proof.
  unfold formatPhoneNumber, startsWith.
  pose proof (strip_non_digits_all_digits raw) as Hd.
  set (cleaned := strip_non_digits raw) in *.
  destruct ((String.length cleaned =? 10)%nat && String.prefix "6789" cleaned) eqn:B1.
  { apply andb_prop in B1 as [Hl _]. apply Nat.eqb_eq in Hl.
    intros [= <-]. exists cleaned. auto. }
  destruct ((String.length cleaned =? 12)%nat && String.prefix "91" cleaned) eqn:B2.
  { apply andb_prop in B2 as [Hl Hp]. apply Nat.eqb_eq in Hl.
    intros [= <-].
    destruct cleaned as [|a [|b rest]]; try discriminate.
    apply prefix_cons in Hp as [<- Hp]. apply prefix_cons in Hp as [<- _].
    exists rest. simpl in Hd, Hl. split; [reflexivity|]. split; [assumption | lia]. }
  destruct ((String.length cleaned =? 13)%nat && String.prefix "091" cleaned) eqn:B3;
    [|discriminate].
  apply andb_prop in B3 as [Hl Hp]. apply Nat.eqb_eq in Hl.
  intros [= <-].
  destruct cleaned as [|z [|a [|b rest]]]; try discriminate.
  apply prefix_cons in Hp as [<- Hp]. apply prefix_cons in Hp as [<- Hp].
  apply prefix_cons in Hp as [<- _].
  exists rest. simpl in Hd, Hl. split; [reflexivity|]. split; [assumption | lia].
Qed.

Lemma formatPhoneNumber_canonical rest :
  all_digits rest = true -> String.length rest = 10%nat ->
  formatPhoneNumber (String "+" (String "9" (String "1" rest)))
  = Some (String "+" (String "9" (String "1" rest))).
Proof.
  intros Hd Hl. unfold formatPhoneNumber, startsWith. simpl.
  rewrite (strip_non_digits_fixed rest Hd). simpl. rewrite Hl. simpl.
  destruct rest; reflexivity.
Qed.

(** A returned value is in the form the second branch returns as it is. *)
Lemma formatPhoneNumber_again raw p :
  formatPhoneNumber raw = Some p -> formatPhoneNumber p = Some p.
Proof.
  intros E. destruct (formatPhoneNumber_cases raw p E) as (rest & -> & Hd & Hl).
  apply formatPhoneNumber_canonical; assumption.
Qed.

End phone_facts.

(** C6. Whatever [formatPhoneNumber] returns passes [isValidPhoneNumber]: it
    is a [+], a first digit from 1 to 9 and further digits, at most fifteen
    digits in all. An input it rejects yields no value, and the operations
    that normalise their argument then fail with the world left as it was:
    nothing is stored under it. *)
Theorem formatPhoneNumber_e164 (raw : string) :
  match formatPhoneNumber raw with
  | Some p =>
      isValidPhoneNumber p = true
      /\ exists c rest,
           p = String "+" (String c rest)
           /\ is_digit19 c = true /\ all_digits rest = true
           /\ (String.length (String c rest) <= 15)%nat
  | None =>
      forall (w : World) (otp : string) (reg : UserRegistration),
        RealAuthService.sendOTP raw w
        = (RealAuthService.failure "Invalid phone number format", w)
        /\ RealAuthService.verifyOTPAndLogin raw otp w
           = (RealAuthService.failure "Invalid phone number format", w)
        /\ RealAuthService.registerUser
             {| reg_name := reg_name reg; reg_email := reg_email reg;
                reg_phone := raw; reg_userType := reg_userType reg;
                reg_specialty := reg_specialty reg; reg_village := reg_village reg;
                reg_organization := reg_organization reg |} w
           = (RealAuthService.failure "Invalid phone number format", w)
  end.
Proof.
  destruct (formatPhoneNumber raw) as [p|] eqn:E.
  - destruct (formatPhoneNumber_cases raw p E) as (rest & -> & Hd & Hl).
    split.
    + simpl. rewrite Hd, Hl. reflexivity.
    + exists "9"%char, (String "1" rest). simpl. rewrite Hd, Hl.
      repeat split; lia.
  - intros w otp reg.
    unfold RealAuthService.sendOTP, RealAuthService.verifyOTPAndLogin,
      RealAuthService.registerUser, TwilioService.formatPhoneNumber.
    simpl. rewrite E. repeat split.
Qed.

(** C7. Normalisation is idempotent: a value [formatPhoneNumber] returns is
    returned unchanged when it is normalised again. *)
Theorem formatPhoneNumber_idempotent (raw p : string) :
  formatPhoneNumber raw = Some p -> formatPhoneNumber p = Some p.
Proof.
  intros E. destruct (formatPhoneNumber_cases raw p E) as (rest & -> & Hd & Hl).
  apply formatPhoneNumber_canonical; assumption.
Qed.

Lemma formatPhoneNumber_idempotent_witness :
  formatPhoneNumber "0919876543210" = Some "+919876543210"
  /\ formatPhoneNumber "+919876543210" = Some "+919876543210".
Proof.
  split; [reflexivity|].
  apply (formatPhoneNumber_idempotent "0919876543210"). reflexivity.
Defined.

(** ** The OTP verifier *)

Section verifier_facts.

Lemma set_otpStore_same w : set_otpStore (otpStore w) w = w.
Proof. destruct w; reflexivity. Qed.

Lemma set_otpSessions_same w : set_otpSessions (otpSessions w) w = w.
Proof. destruct w; reflexivity. Qed.

(** No entry for the phone: the first branch, with nothing to delete. *)
Lemma verifyOTP_no_entry phone c w :
  otpStore w !! phone = None ->
  TwilioService.verifyOTP phone c w = (TwilioService.expiredResult, w).
Proof.
  intros H. unfold TwilioService.verifyOTP, TwilioService.deleteOTP,
    bind, gets, modify, ret. rewrite H.
  rewrite (delete_id _ _ H), set_otpStore_same. reflexivity.
Qed.

(** An entry whose expiry lies before the clock's next reading: the same
    branch, and the entry goes. *)
Lemma verifyOTP_stale phone c w e :
  otpStore w !! phone = Some e ->
  expiresAt e < clock w (ticks w) ->
  TwilioService.verifyOTP phone c w
  = (TwilioService.expiredResult,
     set_otpStore (delete phone (otpStore w)) (set_ticks (S (ticks w)) w)).
Proof.
  intros H Hlt. unfold TwilioService.verifyOTP, TwilioService.deleteOTP,
    bind, gets, modify, ret, Date_now. rewrite H.
  apply Z.ltb_lt in Hlt. rewrite Hlt. reflexivity.
Qed.

(** A live entry and another code: [Invalid OTP]; only the clock moved. *)
Lemma verifyOTP_wrong_code phone c w e :
  otpStore w !! phone = Some e ->
  clock w (ticks w) <= expiresAt e ->
  code e <> c ->
  TwilioService.verifyOTP phone c w
  = (TwilioService.invalidResult, set_ticks (S (ticks w)) w).
Proof.
  intros H Hle Hne. unfold TwilioService.verifyOTP, bind, gets, ret, Date_now.
  rewrite H. apply Z.ltb_ge in Hle. rewrite Hle.
  apply String.eqb_neq in Hne. rewrite Hne. reflexivity.
Qed.

(** A live entry and its code: approved, and the entry goes. *)
Lemma verifyOTP_right_code phone w e :
  otpStore w !! phone = Some e ->
  clock w (ticks w) <= expiresAt e ->
  TwilioService.verifyOTP phone (code e) w
  = ({| status := approved; valid := true;
        sid := Some ("demo_verification_check_" +:+ pretty (clock w (S (ticks w))));
        errorMessage := None |},
     set_ticks (S (S (ticks w)))
       (set_otpStore (delete phone (otpStore w)) w)).
Proof.
  intros H Hle. unfold TwilioService.verifyOTP, TwilioService.deleteOTP,
    bind, gets, modify, ret, Date_now.
  rewrite H. apply Z.ltb_ge in Hle. rewrite Hle.
  rewrite String.eqb_refl. reflexivity.
Qed.

(** The only way to [approved], read off the result. *)
Lemma verifyOTP_approved_inv phone c w :
  status (fst (TwilioService.verifyOTP phone c w)) = approved ->
  exists e, otpStore w !! phone = Some e
            /\ clock w (ticks w) <= expiresAt e /\ code e = c.
Proof.
  unfold TwilioService.verifyOTP, TwilioService.deleteOTP,
    bind, gets, modify, ret, Date_now.
  destruct (otpStore w !! phone) as [e|] eqn:H; [|discriminate].
  destruct (expiresAt e <? clock w (ticks w)) eqn:Hlt; [discriminate|].
  destruct (String.eqb (code e) c) eqn:Hc; [|discriminate].
  intros _. exists e. apply Z.ltb_ge in Hlt. apply String.eqb_eq in Hc. auto.
Qed.

End verifier_facts.

(** C2. A code is used once. When [verifyOTP] approves a code it deletes the
    phone's entry, and the same call made again, then or at any later time
    before a new code is sent, takes the branch for a phone without an entry:
    a failed result, not an approval. *)
Theorem verifyOTP_single_use (phone c : string) (w : World) :
  status (fst (TwilioService.verifyOTP phone c w)) = approved ->
  let w1 := snd (TwilioService.verifyOTP phone c w) in
  otpStore w1 !! phone = None
  /\ TwilioService.verifyOTP phone c w1 = (TwilioService.expiredResult, w1)
  /\ forall w2, otpStore w2 !! phone = None ->
       TwilioService.verifyOTP phone c w2 = (TwilioService.expiredResult, w2)
       /\ status (fst (TwilioService.verifyOTP phone c w2)) <> approved.
Proof.
  intros Happ. destruct (verifyOTP_approved_inv _ _ _ Happ) as (e & He & Hle & <-).
  rewrite (verifyOTP_right_code phone w e He Hle). cbn [snd].
  assert (Hgone : otpStore (set_ticks (S (S (ticks w)))
                    (set_otpStore (delete phone (otpStore w)) w)) !! phone = None)
    by apply lookup_delete_eq.
  split; [exact Hgone|]. split.
  - apply verifyOTP_no_entry. exact Hgone.
  - intros w2 H2. rewrite (verifyOTP_no_entry _ _ _ H2). split; [reflexivity | discriminate].
Qed.

Lemma verifyOTP_single_use_witness :
  status (fst (TwilioService.verifyOTP sample_phone "325000" sample_live)) = approved
  /\ status (fst (TwilioService.verifyOTP sample_phone "325000"
                   (snd (TwilioService.verifyOTP sample_phone "325000" sample_live))))
     = failed.
Proof.
  split; [vm_compute; reflexivity|].
  destruct (verifyOTP_single_use sample_phone "325000" sample_live) as (_ & -> & _);
    [vm_compute|]; reflexivity.
Defined.

(** The missing entry and the stale one get the same answer. *)
Lemma verifyOTP_stale_same_as_missing :
  otpStore (sample_world 400000) !! sample_phone = None
  /\ (exists e, otpStore sample_stale !! sample_phone = Some e
                /\ expiresAt e < clock sample_stale (ticks sample_stale))
  /\ fst (TwilioService.verifyOTP sample_phone "325000" (sample_world 400000))
     = fst (TwilioService.verifyOTP sample_phone "325000" sample_stale).
Proof.
  split; [reflexivity|]. split.
  - exists {| code := "325000"; expiresAt := 1700000300000 |}.
    split; [vm_compute; reflexivity | vm_compute; reflexivity].
  - vm_compute. reflexivity.
Qed.

(** C4, as the code has it. [verifyOTP] has one branch for a phone without an
    entry and for an entry past its expiry: it deletes whatever is stored for
    the phone and returns the same failed result, with the message
    "OTP session expired. Please request a new OTP.". After that result the
    phone has no entry, and every further attempt gets that result again. *)
Theorem verifyOTP_missing_or_stale (phone c : string) (w : World) :
  (otpStore w !! phone = None
   \/ exists e, otpStore w !! phone = Some e /\ expiresAt e < clock w (ticks w)) ->
  let w1 := snd (TwilioService.verifyOTP phone c w) in
  fst (TwilioService.verifyOTP phone c w) = TwilioService.expiredResult
  /\ otpStore w1 = delete phone (otpStore w)
  /\ otpStore w1 !! phone = None
  /\ forall c', TwilioService.verifyOTP phone c' w1 = (TwilioService.expiredResult, w1).
Proof.
  intros [H | (e & H & Hlt)].
  - rewrite (verifyOTP_no_entry _ _ _ H). cbn [fst snd].
    rewrite (delete_id _ _ H). repeat split; [assumption|].
    intros c'. apply verifyOTP_no_entry, H.
  - rewrite (verifyOTP_stale _ _ _ _ H Hlt). cbn [fst snd].
    assert (Hgone : delete phone (otpStore w) !! phone = None) by apply lookup_delete_eq.
    repeat split; [exact Hgone|].
    intros c'. apply verifyOTP_no_entry. exact Hgone.
Qed.

Lemma verifyOTP_missing_or_stale_witness :
  fst (TwilioService.verifyOTP sample_phone "325000" sample_stale)
  = TwilioService.expiredResult
  /\ otpStore (snd (TwilioService.verifyOTP sample_phone "325000" sample_stale))
       !! sample_phone = None.
Proof.
  destruct (verifyOTP_missing_or_stale sample_phone "325000" sample_stale)
    as (H1 & _ & H2 & _); [|split; assumption].
  right. exists {| code := "325000"; expiresAt := 1700000300000 |}.
  split; vm_compute; reflexivity.
Defined.

(** ** The OTP issuer *)

Section issuer_facts.

Lemma sendOTP_issues phone w :
  isValidPhoneNumber phone = true ->
  TwilioService.sendOTP phone w
  = ({| send_status := pending;
        send_sid := Some ("demo_verification_" +:+ pretty (clock w (S (ticks w))));
        send_errorMessage := None |},
     set_ticks (S (S (ticks w)))
       (set_draws (S (draws w))
          (set_otpStore (<[phone := issued w]> (otpStore w)) w))).
Proof.
  intros Hv. unfold TwilioService.sendOTP, TwilioService.isValidPhoneNumber.
  rewrite Hv. reflexivity.
Qed.

Lemma sendOTP_invalid phone w :
  isValidPhoneNumber phone = false ->
  TwilioService.sendOTP phone w
  = ({| send_status := failed; send_sid := None;
        send_errorMessage := Some "Invalid phone number format" |}, w).
Proof.
  intros Hv. unfold TwilioService.sendOTP, TwilioService.isValidPhoneNumber.
  rewrite Hv. reflexivity.
Qed.

Lemma formatPhoneNumber_valid raw p :
  formatPhoneNumber raw = Some p -> isValidPhoneNumber p = true.
Proof.
  intros E. destruct (formatPhoneNumber_cases raw p E) as (rest & -> & Hd & Hl).
  simpl. rewrite Hd, Hl. reflexivity.
Qed.

(** The orchestrator's [sendOTP] on an input that normalises to [p]: the
    issuer's entry, then the session stamped with the third clock reading. *)
Lemma auth_sendOTP_sent raw p w :
  formatPhoneNumber raw = Some p ->
  RealAuthService.sendOTP raw w
  = (RealAuthService.otpSentResult,
     set_otpSessions
       (<[p := {| session_phone := p; timestamp := clock w (S (S (ticks w))) |}]>
          (otpSessions w))
       (set_ticks (S (S (S (ticks w))))
          (set_draws (S (draws w))
             (set_otpStore (<[p := issued w]> (otpStore w)) w)))).
Proof.
  intros E. unfold RealAuthService.sendOTP, TwilioService.formatPhoneNumber.
  rewrite E. unfold bind at 1.
  rewrite (sendOTP_issues p w (formatPhoneNumber_valid _ _ E)).
  reflexivity.
Qed.

End issuer_facts.

(** The old code is approved after a second send that draws it again. *)
Lemma resend_same_code_approved :
  let w1 := snd (RealAuthService.sendOTP sample_phone (sample_world 1000)) in
  let w2 := snd (RealAuthService.sendOTP sample_phone w1) in
  code <$> otpStore w1 !! sample_phone = Some "325000"
  /\ status (fst (TwilioService.verifyOTP sample_phone "325000" w2)) = approved.
Proof. split; vm_compute; reflexivity. Qed.

(** C3, as the code has it. A second send for a phone overwrites the entry
    stored for it: one entry, holding the newly drawn code and a new expiry.
    When the new code differs from the old one, verifying the old code from
    then on is never approved: it is [Invalid OTP] while the new entry is
    live, and the failure of the first branch once it is out of date. The
    codes are drawn independently, so the new one can equal the old one, and
    then the old code is the new code. *)
Theorem resend_overwrites_old_code (raw phone : string) (w1 : World) (old : OTPEntry) :
  formatPhoneNumber raw = Some phone ->
  otpStore w1 !! phone = Some old ->
  code (issued w1) <> code old ->
  let w2 := snd (RealAuthService.sendOTP raw w1) in
  otpStore w2 !! phone = Some (issued w1)
  /\ forall w3, otpStore w3 !! phone = Some (issued w1) ->
       let r := fst (TwilioService.verifyOTP phone (code old) w3) in
       status r <> approved
       /\ (r = TwilioService.invalidResult \/ r = TwilioService.expiredResult).
Proof.
  intros E Hold Hne. rewrite (auth_sendOTP_sent raw phone w1 E). cbn [snd].
  split; [apply lookup_insert_eq|].
  intros w3 H3.
  destruct (Z_lt_le_dec (expiresAt (issued w1)) (clock w3 (ticks w3))) as [Hlt|Hle].
  - rewrite (verifyOTP_stale _ _ _ _ H3 Hlt). cbn. split; [discriminate | auto].
  - rewrite (verifyOTP_wrong_code _ _ _ _ H3 Hle Hne). cbn. split; [discriminate | auto].
Qed.

Lemma resend_overwrites_old_code_witness :
  let w1 := set_otpStore {[ sample_phone := {| code := "123456"; expiresAt := 1700000200000 |} ]}
              (sample_world 1000) in
  let w2 := snd (RealAuthService.sendOTP "91 98765 43210" w1) in
  otpStore w2 !! sample_phone = Some {| code := "325000"; expiresAt := 1700000300000 |}
  /\ status (fst (TwilioService.verifyOTP sample_phone "123456" w2)) <> approved.
Proof.
  intros w1 w2.
  destruct (resend_overwrites_old_code "91 98765 43210" sample_phone w1
              {| code := "123456"; expiresAt := 1700000200000 |}) as [H1 H2];
    [reflexivity | reflexivity | vm_compute; discriminate |].
  split; [exact H1 | apply (H2 w2 H1)].
Defined.

(** ** A wrong code leaves everything in place *)

(** A live entry, another code, and a session (if any) stamped late enough
    to outlast the entry: both verifications fail and nothing but the clock
    moves. *)
Lemma wrong_code_local (raw phone c : string) (w : World) (e : OTPEntry) :
  formatPhoneNumber raw = Some phone ->
  otpStore w !! phone = Some e ->
  code e <> c ->
  clock w (ticks w) <= clock w (S (ticks w)) ->
  clock w (S (ticks w)) <= expiresAt e ->
  (forall s, otpSessions w !! phone = Some s -> expiresAt e <= timestamp s + 300000) ->
  (fst (TwilioService.verifyOTP phone c w) = TwilioService.invalidResult
   /\ otpStore (snd (TwilioService.verifyOTP phone c w)) = otpStore w)
  /\ let r := fst (RealAuthService.verifyOTPAndLogin raw c w) in
     let w' := snd (RealAuthService.verifyOTPAndLogin raw c w) in
     success r = false /\ user r = None
     /\ (is_Some (otpSessions w !! phone) -> error r = Some "Invalid OTP")
     /\ otpSessions w' = otpSessions w
     /\ otpStore w' = otpStore w
     /\ users w' = users w
     /\ pendingRegistrations w' = pendingRegistrations w
     /\ localStorage w' = localStorage w.
Proof.
  intros E He Hne Hmono Hlive Hsess. split.
  - rewrite (verifyOTP_wrong_code phone c w e He ltac:(lia) Hne). split; reflexivity.
  - unfold RealAuthService.verifyOTPAndLogin, TwilioService.formatPhoneNumber.
    rewrite E. unfold bind, gets, Date_now. cbn beta.
    destruct (otpSessions w !! phone) as [s|] eqn:Hs.
    + specialize (Hsess s eq_refl).
      assert (Hfresh : (5 * 60 * 1000 <? clock w (ticks w) - timestamp s) = false)
        by (apply Z.ltb_ge; lia).
      rewrite Hfresh.
      rewrite (verifyOTP_wrong_code phone c (set_ticks (S (ticks w)) w) e He Hlive Hne).
      cbn. repeat split; auto.
    + cbn. repeat split; auto. intros [? [=]].
Qed.

(** ** The user directory *)

Section directory_facts.
Context {V : Type}.
Implicit Types (m : list (string * V)) (k : string) (v : V).

Lemma get_set_eq k v m : JsMap.get k (JsMap.set k v m) = Some v.
Proof.
  induction m as [|[k' v'] m IH]; simpl.
  - rewrite String.eqb_refl. reflexivity.
  - destruct (String.eqb k k') eqn:E; simpl; rewrite ?String.eqb_refl, ?E; auto.
Qed.

Lemma get_set_ne k k' v m : k <> k' -> JsMap.get k' (JsMap.set k v m) = JsMap.get k' m.
Proof.
  intros Hne. induction m as [|[k0 v0] m IH]; simpl.
  - apply not_eq_sym, String.eqb_neq in Hne. rewrite Hne. reflexivity.
  - destruct (String.eqb k k0) eqn:E; simpl.
    + apply String.eqb_eq in E. subst k0.
      apply not_eq_sym, String.eqb_neq in Hne. rewrite Hne. reflexivity.
    + rewrite IH. reflexivity.
Qed.

Lemma get_update_eq k f v m :
  JsMap.get k m = Some v -> JsMap.get k (JsMap.update k f m) = Some (f v).
Proof.
  induction m as [|[k' v'] m IH]; simpl; [discriminate|].
  destruct (String.eqb k k') eqn:E; simpl; rewrite E; [congruence | auto].
Qed.

Lemma get_None_notin k m : JsMap.get k m = None -> k ∉ m.*1.
Proof.
  induction m as [|[k' v'] m IH]; csimpl; [intros _; apply not_elem_of_nil|].
  destruct (String.eqb k k') eqn:E; [discriminate|].
  intros H. apply String.eqb_neq in E. apply not_elem_of_cons. auto.
Qed.

Lemma notin_get_None k m : k ∉ m.*1 -> JsMap.get k m = None.
Proof.
  induction m as [|[k' v'] m IH]; csimpl; [reflexivity|].
  intros [Hne Hnin]%not_elem_of_cons. apply String.eqb_neq in Hne.
  rewrite Hne. auto.
Qed.

(** In a map (distinct keys) the entry a search finds is the one stored
    under its key. *)
Lemma find_get p k v m :
  NoDup m.*1 -> JsMap.find p m = Some (k, v) -> JsMap.get k m = Some v.
Proof.
  induction m as [|[k' v'] m IH]; csimpl; [discriminate|].
  intros [Hnin Hnd]%NoDup_cons.
  destruct (p v') eqn:Hp.
  - intros [= -> ->]. rewrite String.eqb_refl. reflexivity.
  - intros Hf. specialize (IH Hnd Hf).
    destruct (String.eqb k k') eqn:E; [|assumption].
    apply String.eqb_eq in E. subst k'.
    apply notin_get_None in Hnin. congruence.
Qed.

Lemma find_holds p k v m : JsMap.find p m = Some (k, v) -> p v = true.
Proof.
  induction m as [|[k' v'] m IH]; csimpl; [discriminate|].
  destruct (p v') eqn:Hp; [intros [= -> ->]; assumption | assumption].
Qed.

Lemma set_keys_in k v m : k ∈ m.*1 -> (JsMap.set k v m).*1 = m.*1.
Proof.
  induction m as [|[k' v'] m IH]; csimpl; [intros H; inversion H|].
  destruct (String.eqb k k') eqn:E; csimpl.
  - apply String.eqb_eq in E. subst. reflexivity.
  - intros [H|H]%elem_of_cons; [apply String.eqb_neq in E; contradiction|].
    rewrite IH; auto.
Qed.

Lemma set_keys_notin k v m : k ∉ m.*1 -> (JsMap.set k v m).*1 = ((m.*1) ++ [k])%list.
Proof.
  induction m as [|[k' v'] m IH]; csimpl; [reflexivity|].
  intros [Hne Hnin]%not_elem_of_cons. apply String.eqb_neq in Hne.
  rewrite Hne. csimpl. rewrite IH; auto.
Qed.

Lemma set_NoDup k v m : NoDup m.*1 -> NoDup (JsMap.set k v m).*1.
Proof.
  intros Hnd. destruct (decide (k ∈ m.*1)) as [Hin|Hnin].
  - rewrite set_keys_in; assumption.
  - rewrite set_keys_notin by assumption.
    apply NoDup_app. repeat split; [assumption | | apply NoDup_singleton].
    intros x Hx ->%list_elem_of_singleton. contradiction.
Qed.

Lemma update_keys k f m : (JsMap.update k f m).*1 = m.*1.
Proof.
  induction m as [|[k' v'] m IH]; csimpl; [reflexivity|].
  destruct (String.eqb k k'); csimpl; [reflexivity | rewrite IH; reflexivity].
Qed.

End directory_facts.

(** ** Creating and touching users *)

Section login_facts.

(** The key [createUser] stores the new user under when run in [w]. *)
Lemma createUser_runs reg w :
  let userId := "user_" +:+ pretty (clock w (ticks w)) +:+ "_"
                +:+ String.substring 2 13 (toString36 w (random w (draws w))) in
  let u := newUser userId reg (TimeValue (clock w (S (ticks w))))
             (TimeValue (clock w (S (S (ticks w))))) in
  let us := JsMap.set userId u (users w) in
  RealAuthService.createUser reg w
  = (userId,
     set_localStorage (Some (Persist.users_toJSON us))
       (set_users us
          (set_ticks (S (S (S (ticks w)))) (set_draws (S (draws w)) w)))).
Proof. reflexivity. Qed.

Lemma touchAndReturn_runs key w :
  let us := JsMap.update key (set_lastLogin (TimeValue (clock w (ticks w)))) (users w) in
  RealAuthService.touchAndReturn key w
  = ({| success := true; user := JsMap.get key us; error := None;
        requiresOTP := None; otpSent := None |},
     set_localStorage (Some (Persist.users_toJSON us))
       (set_users us (set_ticks (S (ticks w)) w))).
Proof. reflexivity. Qed.

Lemma includes_true l x : includes l x = true <-> x ∈ l.
Proof.
  unfold includes. rewrite existsb_exists. split.
  - intros (y & Hy & ->%String.eqb_eq). apply list_elem_of_In, Hy.
  - intros H. exists x. split; [apply list_elem_of_In, H | apply String.eqb_refl].
Qed.

Lemma adminEmails_not_phone identifier :
  includes RealAuthService.adminEmails identifier = true ->
  looksLikePhone identifier = false.
Proof.
  intros H%includes_true. unfold RealAuthService.adminEmails in H.
  repeat (apply elem_of_cons in H as [->|H]; [reflexivity|]).
  inversion H.
Qed.

Lemma adminPasswords_nonempty pw :
  includes RealAuthService.adminPasswords pw = true -> String.eqb pw EmptyString = false.
Proof.
  intros H%includes_true. unfold RealAuthService.adminPasswords in H.
  repeat (apply elem_of_cons in H as [->|H]; [reflexivity|]).
  inversion H.
Qed.

End login_facts.



(** ** The first end-to-end scenario *)

(** C1. [formatPhoneNumber] takes a ten-digit number only when it starts with
    the four digits 6789 ([cleaned.startsWith('6789')]), so 9876543210 is not
    normalised: [sendOTP] fails with "Invalid phone number format" and stores
    nothing, where the scenario expects +919876543210 and a code sent. *)
Theorem sendOTP_9876543210_rejected (w : World) :
  formatPhoneNumber "9876543210" = None
  /\ RealAuthService.sendOTP "9876543210" w
     = (RealAuthService.failure "Invalid phone number format", w).
Proof. split; reflexivity. Qed.

(** The rest of the scenario holds once the number is given in a form that
    is normalised: the code sent for +919876543210 logs in a new patient
    with that phone, when the directory has no user and no pending
    registration for it. *)
Lemma login_creates_patient (raw : string) (w : World) :
  let phone_ := "+919876543210" in
  formatPhoneNumber raw = Some phone_ ->
  fst (RealAuthService.findUserByPhone phone_ w) = None ->
  pendingRegistrations w !! phone_ = None ->
  clock w (S (S (S (ticks w)))) - clock w (S (S (ticks w))) <= 300000 ->
  clock w (S (S (S (S (ticks w))))) <= clock w (ticks w) + 300000 ->
  let w1 := snd (RealAuthService.sendOTP raw w) in
  fst (RealAuthService.sendOTP raw w) = RealAuthService.otpSentResult
  /\ let r := fst (RealAuthService.verifyOTPAndLogin phone_ (code (issued w)) w1) in
     success r = true
     /\ exists u, user r = Some u /\ phone u = phone_ /\ userType u = patient
                  /\ name u = "User 3210".
Proof.
  intros phone_ E Hnone Hpend Hsess Hlive.
  rewrite (auth_sendOTP_sent raw phone_ w E). wsimpl. split; [reflexivity|].
  unfold RealAuthService.verifyOTPAndLogin, TwilioService.formatPhoneNumber.
  change (formatPhoneNumber phone_) with (Some phone_).
  unfold RealAuthService.findUserByPhone in *. mrun.
  rewrite lookup_insert_eq. cbn [timestamp]. wsimpl.
  assert (Hs : (5 * 60 * 1000 <? clock w (S (S (S (ticks w)))) - clock w (S (S (ticks w))))
               = false) by (apply Z.ltb_ge; lia).
  rewrite Hs.
  erewrite verifyOTP_right_code with (e := issued w);
    [|apply lookup_insert_eq | exact Hlive].
  cbn [valid negb]. wsimpl. rewrite Hnone. wsimpl. rewrite Hpend.
  rewrite createUser_runs. cbv zeta. rewrite touchAndReturn_runs. cbv zeta. wsimpl.
  cbn [success user]. split; [reflexivity|].
  erewrite get_update_eq by apply get_set_eq.
  eexists. split; [reflexivity|]. repeat split.
Qed.

(** ** Routing of [authenticateAdmin] *)

Section routing_facts.

Lemma digit_not_plus c rest :
  is_digit c = true ->
  admin_phone_re (String c rest)
  = (is_digit19 c && all_digits rest
     && (1 <=? String.length rest)%nat && (String.length rest <=? 14)%nat).
Proof.
  destruct c as [[] [] [] [] [] [] [] []]; try discriminate; reflexivity.
Qed.

Lemma looksLikePhone_digits identifier :
  looksLikePhone identifier = digits_form_phone identifier.
Proof.
  unfold looksLikePhone, digits_form_phone.
  pose proof (strip_non_digits_all_digits identifier) as Hd.
  destruct (strip_non_digits identifier) as [|c rest]; [reflexivity|].
  cbn [all_digits] in Hd. apply andb_prop in Hd as [Hc Hrest].
  rewrite (digit_not_plus c rest Hc), Hrest.
  cbn [String.length]. generalize (String.length rest). intros n.
  destruct (is_digit19 c), n as [|n]; cbn;
    rewrite ?andb_true_r, ?andb_false_r; reflexivity.
Qed.

(** The phone branch hands out no user and never writes the directory. *)
Lemma authenticateAdminPhone_no_user identifier w :
  user (fst (RealAuthService.authenticateAdminPhone identifier w)) = None
  /\ users (snd (RealAuthService.authenticateAdminPhone identifier w)) = users w
  /\ localStorage (snd (RealAuthService.authenticateAdminPhone identifier w))
     = localStorage w.
Proof.
  unfold RealAuthService.authenticateAdminPhone, TwilioService.formatPhoneNumber.
  destruct (formatPhoneNumber identifier) as [p|] eqn:E; [|repeat split].
  destruct (negb (includes RealAuthService.adminPhones p)); [repeat split|].
  rewrite (auth_sendOTP_sent p p w (formatPhoneNumber_again _ _ E)).
  repeat split.
Qed.

End routing_facts.

(** C10. [authenticateAdmin] chooses its branch from the digits of the
    identifier alone. Its test holds exactly when the identifier, stripped of
    every character that is not a digit, is two to fifteen digits starting
    with 1 to 9. Then the phone branch runs: the result does not depend on
    the password, carries no user and leaves the directory and the storage
    alone, so an e-mail address with such digits in it, like
    easymed2025@example.com, is handled as a phone number (and rejected as a
    malformed one). The e-mail branch runs only when the digits fail the
    test. *)
Theorem authenticateAdmin_routes_by_digits
    (identifier : string) (password : option string) (w : World) :
  looksLikePhone identifier = digits_form_phone identifier
  /\ (digits_form_phone identifier = true ->
      RealAuthService.authenticateAdmin identifier password w
      = RealAuthService.authenticateAdminPhone identifier w
      /\ (forall password',
            RealAuthService.authenticateAdmin identifier password' w
            = RealAuthService.authenticateAdmin identifier password w)
      /\ user (fst (RealAuthService.authenticateAdmin identifier password w)) = None
      /\ users (snd (RealAuthService.authenticateAdmin identifier password w)) = users w
      /\ localStorage (snd (RealAuthService.authenticateAdmin identifier password w))
         = localStorage w)
  /\ (digits_form_phone identifier = false ->
      RealAuthService.authenticateAdmin identifier password w
      = RealAuthService.authenticateAdminEmail identifier password w)
  /\ digits_form_phone "easymed2025@example.com" = true
  /\ RealAuthService.authenticateAdmin "easymed2025@example.com" password w
     = (RealAuthService.failure "Invalid phone number format", w).
Proof.
  split; [apply looksLikePhone_digits|].
  split; [|split; [|split; reflexivity]].
  - intros H. unfold RealAuthService.authenticateAdmin.
    rewrite looksLikePhone_digits, H.
    split; [reflexivity|]. split; [reflexivity|].
    apply authenticateAdminPhone_no_user.
  - intros H. unfold RealAuthService.authenticateAdmin.
    rewrite looksLikePhone_digits, H. reflexivity.
Qed.

(** ** Dates round-trip through their JSON form *)

Section calendar_facts.

Lemma DayFromYear_succ y : DayFromYear (y + 1) = DayFromYear y + DaysInYear y.
Proof.
  unfold DayFromYear, DaysInYear, isLeapYear.
  destruct (Z.eqb_spec (y mod 4) 0), (Z.eqb_spec (y mod 100) 0),
    (Z.eqb_spec (y mod 400) 0); cbn [negb]; Z.div_mod_to_equations; lia.
Qed.

(** [YearFromDay d] is the year [d] falls in. *)
Lemma YearFromDay_spec d :
  DayFromYear (YearFromDay d) <= d < DayFromYear (YearFromDay d + 1).
Proof.
  unfold YearFromDay. cbv zeta.
  set (y := 1970 + 400 * d / 146097).
  assert (H1 : DayFromYear (y - 1) <= d)
    by (subst y; unfold DayFromYear; Z.div_mod_to_equations; lia).
  assert (H2 : d < DayFromYear (y + 2))
    by (subst y; unfold DayFromYear; Z.div_mod_to_equations; lia).
  destruct (Z.ltb_spec d (DayFromYear y)).
  - replace (y - 1 + 1) with y by lia. lia.
  - destruct (Z.leb_spec (DayFromYear (y + 1)) d).
    + replace (y + 1 + 1) with (y + 2) by lia. lia.
    + lia.
Qed.

Lemma YearFromDay_bounds d :
  -100000000 <= d <= 100000000 -> -280000 <= YearFromDay d <= 280000.
Proof.
  intros Hd. unfold YearFromDay. cbv zeta.
  set (y := 1970 + 400 * d / 146097).
  assert (-279000 <= y <= 279000) by (subst y; Z.div_mod_to_equations; lia).
  destruct (d <? DayFromYear y); [lia|].
  destruct (DayFromYear (y + 1) <=? d); lia.
Qed.

Lemma InLeapYear_cases t :
  InLeapYear t = 0 /\ DaysInYear (YearFromTime t) = 365
  \/ InLeapYear t = 1 /\ DaysInYear (YearFromTime t) = 366.
Proof.
  unfold InLeapYear, DaysInYear. destruct (isLeapYear (YearFromTime t)); auto.
Qed.

Lemma DayWithinYear_range t :
  0 <= DayWithinYear t < DaysInYear (YearFromTime t).
Proof.
  unfold DayWithinYear, YearFromTime.
  pose proof (YearFromDay_spec (Day t)) as H.
  rewrite DayFromYear_succ in H. lia.
Qed.

(** The month and the day of the month found for a day of the year. *)
Lemma monthOfDay_spec leap dwy :
  leap = 0 \/ leap = 1 ->
  0 <= dwy < 365 + leap ->
  let m := monthOfDay leap dwy in
  0 <= m <= 11
  /\ monthStart leap m <= dwy
  /\ dwy - monthStart leap m + 1
     <= (if m =? 11 then 31 else monthStart leap (m + 1) - monthStart leap m).
Proof.
  intros Hleap Hd. unfold monthOfDay.
  destruct Hleap; subst leap;
    repeat match goal with
           | |- context [?a <? ?b] => destruct (Z.ltb_spec a b)
           end;
    cbv zeta;
    repeat match goal with
           | |- context [if ?b then ?x else ?y] =>
               let v := eval vm_compute in (if b then x else y) in
               change (if b then x else y) with v
           | |- context [monthStart ?l ?m] =>
               let v := eval vm_compute in (monthStart l m) in
               change (monthStart l m) with v
           end;
    lia.
Qed.

Lemma MakeDay_fields t :
  MakeDay (YearFromTime t) (MonthFromTime t) (DateFromTime t) = Day t.
Proof.
  unfold MakeDay, DateFromTime, DayWithinYear, InLeapYear. lia.
Qed.

Lemma time_fields_range t :
  0 <= HourFromTime t <= 23 /\ 0 <= MinFromTime t <= 59
  /\ 0 <= SecFromTime t <= 59 /\ 0 <= msFromTime t <= 999.
Proof.
  unfold HourFromTime, MinFromTime, SecFromTime, msFromTime,
    msPerHour, msPerMinute, msPerSecond.
  Z.div_mod_to_equations. lia.
Qed.

Lemma MakeTime_fields t :
  MakeTime (HourFromTime t) (MinFromTime t) (SecFromTime t) (msFromTime t)
  = TimeWithinDay t.
Proof.
  unfold MakeTime, HourFromTime, MinFromTime, SecFromTime, msFromTime,
    TimeWithinDay, msPerDay, msPerHour, msPerMinute, msPerSecond.
  Z.div_mod_to_equations. lia.
Qed.

Lemma MakeDate_fields t : MakeDate (Day t) (TimeWithinDay t) = t.
Proof.
  unfold MakeDate, Day, TimeWithinDay, msPerDay.
  Z.div_mod_to_equations. lia.
Qed.

Lemma date_fields_range t :
  1 <= MonthFromTime t + 1 <= 12
  /\ 1 <= DateFromTime t <= daysInMonth (YearFromTime t) (MonthFromTime t).
Proof.
  pose proof (DayWithinYear_range t) as Hr.
  assert (Hl : InLeapYear t = 0 \/ InLeapYear t = 1)
    by (destruct (InLeapYear_cases t) as [[? _]|[? _]]; auto).
  assert (Hd : 0 <= DayWithinYear t < 365 + InLeapYear t)
    by (destruct (InLeapYear_cases t) as [[? ?]|[? ?]]; lia).
  pose proof (monthOfDay_spec _ _ Hl Hd) as (Hm & Hs & He).
  fold (MonthFromTime t) in Hm, Hs, He.
  unfold DateFromTime, daysInMonth. fold (InLeapYear t). lia.
Qed.

End calendar_facts.

Section iso_facts.

Lemma digit_char_cases d :
  0 <= d <= 9 -> is_digit (digit_char d) = true /\ digit_value (digit_char d) = Some d.
Proof.
  intros Hd.
  assert (H : d = 0 \/ d = 1 \/ d = 2 \/ d = 3 \/ d = 4 \/ d = 5 \/ d = 6
              \/ d = 7 \/ d = 8 \/ d = 9) by lia.
  repeat (destruct H as [-> | H]; [split; reflexivity|]).
  subst d. split; reflexivity.
Qed.

Lemma append_cons c s r : String c s +:+ r = String c (s +:+ r).
Proof. reflexivity. Qed.

Lemma append_nil r : EmptyString +:+ r = r.
Proof. reflexivity. Qed.

(** Reading back a field of [w] digits. *)
Lemma read_pad_digits w : forall n acc rest,
  0 <= n ->
  read_digits w acc (pad_digits w n +:+ rest)
  = Some (acc * 10 ^ Z.of_nat w + n mod 10 ^ Z.of_nat w, rest).
Proof.
  induction w as [|w IH]; intros n acc rest Hn.
  - cbn [pad_digits read_digits]. rewrite append_nil. f_equal. f_equal.
    change (10 ^ Z.of_nat 0) with 1. rewrite Z.mod_1_r. lia.
  - cbn [pad_digits]. rewrite append_cons. cbn [read_digits].
    assert (Hp : 0 < 10 ^ Z.of_nat w) by (apply Z.pow_pos_nonneg; lia).
    assert (Hr : 0 <= (n / 10 ^ Z.of_nat w) mod 10 <= 9)
      by (pose proof (Z.mod_pos_bound (n / 10 ^ Z.of_nat w) 10); lia).
    destruct (digit_char_cases _ Hr) as [_ ->].
    rewrite IH by assumption. f_equal. f_equal.
    rewrite Nat2Z.inj_succ, Z.pow_succ_r by lia.
    rewrite (Z.mul_comm 10 (10 ^ Z.of_nat w)), Z.rem_mul_r by lia. ring.
Qed.

Lemma read_pad_small w n rest :
  0 <= n < 10 ^ Z.of_nat w ->
  read_digits w 0 (pad_digits w n +:+ rest) = Some (n, rest).
Proof.
  intros Hn. rewrite read_pad_digits by lia.
  rewrite Z.mod_small by lia. reflexivity.
Qed.

(** A string that starts with a digit has a four-digit year. *)
Lemma year_format_digit c s :
  is_digit c = true -> year_format (String c s) = (1, 4%nat, String c s).
Proof.
  destruct c as [[] [] [] [] [] [] [] []]; try discriminate; reflexivity.
Qed.

Lemma year_format_isoYear y rest :
  -999999 <= y <= 999999 ->
  let '(sign, width, s) := year_format (isoYear y +:+ rest) in
  read_digits width 0 s = Some (Z.abs y, rest)
  /\ sign * Z.abs y = y /\ ((sign =? -1) && (Z.abs y =? 0) = false).
Proof.
  intros Hy. unfold isoYear.
  destruct (Z.leb_spec 0 y) as [H0|H0]; cbn [andb].
  - destruct (Z.leb_spec y 9999) as [H1|H1].
    + cbn [pad_digits]. rewrite !append_cons, append_nil.
      assert (Hr : 0 <= (y / 10 ^ Z.of_nat 3) mod 10 <= 9)
        by (pose proof (Z.mod_pos_bound (y / 10 ^ Z.of_nat 3) 10); lia).
      destruct (digit_char_cases _ Hr) as [Hd _].
      rewrite (year_format_digit _ _ Hd).
      rewrite <- (append_nil rest), <- !append_cons.
      change (String _ (String _ (String _ (String _ EmptyString))))
        with (pad_digits 4 y).
      rewrite read_pad_small by (change (10 ^ Z.of_nat 4) with 10000; lia).
      rewrite Z.abs_eq by lia. repeat split; lia.
    + rewrite append_cons. cbn [year_format].
      rewrite read_pad_small by (change (10 ^ Z.of_nat 6) with 1000000; lia).
      repeat split; lia.
  - rewrite append_cons. cbn [year_format].
    rewrite read_pad_small by (change (10 ^ Z.of_nat 6) with 1000000; lia).
    repeat split; lia.
Qed.

End iso_facts.

Section parse_facts.

Lemma expect_cons c s : expect c (String c s) = Some s.
Proof. cbn [expect]. rewrite Ascii.eqb_refl. reflexivity. Qed.

Lemma Day_bounds t : Z.abs t <= maxTime -> -100000000 <= Day t <= 100000000.
Proof.
  unfold maxTime, Day, msPerDay. intros H. Z.div_mod_to_equations. lia.
Qed.

Lemma parse_after_year_fields sign ay t :
  sign * ay = YearFromTime t ->
  (sign =? -1) && (ay =? 0) = false ->
  Z.abs t <= maxTime ->
  parse_after_year sign ay
    ("-" +:+ pad_digits 2 (MonthFromTime t + 1)
     +:+ "-" +:+ pad_digits 2 (DateFromTime t)
     +:+ "T" +:+ pad_digits 2 (HourFromTime t)
     +:+ ":" +:+ pad_digits 2 (MinFromTime t)
     +:+ ":" +:+ pad_digits 2 (SecFromTime t)
     +:+ "." +:+ pad_digits 3 (msFromTime t) +:+ "Z")
  = Some (TimeValue t).
Proof.
  intros Hy Hz Ht.
  pose proof (date_fields_range t) as (Hmo & Hd).
  pose proof (time_fields_range t) as (Hh & Hmi & Hs & Hms).
  assert (Hd31 : daysInMonth (YearFromTime t) (MonthFromTime t) <= 31).
  { unfold daysInMonth.
    assert (Hm : 0 <= MonthFromTime t <= 11) by lia. revert Hm.
    generalize (MonthFromTime t). intros m Hm.
    assert (H : m = 0 \/ m = 1 \/ m = 2 \/ m = 3 \/ m = 4 \/ m = 5 \/ m = 6
                \/ m = 7 \/ m = 8 \/ m = 9 \/ m = 10 \/ m = 11) by lia.
    destruct (isLeapYear (YearFromTime t));
      repeat (destruct H as [-> | H]; [vm_compute; discriminate|]);
      subst m; vm_compute; discriminate. }
  unfold parse_after_year.
  repeat (rewrite ?append_cons, ?append_nil, ?expect_cons;
          cbn [mbind option_bind];
          try (rewrite read_pad_small
                 by (first [change (10 ^ Z.of_nat 2) with 100
                           |change (10 ^ Z.of_nat 3) with 1000]; lia))).
  cbn [String.eqb negb]. rewrite Hz, Hy.
  replace (MonthFromTime t + 1 - 1) with (MonthFromTime t) by lia.
  replace (negb ((1 <=? MonthFromTime t + 1) && (MonthFromTime t + 1 <=? 12)))
    with false by lia.
  replace (negb ((1 <=? DateFromTime t)
                 && (DateFromTime t <=? daysInMonth (YearFromTime t) (MonthFromTime t))))
    with false by lia.
  replace (negb ((HourFromTime t <=? 23) && (MinFromTime t <=? 59)
                 && (SecFromTime t <=? 59)))
    with false by lia.
  rewrite MakeDay_fields, MakeTime_fields, MakeDate_fields.
  unfold TimeClip. replace (Z.abs t <=? maxTime) with true by lia.
  reflexivity.
Qed.

(** A time value within the range of [Date] is read back from its ISO
    string. *)
Lemma parseISO_toISOString t :
  Z.abs t <= maxTime -> parseISO (toISOString t) = TimeValue t.
Proof.
  intros Ht. unfold parseISO, toISOString.
  assert (Hy : -999999 <= YearFromTime t <= 999999).
  { pose proof (YearFromDay_bounds (Day t) (Day_bounds t Ht)).
    unfold YearFromTime. lia. }
  pose proof (year_format_isoYear (YearFromTime t)
                ("-" +:+ pad_digits 2 (MonthFromTime t + 1)
                 +:+ "-" +:+ pad_digits 2 (DateFromTime t)
                 +:+ "T" +:+ pad_digits 2 (HourFromTime t)
                 +:+ ":" +:+ pad_digits 2 (MinFromTime t)
                 +:+ ":" +:+ pad_digits 2 (SecFromTime t)
                 +:+ "." +:+ pad_digits 3 (msFromTime t) +:+ "Z") Hy) as H.
  destruct (year_format _) as [[sign width] s].
  destruct H as (Hread & Hsign & Hzero).
  rewrite Hread. cbn [mbind option_bind].
  rewrite (parse_after_year_fields sign _ t Hsign Hzero Ht). reflexivity.
Qed.

End parse_facts.

(** ** The directory round-trips through storage *)

Section storage_facts.

Lemma date_revive_toJSON d :
  Date_ok d -> Persist.date_revive (Some (Persist.date_toJSON d)) = d.
Proof.
  intros (t & -> & Ht). cbn [Persist.date_toJSON Persist.date_revive].
  apply parseISO_toISOString, Ht.
Qed.

Lemma user_ofJSON_toJSON u :
  Date_ok (createdAt u) -> Date_ok (lastLogin u) ->
  Persist.user_ofJSON (Persist.user_toJSON u) = Some u.
Proof.
  intros Hc%date_revive_toJSON Hl%date_revive_toJSON.
  destruct u as [i n e p ty ph ve ab sp vi og cr ll].
  cbn [createdAt lastLogin] in Hc, Hl. revert Hc Hl.
  unfold Persist.user_toJSON.
  cbn [id name email phone userType profilePhoto isVerified abhaProfile
       specialty village organization createdAt lastLogin].
  generalize (Persist.date_toJSON cr) as jc.
  generalize (Persist.date_toJSON ll) as jl.
  intros jl jc Hc Hl.
  destruct ty, e, ph, ab, sp, vi, og;
    cbn -[Persist.date_revive]; rewrite Hc, Hl; reflexivity.
Qed.

Lemma set_fresh_key {V} k (v : V) m :
  k ∉ m.*1 -> JsMap.set k v m = (m ++ [(k, v)])%list.
Proof.
  induction m as [|[k' v'] m IH]; csimpl; [reflexivity|].
  intros [Hne Hnin]%not_elem_of_cons. apply String.eqb_neq in Hne.
  rewrite Hne, IH; auto.
Qed.

Lemma load_entries_saved l : forall m,
  NoDup (m.*1 ++ l.*1) ->
  (forall k u, (k, u) ∈ l -> Date_ok (createdAt u) /\ Date_ok (lastLogin u)) ->
  Persist.load_entries (map (fun '(k, u) => (k, Persist.user_toJSON u)) l) m
  = (m ++ l)%list.
Proof.
  induction l as [|[k u] l IH]; intros m Hnd Hok.
  - cbn. rewrite app_nil_r. reflexivity.
  - cbn [map Persist.load_entries].
    destruct (Hok k u) as [Hc Hl]; [apply list_elem_of_here|].
    rewrite (user_ofJSON_toJSON u Hc Hl).
    assert (Hk : k ∉ m.*1).
    { apply NoDup_app in Hnd as (_ & Hdisj & _).
      intros Hin. apply (Hdisj k Hin). csimpl. apply list_elem_of_here. }
    rewrite (set_fresh_key k u m Hk).
    rewrite IH.
    + rewrite <- app_assoc. reflexivity.
    + rewrite fmap_app, <- app_assoc. exact Hnd.
    + intros k' u' Hin. apply (Hok k' u'). apply list_elem_of_further, Hin.
Qed.

Lemma get_Some_elem_of {V} k (v : V) m : JsMap.get k m = Some v -> (k, v) ∈ m.
Proof.
  induction m as [|[k' v'] m IH]; cbn; [discriminate|].
  destruct (String.eqb k k') eqn:E.
  - apply String.eqb_eq in E. intros [= ->]. subst. apply list_elem_of_here.
  - intros H. apply list_elem_of_further, IH, H.
Qed.

End storage_facts.





(** ** Sessions outlast the entries they were sent with *)

Section session_facts.

(** The four parts of an effect lemma, branch by branch. *)
Ltac closes tac :=
  split; [reflexivity|]; split; [lia|]; split;
  [tac | intros Hnd; rewrite ?update_keys; try apply set_NoDup; exact Hnd].

Lemma sendOTP_effect raw w :
  let w' := snd (RealAuthService.sendOTP raw w) in
  clock w' = clock w /\ (ticks w <= ticks w')%nat /\ otp_effect w w'
  /\ (NoDup (users w).*1 -> NoDup (users w').*1).
Proof.
  unfold RealAuthService.sendOTP, TwilioService.formatPhoneNumber.
  destruct (formatPhoneNumber raw) as [p|] eqn:E.
  - pose proof (auth_sendOTP_sent raw p w E) as H.
    unfold RealAuthService.sendOTP, TwilioService.formatPhoneNumber in H.
    rewrite E in H. rewrite H. wsimpl.
    closes ltac:(apply (effect_sent _ _ p); reflexivity).
  - cbn. closes ltac:(apply effect_none; reflexivity).
Qed.

Lemma verifyOTPAndLogin_effect raw otp w :
  let w' := snd (RealAuthService.verifyOTPAndLogin raw otp w) in
  clock w' = clock w /\ (ticks w <= ticks w')%nat /\ otp_effect w w'
  /\ (NoDup (users w).*1 -> NoDup (users w').*1).
Proof.
  unfold RealAuthService.verifyOTPAndLogin, TwilioService.formatPhoneNumber.
  destruct (formatPhoneNumber raw) as [p|] eqn:E;
    [|cbn; closes ltac:(apply effect_none; reflexivity)].
  unfold RealAuthService.findUserByPhone. mrun.
  destruct (otpSessions w !! p) as [s|] eqn:Hs;
    [|cbn; closes ltac:(apply effect_none; reflexivity)].
  destruct (Z.ltb_spec (5 * 60 * 1000) (clock w (ticks w) - timestamp s)) as [Hto|Hto].
  { wsimpl. closes ltac:(apply (effect_timeout _ _ p s); auto; lia). }
  destruct (otpStore w !! p) as [e|] eqn:He.
  2:{ rewrite verifyOTP_no_entry by exact He. cbn [valid negb TwilioService.expiredResult].
      wsimpl. closes ltac:(apply effect_none; reflexivity). }
  destruct (Z.ltb_spec (expiresAt e) (clock w (S (ticks w)))) as [Hst|Hlive].
  { rewrite (verifyOTP_stale p otp (set_ticks (S (ticks w)) w) e He Hst).
    cbn [valid negb TwilioService.expiredResult]. wsimpl.
    closes ltac:(apply (effect_consumed _ _ p); auto). }
  destruct (String.eqb_spec (code e) otp) as [<-|Hne].
  2:{ rewrite (verifyOTP_wrong_code p otp (set_ticks (S (ticks w)) w) e He Hlive Hne).
      cbn [valid negb TwilioService.invalidResult]. wsimpl.
      closes ltac:(apply effect_none; reflexivity). }
  rewrite (verifyOTP_right_code p (set_ticks (S (ticks w)) w) e He Hlive).
  cbn [valid negb]. wsimpl.
  destruct (JsMap.find _ (users w)) as [[k u]|]; wsimpl.
  - rewrite touchAndReturn_runs. wsimpl.
    closes ltac:(apply (effect_consumed _ _ p); auto).
  - destruct (pendingRegistrations w !! p) as [reg|]; wsimpl.
    + rewrite createUser_runs. cbv zeta. wsimpl.
      rewrite touchAndReturn_runs. wsimpl.
      closes ltac:(apply (effect_consumed _ _ p); auto).
    + rewrite createUser_runs. cbv zeta. wsimpl.
      rewrite touchAndReturn_runs. wsimpl.
      closes ltac:(apply (effect_consumed _ _ p); auto).
Qed.

Lemma registerUser_effect reg w :
  let w' := snd (RealAuthService.registerUser reg w) in
  clock w' = clock w /\ (ticks w <= ticks w')%nat /\ otp_effect w w'
  /\ (NoDup (users w).*1 -> NoDup (users w').*1).
Proof.
  unfold RealAuthService.registerUser, TwilioService.formatPhoneNumber.
  destruct (formatPhoneNumber (reg_phone reg)) as [p|] eqn:E;
    [|cbn; closes ltac:(apply effect_none; reflexivity)].
  unfold RealAuthService.findUserByPhone. mrun.
  destruct (JsMap.find _ (users w)) as [[k u]|];
    [cbn; closes ltac:(apply effect_none; reflexivity)|].
  rewrite (auth_sendOTP_sent p p _ (formatPhoneNumber_again _ _ E)). wsimpl.
  closes ltac:(apply (effect_sent _ _ p); reflexivity).
Qed.

Lemma authenticateAdmin_effect identifier password w :
  let w' := snd (RealAuthService.authenticateAdmin identifier password w) in
  clock w' = clock w /\ (ticks w <= ticks w')%nat /\ otp_effect w w'
  /\ (NoDup (users w).*1 -> NoDup (users w').*1).
Proof.
  unfold RealAuthService.authenticateAdmin.
  destruct (looksLikePhone identifier).
  - unfold RealAuthService.authenticateAdminPhone, TwilioService.formatPhoneNumber.
    destruct (formatPhoneNumber identifier) as [p|] eqn:E;
      [|cbn; closes ltac:(apply effect_none; reflexivity)].
    destruct (negb (includes RealAuthService.adminPhones p));
      [cbn; closes ltac:(apply effect_none; reflexivity)|].
    rewrite (auth_sendOTP_sent p p _ (formatPhoneNumber_again _ _ E)). wsimpl.
    closes ltac:(apply (effect_sent _ _ p); reflexivity).
  - unfold RealAuthService.authenticateAdminEmail.
    destruct (negb (includes RealAuthService.adminEmails identifier));
      [cbn; closes ltac:(apply effect_none; reflexivity)|].
    destruct password as [pw|];
      [|cbn; closes ltac:(apply effect_none; reflexivity)].
    destruct (String.eqb pw EmptyString || negb (includes RealAuthService.adminPasswords pw));
      [cbn; closes ltac:(apply effect_none; reflexivity)|].
    unfold RealAuthService.findUserByEmail. mrun.
    destruct (JsMap.find _ (users w)) as [[k u]|]; wsimpl.
    + rewrite touchAndReturn_runs. wsimpl.
      closes ltac:(apply effect_none; reflexivity).
    + rewrite createUser_runs. cbv zeta. wsimpl.
      rewrite touchAndReturn_runs. wsimpl.
      closes ltac:(apply effect_none; reflexivity).
Qed.

Lemma linkABHAProfile_effect userId profile w :
  let w' := snd (RealAuthService.linkABHAProfile userId profile w) in
  clock w' = clock w /\ (ticks w <= ticks w')%nat /\ otp_effect w w'
  /\ (NoDup (users w).*1 -> NoDup (users w').*1).
Proof.
  unfold RealAuthService.linkABHAProfile, RealAuthService.getUserById,
    RealAuthService.saveUsersToStorage. mrun.
  destruct (JsMap.get userId (users w)); cbn;
    closes ltac:(apply effect_none; reflexivity).
Qed.

Lemma run_effect c w :
  clock (run c w) = clock w /\ (ticks w <= ticks (run c w))%nat
  /\ otp_effect w (run c w)
  /\ (NoDup (users w).*1 -> NoDup (users (run c w)).*1).
Proof.
  destruct c; cbn [run].
  - apply sendOTP_effect.
  - apply verifyOTPAndLogin_effect.
  - apply registerUser_effect.
  - apply authenticateAdmin_effect.
  - apply linkABHAProfile_effect.
Qed.

(** Each effect keeps every entry covered, the clock going forward. *)
Lemma sessions_cover_effect w w' :
  monotone_clock w ->
  clock w' = clock w -> (ticks w <= ticks w')%nat -> otp_effect w w' ->
  sessions_cover w -> sessions_cover w'.
Proof.
  intros Hmono Hclock Hticks Heff Hinv q e Hq.
  assert (Hlater : forall x, x < clock w (ticks w) -> x < clock w' (ticks w')).
  { intros x Hx. rewrite Hclock. specialize (Hmono _ _ Hticks). lia. }
  destruct Heff as [Hst Hse | p Hst Hse | p s Hst Hs Hto Hse | p Hst Hse].
  - rewrite Hst in Hq. rewrite Hse.
    destruct (Hinv q e Hq) as [?|?]; [left; assumption | right; auto].
  - rewrite Hst in Hq. apply lookup_delete_Some in Hq as [Hne Hq].
    destruct (Hinv q e Hq) as [(s & Hs & Hle)|?]; [left | right; auto].
    exists s. split; [|assumption].
    destruct Hse as [-> | ->]; [assumption|]. rewrite lookup_delete_ne; auto.
  - rewrite Hst in Hq.
    destruct (Hinv q e Hq) as [(s' & Hs' & Hle)|?]; [|right; auto].
    destruct (decide (p = q)) as [->|Hne].
    + right. apply Hlater. rewrite Hs in Hs'. injection Hs' as <-. lia.
    + left. exists s'. rewrite Hse, lookup_delete_ne; auto.
  - rewrite Hst in Hq. rewrite Hse.
    destruct (decide (p = q)) as [->|Hne].
    + rewrite lookup_insert_eq in Hq. injection Hq as <-.
      left. eexists. rewrite lookup_insert_eq. split; [reflexivity|].
      cbn [timestamp issued expiresAt].
      pose proof (Hmono (ticks w) (S (S (ticks w))) ltac:(lia)). lia.
    + rewrite lookup_insert_ne in Hq by assumption.
      rewrite lookup_insert_ne by assumption.
      destruct (Hinv q e Hq) as [?|?]; [left; assumption | right; auto].
Qed.

Lemma run_all_invariant cs : forall w,
  monotone_clock w -> sessions_cover w ->
  monotone_clock (run_all cs w) /\ sessions_cover (run_all cs w).
Proof.
  induction cs as [|c cs IH]; intros w Hmono Hinv; [split; assumption|].
  cbn [run_all fold_left]. destruct (run_effect c w) as (Hclock & Hticks & Heff & _).
  apply IH.
  - unfold monotone_clock. rewrite Hclock. exact Hmono.
  - exact (sessions_cover_effect w (run c w) Hmono Hclock Hticks Heff Hinv).
Qed.

(** In every world the service reaches from its construction, under a clock
    that never goes back, the entries are covered. *)
Lemma reachable_sessions_cover cs w0 :
  monotone_clock w0 ->
  monotone_clock (run_all cs (RealAuthService.constructor w0))
  /\ sessions_cover (run_all cs (RealAuthService.constructor w0)).
Proof.
  intros Hmono. apply run_all_invariant.
  - unfold RealAuthService.constructor, RealAuthService.loadUsersFromStorage,
      RealAuthService.fresh. mrun.
    destruct (localStorage w0) as [[| | | | |]|]; exact Hmono.
  - intros p e H. exfalso. revert H.
    unfold RealAuthService.constructor, RealAuthService.loadUsersFromStorage,
      RealAuthService.fresh. mrun.
    destruct (localStorage w0) as [[| | | | |]|]; cbn; rewrite lookup_empty; discriminate.
Qed.

End session_facts.

(** C5. In every world the service reaches, a live entry for the phone and a
    submitted code other than the stored one make [verifyOTP] answer
    [Invalid OTP] with the entry kept, and make [verifyOTPAndLogin] fail with
    that message and leave the session, the entry, the directory, the
    pending registrations and the storage as they were: the session is
    still there, and another code can be tried. *)
Theorem wrong_code_keeps_state
    (cs : list Call) (w0 : World) (raw phone c : string) (e : OTPEntry) :
  monotone_clock w0 ->
  let w := run_all cs (RealAuthService.constructor w0) in
  formatPhoneNumber raw = Some phone ->
  otpStore w !! phone = Some e ->
  code e <> c ->
  clock w (S (ticks w)) <= expiresAt e ->
  (fst (TwilioService.verifyOTP phone c w) = TwilioService.invalidResult
   /\ otpStore (snd (TwilioService.verifyOTP phone c w)) = otpStore w)
  /\ let r := fst (RealAuthService.verifyOTPAndLogin raw c w) in
     let w' := snd (RealAuthService.verifyOTPAndLogin raw c w) in
     r = RealAuthService.failure "Invalid OTP"
     /\ otpSessions w' = otpSessions w
     /\ is_Some (otpSessions w' !! phone)
     /\ otpStore w' = otpStore w
     /\ users w' = users w
     /\ pendingRegistrations w' = pendingRegistrations w
     /\ localStorage w' = localStorage w.
Proof.
  intros Hmono0 w E He Hne Hlive.
  destruct (reachable_sessions_cover cs w0 Hmono0) as [Hmono Hinv]. fold w in Hmono, Hinv.
  pose proof (Hmono (ticks w) (S (ticks w)) ltac:(lia)) as Hstep.
  destruct (Hinv phone e He) as [(s & Hs & Hle)|Hdead]; [|lia].
  assert (Hcover : forall s', otpSessions w !! phone = Some s' ->
                              expiresAt e <= timestamp s' + 300000)
    by (intros s' Hs'; rewrite Hs in Hs'; injection Hs' as <-; exact Hle).
  destruct (wrong_code_local raw phone c w e E He Hne Hstep Hlive Hcover)
    as (Hverify & Hfail & Huser & Herr & Hsess & Hrest).
  split; [exact Hverify|]. cbv zeta.
  split; [|split; [exact Hsess | split; [rewrite Hsess, Hs; eauto | exact Hrest]]].
  specialize (Herr ltac:(rewrite Hs; eauto)).
  destruct (fst (RealAuthService.verifyOTPAndLogin raw c w)) as [sc us er ro os] eqn:Hr.
  revert Hr. unfold RealAuthService.verifyOTPAndLogin, TwilioService.formatPhoneNumber.
  rewrite E. mrun. rewrite Hs.
  assert (Hfresh : (5 * 60 * 1000 <? clock w (ticks w) - timestamp s) = false)
    by (apply Z.ltb_ge; lia).
  rewrite Hfresh.
  rewrite (verifyOTP_wrong_code phone c (set_ticks (S (ticks w)) w) e He Hlive Hne).
  cbn. intros [= <- <- <- <- <-]. reflexivity.
Qed.

Lemma wrong_code_keeps_state_witness :
  let w := run_all [CallSendOTP "(91) 98765-43210"]
             (RealAuthService.constructor (sample_world 1000)) in
  fst (RealAuthService.verifyOTPAndLogin "+91 98765 43210" "000000" w)
  = RealAuthService.failure "Invalid OTP"
  /\ otpSessions (snd (RealAuthService.verifyOTPAndLogin "+91 98765 43210" "000000" w))
     = otpSessions w.
Proof.
  intros w.
  destruct (wrong_code_keeps_state [CallSendOTP "(91) 98765-43210"] (sample_world 1000)
              "+91 98765 43210" sample_phone "000000"
              {| code := "325000"; expiresAt := 1700000300000 |})
    as (_ & Hr & Hsess & _).
  - intros i j Hij. cbn. lia.
  - reflexivity.
  - vm_compute; reflexivity.
  - discriminate.
  - vm_compute; discriminate.
  - split; [exact Hr | exact Hsess].
Defined.

(** The orchestrator's side of single use: after a login the session is gone
    with the entry, and the same call again finds no session. *)
Lemma verifyOTPAndLogin_single_use raw otp w :
  success (fst (RealAuthService.verifyOTPAndLogin raw otp w)) = true ->
  let w1 := snd (RealAuthService.verifyOTPAndLogin raw otp w) in
  RealAuthService.verifyOTPAndLogin raw otp w1
  = (RealAuthService.failure "No OTP session found. Please request a new OTP.", w1).
Proof.
  unfold RealAuthService.verifyOTPAndLogin at 1 2, TwilioService.formatPhoneNumber.
  destruct (formatPhoneNumber raw) as [p|] eqn:E; [|discriminate].
  unfold RealAuthService.findUserByPhone. mrun.
  destruct (otpSessions w !! p) as [s|] eqn:Hs; [|discriminate].
  destruct (5 * 60 * 1000 <? clock w (ticks w) - timestamp s); [discriminate|].
  destruct (otpStore w !! p) as [e|] eqn:He;
    [|rewrite verifyOTP_no_entry by exact He; discriminate].
  destruct (Z.ltb_spec (expiresAt e) (clock w (S (ticks w)))) as [Hst|Hlive];
    [rewrite (verifyOTP_stale p otp (set_ticks (S (ticks w)) w) e He Hst); discriminate|].
  destruct (String.eqb_spec (code e) otp) as [<-|Hne];
    [|rewrite (verifyOTP_wrong_code p otp (set_ticks (S (ticks w)) w) e He Hlive Hne);
      discriminate].
  rewrite (verifyOTP_right_code p (set_ticks (S (ticks w)) w) e He Hlive).
  cbn [valid negb]. wsimpl. intros _.
  assert (Hgone : forall w1, otpSessions w1 = delete p (otpSessions w) ->
            RealAuthService.verifyOTPAndLogin raw (code e) w1
            = (RealAuthService.failure "No OTP session found. Please request a new OTP.", w1)).
  { intros w1 H1. unfold RealAuthService.verifyOTPAndLogin, TwilioService.formatPhoneNumber.
    rewrite E. mrun. rewrite H1, lookup_delete_eq. reflexivity. }
  destruct (JsMap.find _ (users w)) as [[k u]|]; wsimpl.
  - rewrite touchAndReturn_runs. wsimpl. apply Hgone. reflexivity.
  - destruct (pendingRegistrations w !! p) as [reg|]; wsimpl;
      rewrite createUser_runs; cbv zeta; wsimpl;
      rewrite touchAndReturn_runs; wsimpl; apply Hgone; reflexivity.
Qed.

(** ** The directory stays a map *)

Section map_facts.

Lemma load_entries_NoDup entries : forall m,
  NoDup m.*1 -> NoDup (Persist.load_entries entries m).*1.
Proof.
  induction entries as [|[k j] entries IH]; intros m Hnd; cbn [Persist.load_entries];
    [assumption|].
  destruct (Persist.user_ofJSON j); [|assumption].
  apply IH, set_NoDup, Hnd.
Qed.

Lemma run_all_NoDup cs : forall w,
  NoDup (users w).*1 -> NoDup (users (run_all cs w)).*1.
Proof.
  induction cs as [|c cs IH]; intros w Hnd; [assumption|].
  cbn [run_all fold_left]. apply IH.
  destruct (run_effect c w) as (_ & _ & _ & H). apply H, Hnd.
Qed.

(** In every world the service reaches, the keys of the directory are
    distinct. *)
Lemma reachable_users_NoDup cs w0 :
  NoDup (users (run_all cs (RealAuthService.constructor w0))).*1.
Proof.
  apply run_all_NoDup.
  unfold RealAuthService.constructor, RealAuthService.loadUsersFromStorage,
    RealAuthService.fresh. mrun.
  destruct (localStorage w0) as [[| | | | |entries]|]; cbn; try apply NoDup_nil_2.
  apply load_entries_NoDup, NoDup_nil_2.
Qed.

End map_facts.

(** * Further properties of the code *)

(** ** Normalisation reads the digits only *)

Section format_facts.

Lemma slice_last_all s n :
  String.length s = n -> slice_last n s = s.
Proof. intros <-. unfold slice_last. rewrite Nat.sub_diag. reflexivity. Qed.

End format_facts.

(** X1. [formatPhoneNumber] looks at the digits of its input and at nothing
    else: the characters between them do not matter, a value it returns is
    [+91] followed by the last ten digits, thirteen characters in all, and an
    input with a number of digits other than ten, twelve or thirteen is
    rejected. *)
Theorem formatPhoneNumber_last_ten_digits (raw : string) :
  let digits := strip_non_digits raw in
  formatPhoneNumber raw = formatPhoneNumber digits
  /\ (forall p, formatPhoneNumber raw = Some p ->
        p = "+91" +:+ slice_last 10 digits /\ String.length p = 13%nat)
  /\ (String.length digits <> 10%nat -> String.length digits <> 12%nat ->
      String.length digits <> 13%nat -> formatPhoneNumber raw = None).
Proof.
  cbv zeta. split; [|split].
  - unfold formatPhoneNumber. rewrite strip_non_digits_idem. reflexivity.
  - intros p. unfold formatPhoneNumber, startsWith.
    set (cleaned := strip_non_digits raw).
    destruct ((String.length cleaned =? 10)%nat && String.prefix "6789" cleaned) eqn:B1.
    { apply andb_prop in B1 as [Hl _]. apply Nat.eqb_eq in Hl.
      intros [= <-]. rewrite (slice_last_all _ _ Hl).
      split; [reflexivity|]. rewrite !append_cons, append_nil.
      cbn [String.length]. rewrite Hl. reflexivity. }
    destruct ((String.length cleaned =? 12)%nat && String.prefix "91" cleaned) eqn:B2.
    { apply andb_prop in B2 as [Hl Hp]. apply Nat.eqb_eq in Hl.
      intros [= <-].
      destruct cleaned as [|a [|b rest]]; try discriminate.
      apply prefix_cons in Hp as [<- Hp]. apply prefix_cons in Hp as [<- _].
      cbn [String.length] in Hl. unfold slice_last. cbn [String.length].
      replace (S (S (String.length rest)) - 10)%nat with 2%nat by lia.
      split; [reflexivity|]. rewrite !append_cons, append_nil.
      cbn [String.length]. lia. }
    destruct ((String.length cleaned =? 13)%nat && String.prefix "091" cleaned) eqn:B3;
      [|discriminate].
    apply andb_prop in B3 as [Hl Hp]. apply Nat.eqb_eq in Hl.
    intros [= <-].
    destruct cleaned as [|z [|a [|b rest]]]; try discriminate.
    apply prefix_cons in Hp as [<- Hp]. apply prefix_cons in Hp as [<- Hp].
    apply prefix_cons in Hp as [<- _].
    cbn [String.length] in Hl. unfold slice_last. cbn [String.length].
    replace (S (S (S (String.length rest))) - 10)%nat with 3%nat by lia.
    split; [reflexivity|]. rewrite !append_cons, append_nil.
    cbn [String.length substring_from]. lia.
  - intros H10 H12 H13. unfold formatPhoneNumber.
    apply Nat.eqb_neq in H10, H12, H13. rewrite H10, H12, H13. reflexivity.
Qed.

(** ** The codes issued *)

Section code_facts.

Lemma pretty_N_char_digit d : is_digit (pretty_N_char d) = true.
Proof.
  destruct d as [|p]; [reflexivity|].
  repeat (destruct p as [p|p|]; try reflexivity).
Qed.

Lemma pretty_N_char_digit19 d :
  (1 <= d)%N -> is_digit19 (pretty_N_char d) = true.
Proof.
  destruct d as [|p]; [lia|]. intros _.
  repeat (destruct p as [p|p|]; try reflexivity).
Qed.

(** The decimal form of a number from 100000 to 999999. *)
Lemma pretty_six (n : Z) :
  100000 <= n <= 999999 ->
  exists c0 c1 c2 c3 c4 c5,
    pretty n = String c0 (String c1 (String c2 (String c3 (String c4 (String c5 EmptyString)))))
    /\ is_digit19 c0 = true /\ is_digit c1 = true /\ is_digit c2 = true
    /\ is_digit c3 = true /\ is_digit c4 = true /\ is_digit c5 = true.
Proof.
  intros Hn. destruct n as [|p|p]; try lia.
  unfold pretty, pretty_Z, pretty_positive, pretty, pretty_N.
  destruct (decide (N.pos p = 0%N)) as [?|_]; [lia|].
  set (x := N.pos p). assert (Hx : (100000 <= x <= 999999)%N) by lia. clearbody x.
  rewrite pretty_N_go_step by lia.
  rewrite pretty_N_go_step by (zify; Z.div_mod_to_equations; lia).
  rewrite pretty_N_go_step by (zify; Z.div_mod_to_equations; lia).
  rewrite pretty_N_go_step by (zify; Z.div_mod_to_equations; lia).
  rewrite pretty_N_go_step by (zify; Z.div_mod_to_equations; lia).
  rewrite pretty_N_go_step by (zify; Z.div_mod_to_equations; lia).
  replace (x / 10 / 10 / 10 / 10 / 10 / 10)%N with 0%N
    by (zify; Z.div_mod_to_equations; lia).
  rewrite pretty_N_go_0.
  do 6 eexists. split; [reflexivity|].
  split; [apply pretty_N_char_digit19; zify; Z.to_euclidean_division_equations; lia|].
  repeat split; apply pretty_N_char_digit.
Qed.

Lemma generateOTP_range (r : Q) :
  (0 <= r)%Q -> (r < 1)%Q -> 100000 <= Qfloor (100000 + r * 900000) <= 999999.
Proof.
  intros H0 H1. split.
  - apply Z.le_trans with (Qfloor (inject_Z 100000)); [rewrite Qfloor_Z; lia|].
    apply Qfloor_resp_le. unfold inject_Z. lra.
  - assert (H : Qfloor (100000 + r * 900000) < 1000000); [|lia].
    rewrite Zlt_Qlt. eapply Qle_lt_trans; [apply Qfloor_le|].
    unfold inject_Z. lra.
Qed.

End code_facts.



(** ** The verifier and the issuer, phone by phone *)

Section frame_facts.

(** The store after [verifyOTP]: as before, or without the phone's entry. *)
Lemma verifyOTP_store phone c w :
  otpStore (snd (TwilioService.verifyOTP phone c w)) = otpStore w
  \/ otpStore (snd (TwilioService.verifyOTP phone c w)) = delete phone (otpStore w).
Proof.
  unfold TwilioService.verifyOTP, TwilioService.deleteOTP. mrun.
  destruct (otpStore w !! phone) as [e|]; [|right; reflexivity].
  destruct (expiresAt e <? clock w (ticks w)); [right; reflexivity|].
  destruct (negb (String.eqb (code e) c)); [left | right]; reflexivity.
Qed.

End frame_facts.

(** X3. Verifying or sending a code for one phone leaves the entry of every
    other phone as it was, whatever the outcome. *)
Theorem otp_other_phones_untouched (phone other c : string) (w : World) :
  phone <> other ->
  otpStore (snd (TwilioService.verifyOTP phone c w)) !! other = otpStore w !! other
  /\ otpStore (snd (TwilioService.sendOTP phone w)) !! other = otpStore w !! other.
Proof.
  intros Hne. split.
  - destruct (verifyOTP_store phone c w) as [-> | ->]; [reflexivity|].
    apply lookup_delete_ne, Hne.
  - destruct (isValidPhoneNumber phone) eqn:Hv.
    + rewrite (sendOTP_issues phone w Hv). wsimpl. apply lookup_insert_ne, Hne.
    + rewrite (sendOTP_invalid phone w Hv). reflexivity.
Qed.

Lemma otp_other_phones_untouched_witness :
  otpStore (snd (TwilioService.verifyOTP "+916789000001" "325000" sample_live))
    !! sample_phone
  = Some {| code := "325000"; expiresAt := 1700000300000 |}.
Proof.
  destruct (otp_other_phones_untouched "+916789000001" sample_phone "325000" sample_live)
    as [-> _]; [discriminate|].
  vm_compute. reflexivity.
Defined.

(** X4. Wrong codes are never counted: while the entry is live, any number
    of attempts with other codes each get [Invalid OTP] and leave the store
    as it was, and the stored code is still approved after them. *)
Theorem wrong_attempts_never_lock (phone : string) (codes : list string)
    (w : World) (e : OTPEntry) :
  otpStore w !! phone = Some e ->
  Forall (fun c => code e <> c) codes ->
  (forall i, (i <= length codes)%nat -> clock w (ticks w + i) <= expiresAt e) ->
  let w' := snd (verifyEach phone codes w) in
  Forall (fun r => r = TwilioService.invalidResult) (fst (verifyEach phone codes w))
  /\ length (fst (verifyEach phone codes w)) = length codes
  /\ otpStore w' = otpStore w
  /\ status (fst (TwilioService.verifyOTP phone (code e) w')) = approved.
Proof.
  revert w. induction codes as [|c codes IH]; intros w He Hcodes Hlive.
  - cbn [verifyEach]. mrun. repeat split; [constructor|].
    rewrite (verifyOTP_right_code phone w e He).
    + reflexivity.
    + specialize (Hlive 0%nat ltac:(cbn; lia)). rewrite Nat.add_0_r in Hlive. exact Hlive.
  - apply Forall_cons in Hcodes as [Hc Hcodes].
    assert (H0 : clock w (ticks w) <= expiresAt e).
    { specialize (Hlive 0%nat ltac:(cbn; lia)). rewrite Nat.add_0_r in Hlive. exact Hlive. }
    assert (Hstep : verifyEach phone (c :: codes) w
                    = (TwilioService.invalidResult
                         :: fst (verifyEach phone codes (set_ticks (S (ticks w)) w)),
                       snd (verifyEach phone codes (set_ticks (S (ticks w)) w)))).
    { cbn [verifyEach]. unfold bind, ret.
      rewrite (verifyOTP_wrong_code phone c w e He H0 Hc).
      destruct (verifyEach phone codes (set_ticks (S (ticks w)) w)); reflexivity. }
    rewrite Hstep. cbn [fst snd length].
    destruct (IH (set_ticks (S (ticks w)) w) He Hcodes) as (H1 & H2 & H3 & H4).
    { intros i Hi. wsimpl. specialize (Hlive (S i) ltac:(cbn; lia)).
      rewrite Nat.add_succ_r in Hlive. exact Hlive. }
    split; [constructor; [reflexivity | exact H1]|].
    split; [rewrite H2; reflexivity|]. split; [exact H3 | exact H4].
Qed.

Lemma wrong_attempts_never_lock_witness :
  status (fst (TwilioService.verifyOTP sample_phone "325000"
                 (snd (verifyEach sample_phone ["000000"; "111111"; "999999"] sample_live))))
  = approved.
Proof.
  destruct (wrong_attempts_never_lock sample_phone ["000000"; "111111"; "999999"]
              sample_live {| code := "325000"; expiresAt := 1700000300000 |})
    as (_ & _ & _ & H).
  - vm_compute. reflexivity.
  - repeat constructor; discriminate.
  - intros i Hi. cbn [length] in Hi.
    change (clock sample_live) with (fun n : nat => 1700000000000 + 1000 * Z.of_nat n).
    change (ticks sample_live) with 2%nat. cbn beta. cbn [expiresAt]. lia.
  - exact H.
Defined.

(** X5. A login is never granted on a wrong or stale code: when
    [verifyOTPAndLogin] succeeds, the phone normalised, it had a session no
    older than five minutes and a live entry holding exactly the submitted
    code; the call consumed both, and it returned a user. *)
Theorem login_needs_the_code (raw otp : string) (w : World) :
  success (fst (RealAuthService.verifyOTPAndLogin raw otp w)) = true ->
  let w' := snd (RealAuthService.verifyOTPAndLogin raw otp w) in
  exists p s e,
    formatPhoneNumber raw = Some p
    /\ otpSessions w !! p = Some s
    /\ clock w (ticks w) - timestamp s <= 300000
    /\ otpStore w !! p = Some e /\ code e = otp
    /\ clock w (S (ticks w)) <= expiresAt e
    /\ otpStore w' !! p = None /\ otpSessions w' !! p = None.
Proof.
  unfold RealAuthService.verifyOTPAndLogin, TwilioService.formatPhoneNumber.
  destruct (formatPhoneNumber raw) as [p|] eqn:E; [|discriminate].
  unfold RealAuthService.findUserByPhone. mrun.
  destruct (otpSessions w !! p) as [s|] eqn:Hs; [|discriminate].
  destruct (Z.ltb_spec (5 * 60 * 1000) (clock w (ticks w) - timestamp s)) as [Hto|Hto];
    [discriminate|].
  destruct (otpStore w !! p) as [e|] eqn:He;
    [|rewrite verifyOTP_no_entry by exact He; discriminate].
  destruct (Z.ltb_spec (expiresAt e) (clock w (S (ticks w)))) as [Hst|Hlive];
    [rewrite (verifyOTP_stale p otp (set_ticks (S (ticks w)) w) e He Hst); discriminate|].
  destruct (String.eqb_spec (code e) otp) as [<-|Hne];
    [|rewrite (verifyOTP_wrong_code p otp (set_ticks (S (ticks w)) w) e He Hlive Hne);
      discriminate].
  rewrite (verifyOTP_right_code p (set_ticks (S (ticks w)) w) e He Hlive).
  cbn [valid negb]. wsimpl. intros _.
  exists p, s, e. repeat split; try assumption; try lia.
  - destruct (JsMap.find _ (users w)) as [[k u]|]; wsimpl;
      [|destruct (pendingRegistrations w !! p) as [reg|]; wsimpl;
        rewrite createUser_runs; cbv zeta; wsimpl];
      rewrite touchAndReturn_runs; wsimpl; apply lookup_delete_eq.
  - destruct (JsMap.find _ (users w)) as [[k u]|]; wsimpl;
      [|destruct (pendingRegistrations w !! p) as [reg|]; wsimpl;
        rewrite createUser_runs; cbv zeta; wsimpl];
      rewrite touchAndReturn_runs; wsimpl; apply lookup_delete_eq.
Qed.

Lemma login_needs_the_code_witness :
  let w := snd (RealAuthService.sendOTP "91 98765 43210" (sample_world 1000)) in
  success (fst (RealAuthService.verifyOTPAndLogin sample_phone "325000" w)) = true
  /\ otpStore (snd (RealAuthService.verifyOTPAndLogin sample_phone "325000" w))
       !! sample_phone = None.
Proof.
  intros w.
  assert (Hs : success (fst (RealAuthService.verifyOTPAndLogin sample_phone "325000" w))
               = true) by (vm_compute; reflexivity).
  split; [exact Hs|].
  destruct (login_needs_the_code sample_phone "325000" w Hs)
    as (p & s & e & Hp & _ & _ & _ & _ & _ & Hgone & _).
  vm_compute in Hp. injection Hp as <-. exact Hgone.
Defined.

(** ** What each call does to the directory and to the keys of the maps *)

Section effect_facts.

Ltac keys_tac :=
  split; intros q x Hq; wsimpl;
  first [ left; exact Hq
        | apply lookup_delete_Some in Hq as [_ Hq]; left; exact Hq
        | apply lookup_insert_Some in Hq as [[<- <-]|[_ Hq]];
          [right; first [assumption | split; [assumption | reflexivity]]
          | left; exact Hq] ].

Ltac same_tac := split; [apply dir_same; reflexivity | keys_tac].

Lemma sendOTP_dir raw w :
  let w' := snd (RealAuthService.sendOTP raw w) in
  dir_effect w w' /\ otp_keys_effect w w'.
Proof.
  cbv zeta. destruct (formatPhoneNumber raw) as [p|] eqn:E.
  - rewrite (auth_sendOTP_sent raw p w E). wsimpl.
    pose proof (formatPhoneNumber_again _ _ E : canonical p) as Hp. same_tac.
  - unfold RealAuthService.sendOTP, TwilioService.formatPhoneNumber. rewrite E.
    cbn. same_tac.
Qed.

Lemma verifyOTPAndLogin_dir raw otp w :
  let w' := snd (RealAuthService.verifyOTPAndLogin raw otp w) in
  dir_effect w w' /\ otp_keys_effect w w'.
Proof.
  unfold RealAuthService.verifyOTPAndLogin, TwilioService.formatPhoneNumber.
  destruct (formatPhoneNumber raw) as [p|] eqn:E; [|cbn; same_tac].
  pose proof (formatPhoneNumber_again _ _ E : canonical p) as Hp.
  unfold RealAuthService.findUserByPhone. mrun.
  destruct (otpSessions w !! p) as [s|] eqn:Hs; [|cbn; same_tac].
  destruct (5 * 60 * 1000 <? clock w (ticks w) - timestamp s); [wsimpl; same_tac|].
  destruct (otpStore w !! p) as [e|] eqn:He.
  2:{ rewrite verifyOTP_no_entry by exact He. cbn [valid negb TwilioService.expiredResult].
      wsimpl. same_tac. }
  destruct (Z.ltb_spec (expiresAt e) (clock w (S (ticks w)))) as [Hst|Hlive].
  { rewrite (verifyOTP_stale p otp (set_ticks (S (ticks w)) w) e He Hst).
    cbn [valid negb TwilioService.expiredResult]. wsimpl. same_tac. }
  destruct (String.eqb_spec (code e) otp) as [<-|Hne].
  2:{ rewrite (verifyOTP_wrong_code p otp (set_ticks (S (ticks w)) w) e He Hlive Hne).
      cbn [valid negb TwilioService.invalidResult]. wsimpl. same_tac. }
  rewrite (verifyOTP_right_code p (set_ticks (S (ticks w)) w) e He Hlive).
  cbn [valid negb]. wsimpl.
  destruct (JsMap.find _ (users w)) as [[k u]|]; wsimpl.
  - rewrite touchAndReturn_runs. wsimpl.
    split; [eapply dir_touched; reflexivity | keys_tac].
  - destruct (pendingRegistrations w !! p) as [reg|] eqn:Hreg; wsimpl.
    + rewrite createUser_runs. cbv zeta. wsimpl.
      rewrite touchAndReturn_runs. wsimpl.
      split; [|keys_tac].
      eapply dir_created; [reflexivity | right; exists p; split; [exact Hreg | reflexivity]
                          | reflexivity | reflexivity].
    + rewrite createUser_runs. cbv zeta. wsimpl.
      rewrite touchAndReturn_runs. wsimpl.
      split; [|keys_tac].
      eapply dir_created; [reflexivity | left; split; [reflexivity | exact Hp]
                          | reflexivity | reflexivity].
Qed.

Lemma registerUser_dir reg w :
  let w' := snd (RealAuthService.registerUser reg w) in
  dir_effect w w' /\ otp_keys_effect w w'.
Proof.
  unfold RealAuthService.registerUser, TwilioService.formatPhoneNumber.
  destruct (formatPhoneNumber (reg_phone reg)) as [p|] eqn:E; [|cbn; same_tac].
  pose proof (formatPhoneNumber_again _ _ E : canonical p) as Hp.
  unfold RealAuthService.findUserByPhone. mrun.
  destruct (JsMap.find _ (users w)) as [[k u]|]; [cbn; same_tac|].
  rewrite (auth_sendOTP_sent p p _ Hp). wsimpl.
  split; [|keys_tac].
  eapply (dir_draft _ _ p); [exact Hp | | reflexivity | reflexivity | reflexivity | reflexivity].
  reflexivity.
Qed.

Lemma authenticateAdmin_dir identifier password w :
  let w' := snd (RealAuthService.authenticateAdmin identifier password w) in
  dir_effect w w' /\ otp_keys_effect w w'.
Proof.
  unfold RealAuthService.authenticateAdmin.
  destruct (looksLikePhone identifier).
  - unfold RealAuthService.authenticateAdminPhone, TwilioService.formatPhoneNumber.
    destruct (formatPhoneNumber identifier) as [p|] eqn:E; [|cbn; same_tac].
    pose proof (formatPhoneNumber_again _ _ E : canonical p) as Hp.
    destruct (negb (includes RealAuthService.adminPhones p)); [cbn; same_tac|].
    rewrite (auth_sendOTP_sent p p _ Hp). wsimpl. same_tac.
  - unfold RealAuthService.authenticateAdminEmail.
    destruct (negb (includes RealAuthService.adminEmails identifier)); [cbn; same_tac|].
    destruct password as [pw|]; [|cbn; same_tac].
    destruct (String.eqb pw EmptyString || negb (includes RealAuthService.adminPasswords pw));
      [cbn; same_tac|].
    unfold RealAuthService.findUserByEmail. mrun.
    destruct (JsMap.find _ (users w)) as [[k u]|]; wsimpl.
    + rewrite touchAndReturn_runs. wsimpl.
      split; [eapply dir_touched; reflexivity | keys_tac].
    + rewrite createUser_runs. cbv zeta. wsimpl.
      rewrite touchAndReturn_runs. wsimpl.
      split; [|keys_tac].
      eapply dir_created; [reflexivity | left; split; reflexivity | reflexivity | reflexivity].
Qed.

Lemma linkABHAProfile_dir userId profile w :
  let w' := snd (RealAuthService.linkABHAProfile userId profile w) in
  dir_effect w w' /\ otp_keys_effect w w'.
Proof.
  unfold RealAuthService.linkABHAProfile, RealAuthService.getUserById,
    RealAuthService.saveUsersToStorage. mrun.
  destruct (JsMap.get userId (users w)); cbn; [|same_tac].
  split; [eapply dir_linked; reflexivity | keys_tac].
Qed.

Lemma run_dir c w : dir_effect w (run c w) /\ otp_keys_effect w (run c w).
Proof.
  destruct c; cbn [run].
  - apply sendOTP_dir.
  - apply verifyOTPAndLogin_dir.
  - apply registerUser_dir.
  - apply authenticateAdmin_dir.
  - apply linkABHAProfile_dir.
Qed.

End effect_facts.

(** ** Invariants of the directory and of the stored phones *)

Section invariant_facts.
Context {V : Type}.
Implicit Types (m : list (string * V)) (k : string) (v : V).

Lemma elem_of_set k v k' v' m :
  (k', v') ∈ JsMap.set k v m -> (k', v') ∈ m \/ (k' = k /\ v' = v).
Proof.
  induction m as [|[k0 v0] m IH]; cbn [JsMap.set].
  - intros H. apply list_elem_of_singleton in H. injection H as -> ->. auto.
  - destruct (String.eqb k k0).
    + intros [[= -> ->]|H]%elem_of_cons; [auto|]. left. apply list_elem_of_further, H.
    + intros [[= -> ->]|H]%elem_of_cons; [left; apply list_elem_of_here|].
      destruct (IH H) as [?|?]; [left; apply list_elem_of_further; assumption | auto].
Qed.

Lemma elem_of_update k f k' v' m :
  (k', v') ∈ JsMap.update k f m ->
  exists v0, (k', v0) ∈ m /\ (v' = v0 \/ v' = f v0).
Proof.
  induction m as [|[k0 v0] m IH]; cbn [JsMap.update]; [intros H; inversion H|].
  destruct (String.eqb k k0).
  - intros [[= -> ->]|H]%elem_of_cons.
    + exists v0. split; [apply list_elem_of_here | auto].
    + exists v'. split; [apply list_elem_of_further, H | auto].
  - intros [[= -> ->]|H]%elem_of_cons.
    + exists v0. split; [apply list_elem_of_here | auto].
    + destruct (IH H) as (v1 & Hin & Hv). exists v1.
      split; [apply list_elem_of_further, Hin | exact Hv].
Qed.

Lemma set_keys k v m :
  (JsMap.set k v m).*1 = (m.*1)
  \/ ((k ∉ m.*1) /\ (JsMap.set k v m).*1 = ((m.*1) ++ [k])%list).
Proof.
  destruct (decide (k ∈ m.*1)) as [Hin|Hnin].
  - left. apply set_keys_in, Hin.
  - right. split; [exact Hnin | apply set_keys_notin, Hnin].
Qed.

End invariant_facts.

Section invariant_steps.

(** The keys of the directory after a call: the same, or one more at the
    end. *)
Lemma dir_effect_keys w w' :
  dir_effect w w' ->
  (users w').*1 = ((users w).*1)
  \/ exists k, (k ∉ (users w).*1) /\ (users w').*1 = (((users w).*1) ++ [k])%list.
Proof.
  intros [Hu _ _ _ | p reg _ _ Hu _ _ _ | k d Hu _ _ _ | k j Hu _ _ _
         | k reg c l d Hu _ _ _];
    rewrite Hu, ?update_keys; auto.
  destruct (set_keys k (newUser k reg (TimeValue (clock w c)) (TimeValue (clock w l)))
              (users w)) as [->|[Hnin ->]]; eauto.
Qed.

Lemma dir_effect_synced w w' :
  dir_effect w w' ->
  (users w' = users w /\ localStorage w' = localStorage w) \/ storage_synced w'.
Proof.
  intros [Hu _ Hs _ | p reg _ _ Hu _ Hs _ | k d _ _ Hs _ | k j _ _ Hs _
         | k reg c l d _ _ Hs _];
    auto.
Qed.

Lemma dir_effect_wf w w' : dir_effect w w' -> directory_wf w -> directory_wf w'.
Proof.
  intros Heff [Hnd Hid]. split.
  - destruct (dir_effect_keys w w' Heff) as [->|(k & Hnin & ->)]; [exact Hnd|].
    apply NoDup_app. repeat split; [exact Hnd | | apply NoDup_singleton].
    intros x Hx ->%list_elem_of_singleton. contradiction.
  - destruct Heff as [Hu _ _ _ | p reg _ _ Hu _ _ _ | k d Hu _ _ _ | k j Hu _ _ _
                     | k reg c l d Hu _ _ _]; rewrite Hu; try exact Hid.
    + intros k' u' (u0 & Hin & [->| ->])%elem_of_update; apply (Hid _ _ Hin).
    + intros k' u' (u0 & Hin & [->| ->])%elem_of_update; apply (Hid _ _ Hin).
    + intros k' u' (u0 & Hin & Hu')%elem_of_update.
      assert (id u0 = k') as <-.
      { apply elem_of_set in Hin as [Hin|[-> ->]]; [apply (Hid _ _ Hin) | reflexivity]. }
      destruct Hu' as [->| ->]; reflexivity.
Qed.

Lemma effects_canonical w w' :
  dir_effect w w' -> otp_keys_effect w w' -> phones_canonical w -> phones_canonical w'.
Proof.
  intros Heff [Hk1 Hk2] (Ho & Hs & Hp & Hu).
  split; [|split; [|split]].
  - intros q e Hq. destruct (Hk1 q e Hq) as [H|H]; [exact (Ho q e H) | exact H].
  - intros q s Hq. destruct (Hk2 q s Hq) as [H|H]; [exact (Hs q s H) | exact H].
  - destruct Heff as [_ Hpe _ _ | p reg Hc Hr _ Hpe _ _ | k d _ Hpe _ _ | k j _ Hpe _ _
                     | k reg c l d _ [[Hpe _]|(p & _ & Hpe)] _ _];
      rewrite Hpe; try exact Hp.
    + intros q r [[<- <-]|[_ Hq]]%lookup_insert_Some; [rewrite Hr; auto | exact (Hp q r Hq)].
    + intros q r [_ Hq]%lookup_delete_Some. exact (Hp q r Hq).
  - destruct Heff as [Hue _ _ _ | p reg _ _ Hue _ _ _ | k d Hue _ _ _ | k j Hue _ _ _
                     | k reg c l d Hue Hreg _ _]; rewrite Hue; try exact Hu.
    + intros k' u' (u0 & Hin & [->| ->])%elem_of_update; apply (Hu _ _ Hin).
    + intros k' u' (u0 & Hin & [->| ->])%elem_of_update; apply (Hu _ _ Hin).
    + assert (Hnew : canonical (reg_phone reg)).
      { destruct Hreg as [[_ H]|(p & Hpr & _)]; [exact H|].
        destruct (Hp p reg Hpr) as [Hc ->]. exact Hc. }
      intros k' u' (u0 & Hin & Hu')%elem_of_update.
      assert (canonical (phone u0)).
      { apply elem_of_set in Hin as [Hin|[-> ->]]; [apply (Hu _ _ Hin) | exact Hnew]. }
      destruct Hu' as [->| ->]; assumption.
Qed.

Lemma fresh_canonical w0 :
  localStorage w0 = None -> phones_canonical (RealAuthService.constructor w0)
                            /\ directory_wf (RealAuthService.constructor w0).
Proof.
  intros H0. unfold RealAuthService.constructor, RealAuthService.loadUsersFromStorage,
    RealAuthService.fresh. mrun. rewrite H0. wsimpl.
  split; [split; [|split; [|split]]|split].
  - intros q e H. wsimpl. rewrite lookup_empty in H. discriminate.
  - intros q e H. wsimpl. rewrite lookup_empty in H. discriminate.
  - intros q e H. wsimpl. rewrite lookup_empty in H. discriminate.
  - intros k u H. inversion H.
  - apply NoDup_nil_2.
  - intros k u H. inversion H.
Qed.

End invariant_steps.

(** X6. The stored item follows the directory: each of the five calls
    either leaves the directory and the stored item as they were or ends
    with the stored item holding the whole directory, so once they agree
    they agree after every further call. *)
Theorem directory_always_saved (w : World) :
  (forall c, (users (run c w) = users w /\ localStorage (run c w) = localStorage w)
             \/ storage_synced (run c w))
  /\ (storage_synced w -> forall cs, storage_synced (run_all cs w)).
Proof.
  split.
  - intros c. apply dir_effect_synced, run_dir.
  - intros Hs cs. revert w Hs. induction cs as [|c cs IH]; intros w Hs; [exact Hs|].
    cbn [run_all fold_left]. apply IH.
    destruct (dir_effect_synced w (run c w) (proj1 (run_dir c w))) as [[Hu Hl]|H];
      [|exact H].
    unfold storage_synced in *. rewrite Hu, Hl. exact Hs.
Qed.

(** X7. None of the five calls removes a user or reorders the directory:
    the ids present before a run of them are, in the same order, the first
    ids after it, and one call adds at most one. ([clearAllData] is the one
    operation that empties the directory.) *)
Theorem users_never_removed (cs : list Call) (w : World) :
  (users w).*1 `prefix_of` (users (run_all cs w)).*1
  /\ forall c, (length (users (run c w)) <= S (length (users w)))%nat.
Proof.
  split.
  - revert w. induction cs as [|c cs IH]; intros w; [reflexivity|].
    cbn [run_all fold_left]. etransitivity; [|apply IH].
    destruct (dir_effect_keys w (run c w) (proj1 (run_dir c w))) as [->|(k & _ & ->)];
      [reflexivity | apply prefix_app_r; reflexivity].
  - intros c.
    destruct (dir_effect_keys w (run c w) (proj1 (run_dir c w))) as [H|(k & _ & H)];
      apply (f_equal length) in H; rewrite ?length_app, !length_fmap in H;
      cbn [length] in H; lia.
Qed.

Section reachable_facts.

Lemma run_all_canonical cs : forall w,
  phones_canonical w -> phones_canonical (run_all cs w).
Proof.
  induction cs as [|c cs IH]; intros w Hw; [exact Hw|].
  cbn [run_all fold_left]. apply IH.
  destruct (run_dir c w) as [Hd Hk]. exact (effects_canonical _ _ Hd Hk Hw).
Qed.

Lemma run_all_wf cs : forall w, directory_wf w -> directory_wf (run_all cs w).
Proof.
  induction cs as [|c cs IH]; intros w Hw; [exact Hw|].
  cbn [run_all fold_left]. apply IH.
  exact (dir_effect_wf _ _ (proj1 (run_dir c w)) Hw).
Qed.

End reachable_facts.

(** X8. Only normalised phones are ever held: if every key of the OTP store,
    of the sessions and of the drafts, every session's and draft's own phone
    and every user's phone is in the form [formatPhoneNumber] returns, the
    same is true after any run of calls; every phone a code is then stored
    for is [+91] and ten digits, which the issuer's own check accepts. It is
    true of a service constructed on an empty storage. *)
Theorem phones_stay_canonical (cs : list Call) (w : World) :
  phones_canonical w ->
  phones_canonical (run_all cs w)
  /\ forall q e, otpStore (run_all cs w) !! q = Some e ->
       isValidPhoneNumber q = true
       /\ exists rest, q = "+91" +:+ rest
                       /\ all_digits rest = true /\ String.length rest = 10%nat.
Proof.
  intros Hw. pose proof (run_all_canonical cs w Hw) as Hc.
  split; [exact Hc|].
  intros q e Hq. destruct Hc as (Ho & _).
  pose proof (Ho q e Hq) as Hcan. unfold canonical in Hcan.
  split; [exact (formatPhoneNumber_valid _ _ Hcan)|].
  destruct (formatPhoneNumber_cases _ _ Hcan) as (rest & -> & Hd & Hl).
  exists rest. rewrite !append_cons, append_nil. repeat split; assumption.
Qed.

Lemma phones_stay_canonical_witness :
  phones_canonical
    (run_all [CallRegisterUser {| reg_name := "Asha"; reg_email := None;
                                  reg_phone := "091-98765-43210"; reg_userType := asha;
                                  reg_specialty := None; reg_village := Some "Rampur";
                                  reg_organization := None |};
              CallVerifyOTPAndLogin "+91 98765 43210" "325000"]
       (RealAuthService.constructor (sample_world 1000))).
Proof.
  apply phones_stay_canonical.
  exact (proj1 (fresh_canonical (sample_world 1000) eq_refl)).
Defined.

(** X9. A live code is never shut out by the session check: in every world
    the service reaches under a clock that does not go back, a phone whose
    entry has not expired has a session, and that session is within its five
    minutes. *)
Theorem live_code_has_session (cs : list Call) (w0 : World) (p : string) (e : OTPEntry) :
  monotone_clock w0 ->
  let w := run_all cs (RealAuthService.constructor w0) in
  otpStore w !! p = Some e ->
  clock w (ticks w) <= expiresAt e ->
  exists s, otpSessions w !! p = Some s
            /\ clock w (ticks w) - timestamp s <= 300000.
Proof.
  intros Hmono0 w He Hlive.
  destruct (reachable_sessions_cover cs w0 Hmono0) as [_ Hinv]. fold w in Hinv.
  destruct (Hinv p e He) as [(s & Hs & Hle)|Hdead]; [|lia].
  exists s. split; [exact Hs | lia].
Qed.

Lemma live_code_has_session_witness :
  let w := run_all [CallSendOTP "91 98765 43210"]
             (RealAuthService.constructor (sample_world 1000)) in
  exists s, otpSessions w !! sample_phone = Some s
            /\ clock w (ticks w) - timestamp s <= 300000.
Proof.
  intros w.
  apply (live_code_has_session [CallSendOTP "91 98765 43210"] (sample_world 1000)
           sample_phone {| code := "325000"; expiresAt := 1700000300000 |}).
  - intros i j Hij. cbn. lia.
  - vm_compute. reflexivity.
  - vm_compute. discriminate.
Defined.

(** X10. The directory stays a map from each user's own id: if its keys are
    distinct and every user is filed under its [id], so it is after any run
    of calls, and [getUserById] then returns only a user with the id asked
    for. It is so in a service constructed on an empty storage. *)
Theorem directory_stays_wf (cs : list Call) (w : World) :
  directory_wf w ->
  directory_wf (run_all cs w)
  /\ forall k u, fst (RealAuthService.getUserById k (run_all cs w)) = Some u -> id u = k.
Proof.
  intros Hw. pose proof (run_all_wf cs w Hw) as Hwf. split; [exact Hwf|].
  intros k u Hget. unfold RealAuthService.getUserById, gets in Hget. cbn [fst] in Hget.
  destruct Hwf as [_ Hid]. apply Hid, get_Some_elem_of, Hget.
Qed.

Lemma directory_stays_wf_witness :
  directory_wf
    (run_all [CallAuthenticateAdmin "admin@easymed.in" (Some "admin123");
              CallAuthenticateAdmin "admin@gmail.com" (Some "dummy123")]
       (RealAuthService.constructor (sample_world 1000))).
Proof.
  apply directory_stays_wf.
  exact (proj2 (fresh_canonical (sample_world 1000) eq_refl)).
Defined.

(** ** Sending a code and logging in with it *)

Section login_flow.

(** After [sendOTP] the code it issued passes both checks of
    [verifyOTPAndLogin], given readings that stay within the five minutes;
    what is left of the call is to find or create the user and touch it. *)
Lemma verify_after_send raw raw' p w :
  formatPhoneNumber raw = Some p ->
  formatPhoneNumber raw' = Some p ->
  clock w (S (S (S (ticks w)))) - clock w (S (S (ticks w))) <= 300000 ->
  clock w (S (S (S (S (ticks w))))) <= clock w (ticks w) + 300000 ->
  let w2 :=
    set_otpSessions (delete p (<[p := {| session_phone := p;
                                         timestamp := clock w (S (S (ticks w))) |}]>
                                 (otpSessions w)))
      (set_ticks (S (S (S (S (S (S (ticks w)))))))
         (set_draws (S (draws w))
            (set_otpStore (delete p (<[p := issued w]> (otpStore w))) w))) in
  RealAuthService.verifyOTPAndLogin raw' (code (issued w))
    (snd (RealAuthService.sendOTP raw w))
  = match JsMap.find (fun u => String.eqb (phone u) p) (users w) with
    | Some (k, _) => RealAuthService.touchAndReturn k w2
    | None =>
        match pendingRegistrations w !! p with
        | Some reg =>
            let (k, w3) := RealAuthService.createUser reg w2 in
            RealAuthService.touchAndReturn k
              (set_pendingRegistrations (delete p (pendingRegistrations w3)) w3)
        | None =>
            let (k, w3) :=
              RealAuthService.createUser
                {| reg_name := "User " +:+ slice_last 4 p; reg_email := None;
                   reg_phone := p; reg_userType := patient; reg_specialty := None;
                   reg_village := None; reg_organization := None |} w2 in
            RealAuthService.touchAndReturn k w3
        end
    end.
Proof.
  intros E E' Hsess Hlive. cbv zeta.
  rewrite (auth_sendOTP_sent raw p w E). wsimpl.
  unfold RealAuthService.verifyOTPAndLogin, TwilioService.formatPhoneNumber.
  rewrite E'. unfold RealAuthService.findUserByPhone. mrun.
  rewrite lookup_insert_eq. cbn [timestamp]. wsimpl.
  assert (Hs : (5 * 60 * 1000 <? clock w (S (S (S (ticks w)))) - clock w (S (S (ticks w))))
               = false) by (apply Z.ltb_ge; lia).
  rewrite Hs.
  erewrite verifyOTP_right_code with (e := issued w);
    [|apply lookup_insert_eq | exact Hlive].
  cbn [valid negb]. wsimpl.
  destruct (JsMap.find _ (users w)) as [[k u]|]; wsimpl; [reflexivity|].
  destruct (pendingRegistrations w !! p) as [reg|]; wsimpl; reflexivity.
Qed.

Lemma get_update_ne {V} k k' f (m : list (string * V)) :
  k <> k' -> JsMap.get k' (JsMap.update k f m) = JsMap.get k' m.
Proof.
  intros Hne. induction m as [|[k0 v0] m IH]; cbn [JsMap.update JsMap.get]; [reflexivity|].
  destruct (String.eqb k k0) eqn:Ek; cbn [JsMap.get].
  - apply String.eqb_eq in Ek. subst k0.
    apply not_eq_sym, String.eqb_neq in Hne. rewrite Hne. reflexivity.
  - rewrite IH. reflexivity.
Qed.

End login_flow.

(** X11. A returning user logs in to the same record. When the directory has
    a user with the phone, sending a code and verifying it in time returns
    that user with nothing changed but [lastLogin], which is the reading
    taken at the login; no user is added, every other user is as before, and
    the directory is saved. *)
Theorem returning_user_login (raw raw' p k : string) (u0 : User) (w : World) :
  formatPhoneNumber raw = Some p ->
  formatPhoneNumber raw' = Some p ->
  NoDup (users w).*1 ->
  fst (RealAuthService.findUserByPhone p w) = Some (k, u0) ->
  clock w (S (S (S (ticks w)))) - clock w (S (S (ticks w))) <= 300000 ->
  clock w (S (S (S (S (ticks w))))) <= clock w (ticks w) + 300000 ->
  let w1 := snd (RealAuthService.sendOTP raw w) in
  let r := fst (RealAuthService.verifyOTPAndLogin raw' (code (issued w)) w1) in
  let w' := snd (RealAuthService.verifyOTPAndLogin raw' (code (issued w)) w1) in
  let u := set_lastLogin (TimeValue (clock w (6 + ticks w))) u0 in
  success r = true /\ user r = Some u
  /\ (users w').*1 = (users w).*1
  /\ JsMap.get k (users w') = Some u
  /\ (forall k', k <> k' -> JsMap.get k' (users w') = JsMap.get k' (users w))
  /\ storage_synced w'.
Proof.
  intros E E' Hnd Hfind Hsess Hlive. cbv zeta.
  rewrite (verify_after_send raw raw' p w E E' Hsess Hlive).
  unfold RealAuthService.findUserByPhone, gets in Hfind. cbn [fst] in Hfind.
  rewrite Hfind, touchAndReturn_runs. wsimpl. cbn [success user].
  pose proof (find_get _ _ _ _ Hnd Hfind) as Hget.
  rewrite (get_update_eq _ _ _ _ Hget).
  repeat split.
  - apply update_keys.
  - intros k' Hne. apply get_update_ne, Hne.
Qed.

(** X12. A registration is completed by the code sent for it. When no user
    has the phone, [registerUser] stores the draft and sends a code, and
    verifying that code in time creates the user from the draft: its name,
    e-mail, role and role attributes, the normalised phone, not yet verified,
    filed under its new id; the draft is gone and the directory is saved. *)
Theorem registration_completes (reg : UserRegistration) (raw' p : string) (w : World) :
  formatPhoneNumber (reg_phone reg) = Some p ->
  formatPhoneNumber raw' = Some p ->
  fst (RealAuthService.findUserByPhone p w) = None ->
  clock w (S (S (S (ticks w)))) - clock w (S (S (ticks w))) <= 300000 ->
  clock w (S (S (S (S (ticks w))))) <= clock w (ticks w) + 300000 ->
  let w1 := snd (RealAuthService.registerUser reg w) in
  let r := fst (RealAuthService.verifyOTPAndLogin raw' (code (issued w)) w1) in
  let w' := snd (RealAuthService.verifyOTPAndLogin raw' (code (issued w)) w1) in
  fst (RealAuthService.registerUser reg w) = RealAuthService.otpSentResult
  /\ pendingRegistrations w1 !! p <> None
  /\ success r = true
  /\ (exists u, user r = Some u
        /\ JsMap.get (id u) (users w') = Some u
        /\ name u = reg_name reg /\ email u = reg_email reg /\ phone u = p
        /\ userType u = reg_userType reg /\ specialty u = reg_specialty reg
        /\ village u = reg_village reg /\ organization u = reg_organization reg
        /\ isVerified u = false /\ abhaProfile u = None
        /\ createdAt u = TimeValue (clock w (7 + ticks w))
        /\ lastLogin u = TimeValue (clock w (9 + ticks w)))
  /\ pendingRegistrations w' !! p = None
  /\ storage_synced w'.
Proof.
  intros E E' Hnone Hsess Hlive. cbv zeta.
  pose proof (formatPhoneNumber_again _ _ E) as Ep.
  unfold RealAuthService.findUserByPhone, gets in Hnone. cbn [fst] in Hnone.
  assert (Hreg : RealAuthService.registerUser reg w
                 = RealAuthService.sendOTP p
                     (set_pendingRegistrations
                        (<[p := {| reg_name := reg_name reg; reg_email := reg_email reg;
                                   reg_phone := p; reg_userType := reg_userType reg;
                                   reg_specialty := reg_specialty reg;
                                   reg_village := reg_village reg;
                                   reg_organization := reg_organization reg |}]>
                           (pendingRegistrations w)) w)).
  { unfold RealAuthService.registerUser, TwilioService.formatPhoneNumber.
    rewrite E. unfold RealAuthService.findUserByPhone. mrun. rewrite Hnone. reflexivity. }
  rewrite Hreg. set (w0 := set_pendingRegistrations _ w).
  change (issued w) with (issued w0).
  rewrite (verify_after_send p raw' p w0 Ep E' Hsess Hlive).
  rewrite (auth_sendOTP_sent p p w0 Ep). subst w0. wsimpl.
  rewrite Hnone, lookup_insert_eq, createUser_runs. cbv zeta. wsimpl.
  rewrite touchAndReturn_runs. wsimpl. cbn [success user].
  erewrite get_update_eq by apply get_set_eq.
  split; [reflexivity|]. split; [discriminate|]. split; [reflexivity|].
  split; [|split; [apply lookup_delete_eq | reflexivity]].
  eexists. split; [reflexivity|].
  split; [cbn [id set_lastLogin newUser]; apply get_update_eq, get_set_eq|].
  repeat split.
Qed.

(** X13. A phone nobody registered logs in as a new patient. With no user
    and no draft for the phone, the code sent and verified in time creates a
    user with role patient, that phone, and the name [User] followed by the
    last four digits, filed under its new id, and saves the directory. *)
Theorem unknown_phone_becomes_patient (raw raw' p : string) (w : World) :
  formatPhoneNumber raw = Some p ->
  formatPhoneNumber raw' = Some p ->
  fst (RealAuthService.findUserByPhone p w) = None ->
  pendingRegistrations w !! p = None ->
  clock w (S (S (S (ticks w)))) - clock w (S (S (ticks w))) <= 300000 ->
  clock w (S (S (S (S (ticks w))))) <= clock w (ticks w) + 300000 ->
  let w1 := snd (RealAuthService.sendOTP raw w) in
  let r := fst (RealAuthService.verifyOTPAndLogin raw' (code (issued w)) w1) in
  let w' := snd (RealAuthService.verifyOTPAndLogin raw' (code (issued w)) w1) in
  success r = true
  /\ (exists u, user r = Some u
        /\ JsMap.get (id u) (users w') = Some u
        /\ userType u = patient /\ phone u = p
        /\ name u = "User " +:+ slice_last 4 p
        /\ email u = None /\ isVerified u = false)
  /\ storage_synced w'.
Proof.
  intros E E' Hnone Hpend Hsess Hlive. cbv zeta.
  rewrite (verify_after_send raw raw' p w E E' Hsess Hlive).
  unfold RealAuthService.findUserByPhone, gets in Hnone. cbn [fst] in Hnone.
  rewrite Hnone, Hpend, createUser_runs. cbv zeta.
  rewrite touchAndReturn_runs. wsimpl. cbn [success user].
  erewrite get_update_eq by apply get_set_eq.
  split; [reflexivity|]. split; [|reflexivity].
  eexists. split; [reflexivity|].
  split; [cbn [id set_lastLogin newUser]; apply get_update_eq, get_set_eq|].
  repeat split.
Qed.

Lemma returning_user_login_witness :
  (users (snd (RealAuthService.verifyOTPAndLogin "+91 90603 28119" "325000"
                 (snd (RealAuthService.sendOTP "919060328119" sample_directory))))).*1
  = (users sample_directory).*1.
Proof.
  eapply (returning_user_login "919060328119" "+91 90603 28119" "+919060328119").
  - reflexivity.
  - reflexivity.
  - vm_compute. apply NoDup_singleton.
  - vm_compute. reflexivity.
  - vm_compute. discriminate.
  - vm_compute. discriminate.
Defined.

Lemma registration_completes_witness :
  let reg := {| reg_name := "Asha"; reg_email := None;
                reg_phone := "091-98765-43210"; reg_userType := asha;
                reg_specialty := None; reg_village := Some "Rampur";
                reg_organization := None |} in
  success (fst (RealAuthService.verifyOTPAndLogin "+91 98765 43210" "325000"
                  (snd (RealAuthService.registerUser reg (sample_world 1000))))) = true.
Proof.
  intros reg.
  eapply (registration_completes reg "+91 98765 43210" sample_phone (sample_world 1000)).
  - reflexivity.
  - reflexivity.
  - reflexivity.
  - vm_compute. discriminate.
  - vm_compute. discriminate.
Defined.

Lemma unknown_phone_becomes_patient_witness :
  success (fst (RealAuthService.verifyOTPAndLogin "+91 98765 43210" "325000"
                  (snd (RealAuthService.sendOTP "919876543210" (sample_world 1000)))))
  = true.
Proof.
  eapply (unknown_phone_becomes_patient "919876543210" "+91 98765 43210" sample_phone
            (sample_world 1000)).
  - reflexivity.
  - reflexivity.
  - reflexivity.
  - reflexivity.
  - vm_compute. discriminate.
  - vm_compute. discriminate.
Defined.

(** ** Searching the directory after it changed *)

Section find_facts.
Context {V : Type}.
Implicit Types (m : list (string * V)) (k : string) (v : V) (p : V -> bool).

Lemma find_update_None p f k m :
  (forall v, p (f v) = p v) ->
  JsMap.find p (JsMap.update k f m) = None <-> JsMap.find p m = None.
Proof.
  intros Hp. induction m as [|[k0 v0] m IH]; cbn [JsMap.update JsMap.find]; [reflexivity|].
  destruct (String.eqb k k0); cbn [JsMap.find].
  - rewrite Hp. destruct (p v0); [split; discriminate | reflexivity].
  - destruct (p v0); [reflexivity | exact IH].
Qed.

Lemma find_set_found p k v m : p v = true -> JsMap.find p (JsMap.set k v m) <> None.
Proof.
  intros Hv. induction m as [|[k0 v0] m IH]; cbn [JsMap.set JsMap.find].
  - rewrite Hv. discriminate.
  - destruct (String.eqb k k0); cbn [JsMap.find].
    + rewrite Hv. discriminate.
    + destruct (p v0); [discriminate | exact IH].
Qed.

Lemma find_set_new p k v m :
  JsMap.find p m = None -> p v = true -> JsMap.find p (JsMap.set k v m) = Some (k, v).
Proof.
  intros Hm Hv. induction m as [|[k0 v0] m IH]; cbn [JsMap.set JsMap.find] in *.
  - rewrite Hv. reflexivity.
  - destruct (p v0) eqn:H0; [discriminate|].
    destruct (String.eqb k k0); cbn [JsMap.find].
    + rewrite Hv. reflexivity.
    + rewrite H0. apply IH, Hm.
Qed.

Lemma find_update_found p f k u m :
  (forall v, p (f v) = p v) ->
  NoDup m.*1 ->
  JsMap.find p m = Some (k, u) ->
  JsMap.find p (JsMap.update k f m) = Some (k, f u).
Proof.
  intros Hp. induction m as [|[k0 v0] m IH]; cbn [JsMap.update JsMap.find];
    [discriminate|].
  intros [Hnin Hnd]%NoDup_cons.
  destruct (p v0) eqn:H0.
  - intros [= -> ->]. rewrite String.eqb_refl. cbn [JsMap.find]. rewrite Hp, H0. reflexivity.
  - intros Hf. destruct (String.eqb k k0) eqn:Ek.
    + apply String.eqb_eq in Ek. subst k0.
      pose proof (find_get _ _ _ _ Hnd Hf) as Hget.
      apply notin_get_None in Hnin. cbn [fst] in Hnin. congruence.
    + cbn [JsMap.find]. rewrite H0. apply IH; assumption.
Qed.

End find_facts.

(** ** Logging in with the stored code *)

Section login_steps.

(** With a session no older than five minutes and a live entry,
    [verifyOTPAndLogin] with the entry's code consumes both and goes on to
    find or create the user. *)
Lemma login_runs raw p s e w :
  formatPhoneNumber raw = Some p ->
  otpSessions w !! p = Some s ->
  clock w (ticks w) - timestamp s <= 300000 ->
  otpStore w !! p = Some e ->
  clock w (S (ticks w)) <= expiresAt e ->
  let w2 :=
    set_otpSessions (delete p (otpSessions w))
      (set_ticks (S (S (S (ticks w)))) (set_otpStore (delete p (otpStore w)) w)) in
  RealAuthService.verifyOTPAndLogin raw (code e) w
  = match JsMap.find (fun u => String.eqb (phone u) p) (users w) with
    | Some (k, _) => RealAuthService.touchAndReturn k w2
    | None =>
        match pendingRegistrations w !! p with
        | Some reg =>
            let (k, w3) := RealAuthService.createUser reg w2 in
            RealAuthService.touchAndReturn k
              (set_pendingRegistrations (delete p (pendingRegistrations w3)) w3)
        | None =>
            let (k, w3) :=
              RealAuthService.createUser
                {| reg_name := "User " +:+ slice_last 4 p; reg_email := None;
                   reg_phone := p; reg_userType := patient; reg_specialty := None;
                   reg_village := None; reg_organization := None |} w2 in
            RealAuthService.touchAndReturn k w3
        end
    end.
Proof.
  intros E Hs Hto He Hlive. cbv zeta.
  unfold RealAuthService.verifyOTPAndLogin, TwilioService.formatPhoneNumber.
  rewrite E. unfold RealAuthService.findUserByPhone. mrun.
  rewrite Hs.
  assert (Hf : (5 * 60 * 1000 <? clock w (ticks w) - timestamp s) = false)
    by (apply Z.ltb_ge; lia).
  rewrite Hf.
  rewrite (verifyOTP_right_code p (set_ticks (S (ticks w)) w) e He Hlive).
  cbn [valid negb]. wsimpl.
  destruct (JsMap.find _ (users w)) as [[k u]|]; wsimpl; [reflexivity|].
  destruct (pendingRegistrations w !! p) as [reg|]; wsimpl; reflexivity.
Qed.

(** A successful [verifyOTPAndLogin] passed both checks. *)
Lemma login_success_inv raw otp w :
  success (fst (RealAuthService.verifyOTPAndLogin raw otp w)) = true ->
  exists p s e,
    formatPhoneNumber raw = Some p
    /\ otpSessions w !! p = Some s
    /\ clock w (ticks w) - timestamp s <= 300000
    /\ otpStore w !! p = Some e /\ code e = otp
    /\ clock w (S (ticks w)) <= expiresAt e.
Proof.
  unfold RealAuthService.verifyOTPAndLogin, TwilioService.formatPhoneNumber.
  destruct (formatPhoneNumber raw) as [p|] eqn:E; [|discriminate].
  unfold RealAuthService.findUserByPhone. mrun.
  destruct (otpSessions w !! p) as [s|] eqn:Hs; [|discriminate].
  destruct (Z.ltb_spec (5 * 60 * 1000) (clock w (ticks w) - timestamp s)) as [Hto|Hto];
    [discriminate|].
  destruct (otpStore w !! p) as [e|] eqn:He;
    [|rewrite verifyOTP_no_entry by exact He; discriminate].
  destruct (Z.ltb_spec (expiresAt e) (clock w (S (ticks w)))) as [Hst|Hlive];
    [rewrite (verifyOTP_stale p otp (set_ticks (S (ticks w)) w) e He Hst); discriminate|].
  destruct (String.eqb_spec (code e) otp) as [<-|Hne];
    [|rewrite (verifyOTP_wrong_code p otp (set_ticks (S (ticks w)) w) e He Hlive Hne);
      discriminate].
  intros _. exists p, s, e. repeat split; try assumption; lia.
Qed.

End login_steps.

(** ** Registering *)



(** ** Codes that come late, and a second try *)

Section late_facts.

(** Under the conditions of [login_runs] the login succeeds and the phone's
    entry and session are gone. *)
Lemma login_succeeds raw p s e w :
  formatPhoneNumber raw = Some p ->
  otpSessions w !! p = Some s ->
  clock w (ticks w) - timestamp s <= 300000 ->
  otpStore w !! p = Some e ->
  clock w (S (ticks w)) <= expiresAt e ->
  success (fst (RealAuthService.verifyOTPAndLogin raw (code e) w)) = true
  /\ otpStore (snd (RealAuthService.verifyOTPAndLogin raw (code e) w)) !! p = None
  /\ otpSessions (snd (RealAuthService.verifyOTPAndLogin raw (code e) w)) !! p = None.
Proof.
  intros E Hs Hto He Hlive.
  rewrite (login_runs raw p s e w E Hs Hto He Hlive). cbv zeta.
  destruct (JsMap.find _ (users w)) as [[k u]|];
    [|destruct (pendingRegistrations w !! p) as [reg|];
      rewrite createUser_runs; cbv zeta];
    rewrite touchAndReturn_runs; wsimpl; cbn [success];
    (split; [reflexivity | split; apply lookup_delete_eq]).
Qed.

End late_facts.

(** X15. A code that comes late is turned away with one message, whichever
    check catches it. With a session for the phone, when the session is older
    than five minutes, or the phone has no entry that is still live at the
    verifier's reading, [verifyOTPAndLogin] fails with "OTP session expired.
    Please request a new OTP." whatever code is submitted, and the directory,
    the drafts and the stored item are as before. In the first case the
    session is deleted and the entry is left in the store; in the second the
    entry is deleted and the session is left. *)
Theorem late_code_rejected (raw p otp : string) (s : OtpSession) (w : World) :
  formatPhoneNumber raw = Some p ->
  otpSessions w !! p = Some s ->
  300000 < clock w (ticks w) - timestamp s
  \/ (forall e, otpStore w !! p = Some e -> expiresAt e < clock w (S (ticks w))) ->
  let r := fst (RealAuthService.verifyOTPAndLogin raw otp w) in
  let w' := snd (RealAuthService.verifyOTPAndLogin raw otp w) in
  r = RealAuthService.failure "OTP session expired. Please request a new OTP."
  /\ users w' = users w
  /\ pendingRegistrations w' = pendingRegistrations w
  /\ localStorage w' = localStorage w
  /\ (300000 < clock w (ticks w) - timestamp s ->
      otpSessions w' = delete p (otpSessions w) /\ otpStore w' = otpStore w)
  /\ (clock w (ticks w) - timestamp s <= 300000 ->
      otpSessions w' = otpSessions w /\ otpStore w' = delete p (otpStore w)).
Proof.
  intros E Hs Hlate. cbv zeta.
  unfold RealAuthService.verifyOTPAndLogin, TwilioService.formatPhoneNumber.
  rewrite E. mrun. rewrite Hs.
  destruct (Z.ltb_spec (5 * 60 * 1000) (clock w (ticks w) - timestamp s)) as [Hto|Hto].
  - wsimpl. repeat split; try reflexivity; intros; lia.
  - destruct Hlate as [Hlate|Hlate]; [lia|].
    destruct (otpStore w !! p) as [e|] eqn:He.
    + rewrite (verifyOTP_stale p otp (set_ticks (S (ticks w)) w) e He (Hlate e eq_refl)).
      wsimpl. repeat split; try reflexivity; intros; lia.
    + rewrite verifyOTP_no_entry by exact He. wsimpl.
      repeat split; try reflexivity; try (intros; lia).
      symmetry. apply delete_id, He.
Qed.

Lemma late_code_rejected_witness :
  let w := snd (RealAuthService.sendOTP sample_phone (sample_world 400000)) in
  fst (RealAuthService.verifyOTPAndLogin sample_phone "325000" w)
  = RealAuthService.failure "OTP session expired. Please request a new OTP."
  /\ otpStore (snd (RealAuthService.verifyOTPAndLogin sample_phone "325000" w))
       !! sample_phone
     = Some {| code := "325000"; expiresAt := 1700000300000 |}.
Proof.
  intros w.
  destruct (late_code_rejected sample_phone sample_phone "325000"
              {| session_phone := sample_phone; timestamp := 1700000800000 |} w)
    as (Hr & _ & _ & _ & Hgone & _).
  - reflexivity.
  - vm_compute. reflexivity.
  - left. vm_compute. reflexivity.
  - split; [exact Hr|].
    destruct Hgone as [_ ->]; [vm_compute; reflexivity|].
    vm_compute. reflexivity.
Defined.

(** X16. A wrong code does not spoil the right one. With a session and a
    live entry for the phone, an attempt with another code fails with
    "Invalid OTP", and the stored code submitted next still logs in and
    consumes the entry, provided the clock does not go back and the readings
    of the second attempt are within the five minutes. *)
Theorem retry_after_wrong_code
    (raw p wrong : string) (s : OtpSession) (e : OTPEntry) (w : World) :
  formatPhoneNumber raw = Some p ->
  otpSessions w !! p = Some s ->
  otpStore w !! p = Some e ->
  code e <> wrong ->
  monotone_clock w ->
  clock w (2 + ticks w) - timestamp s <= 300000 ->
  clock w (3 + ticks w) <= expiresAt e ->
  let w1 := snd (RealAuthService.verifyOTPAndLogin raw wrong w) in
  fst (RealAuthService.verifyOTPAndLogin raw wrong w) = RealAuthService.failure "Invalid OTP"
  /\ success (fst (RealAuthService.verifyOTPAndLogin raw (code e) w1)) = true
  /\ otpStore (snd (RealAuthService.verifyOTPAndLogin raw (code e) w1)) !! p = None
  /\ otpSessions (snd (RealAuthService.verifyOTPAndLogin raw (code e) w1)) !! p = None.
Proof.
  intros E Hs He Hne Hmono Hsess Hlive. cbv zeta.
  assert (H0 : clock w (ticks w) - timestamp s <= 300000).
  { pose proof (Hmono (ticks w) (2 + ticks w)%nat ltac:(lia)). lia. }
  assert (H1 : clock w (S (ticks w)) <= expiresAt e).
  { pose proof (Hmono (S (ticks w)) (3 + ticks w)%nat ltac:(lia)). lia. }
  assert (Hwrong : RealAuthService.verifyOTPAndLogin raw wrong w
                   = (RealAuthService.failure "Invalid OTP",
                      set_ticks (S (S (ticks w))) w)).
  { unfold RealAuthService.verifyOTPAndLogin, TwilioService.formatPhoneNumber.
    rewrite E. mrun. rewrite Hs.
    assert (Hf : (5 * 60 * 1000 <? clock w (ticks w) - timestamp s) = false)
      by (apply Z.ltb_ge; lia).
    rewrite Hf.
    rewrite (verifyOTP_wrong_code p wrong (set_ticks (S (ticks w)) w) e He H1 Hne).
    reflexivity. }
  rewrite Hwrong. cbn [fst snd]. split; [reflexivity|].
  apply (login_succeeds raw p s e (set_ticks (S (S (ticks w))) w) E Hs Hsess He Hlive).
Qed.

Lemma retry_after_wrong_code_witness :
  let w := snd (RealAuthService.sendOTP sample_phone (sample_world 1000)) in
  let w1 := snd (RealAuthService.verifyOTPAndLogin sample_phone "000000" w) in
  fst (RealAuthService.verifyOTPAndLogin sample_phone "000000" w)
  = RealAuthService.failure "Invalid OTP"
  /\ success (fst (RealAuthService.verifyOTPAndLogin sample_phone "325000" w1)) = true.
Proof.
  intros w w1.
  destruct (retry_after_wrong_code sample_phone sample_phone "000000"
              {| session_phone := sample_phone; timestamp := 1700000002000 |}
              {| code := "325000"; expiresAt := 1700000300000 |} w)
    as (Hr & Hok & _).
  - reflexivity.
  - vm_compute. reflexivity.
  - vm_compute. reflexivity.
  - discriminate.
  - intros i j Hij.
    change (clock w) with (fun n : nat => 1700000000000 + 1000 * Z.of_nat n).
    cbn beta. lia.
  - vm_compute. discriminate.
  - vm_compute. discriminate.
  - split; [exact Hr | exact Hok].
Defined.

(** ** Administrators *)

Section admin_facts.

Lemma authenticateAdminEmail_no_otp identifier password w :
  otpSent (fst (RealAuthService.authenticateAdminEmail identifier password w)) = None.
Proof.
  unfold RealAuthService.authenticateAdminEmail.
  destruct (negb (includes RealAuthService.adminEmails identifier)); [reflexivity|].
  destruct password as [pw|]; [|reflexivity].
  destruct (String.eqb pw EmptyString || negb (includes RealAuthService.adminPasswords pw));
    [reflexivity|].
  unfold RealAuthService.findUserByEmail. mrun.
  destruct (JsMap.find _ (users w)) as [[k u]|];
    [|rewrite createUser_runs; cbv zeta]; rewrite touchAndReturn_runs; reflexivity.
Qed.

Lemma admin_digits_route identifier :
  strip_non_digits identifier = "919060328119" ->
  looksLikePhone identifier = true
  /\ formatPhoneNumber identifier = Some "+919060328119".
Proof.
  intros H. unfold looksLikePhone, formatPhoneNumber. rewrite H. split; reflexivity.
Qed.

End admin_facts.

(** X17. One number only gets an administrator's code. [authenticateAdmin]
    answers that a code was sent exactly when the digits of the identifier
    are 919060328119, whatever the password; the code is then stored for
    +919060328119. The same number written with ten digits, or with a
    leading zero, is not accepted. *)
Theorem admin_code_for_one_number
    (identifier : string) (password : option string) (w : World) :
  (otpSent (fst (RealAuthService.authenticateAdmin identifier password w)) = Some true
   <-> strip_non_digits identifier = "919060328119")
  /\ (strip_non_digits identifier = "919060328119" ->
      fst (RealAuthService.authenticateAdmin identifier password w)
      = RealAuthService.otpSentResult
      /\ otpStore (snd (RealAuthService.authenticateAdmin identifier password w))
           !! "+919060328119" = Some (issued w))
  /\ otpSent (fst (RealAuthService.authenticateAdmin "9060328119" password w)) = None
  /\ otpSent (fst (RealAuthService.authenticateAdmin "09190 60328119" password w)) = None.
Proof.
  assert (Hyes : strip_non_digits identifier = "919060328119" ->
            fst (RealAuthService.authenticateAdmin identifier password w)
            = RealAuthService.otpSentResult
            /\ otpStore (snd (RealAuthService.authenticateAdmin identifier password w))
                 !! "+919060328119" = Some (issued w)).
  { intros H. destruct (admin_digits_route identifier H) as [Hl E].
    unfold RealAuthService.authenticateAdmin, RealAuthService.authenticateAdminPhone,
      TwilioService.formatPhoneNumber.
    rewrite Hl, E. cbn [includes RealAuthService.adminPhones existsb String.eqb
                         Ascii.eqb Bool.eqb orb negb].
    rewrite (auth_sendOTP_sent "+919060328119" "+919060328119" w eq_refl). wsimpl.
    split; [reflexivity | apply lookup_insert_eq]. }
  split; [split|split; [exact Hyes | split; reflexivity]].
  - unfold RealAuthService.authenticateAdmin.
    destruct (looksLikePhone identifier) eqn:Hl;
      [|rewrite authenticateAdminEmail_no_otp; discriminate].
    unfold RealAuthService.authenticateAdminPhone, TwilioService.formatPhoneNumber.
    destruct (formatPhoneNumber identifier) as [p|] eqn:E; [|discriminate].
    destruct (includes RealAuthService.adminPhones p) eqn:Hin; [|discriminate].
    intros _. apply includes_true in Hin. unfold RealAuthService.adminPhones in Hin.
    apply list_elem_of_singleton in Hin. subst p.
    unfold looksLikePhone in Hl. revert E Hl.
    unfold formatPhoneNumber, startsWith.
    set (cleaned := strip_non_digits identifier).
    destruct ((String.length cleaned =? 10)%nat && String.prefix "6789" cleaned) eqn:B1.
    { apply andb_prop in B1 as [_ Hp]. rewrite !append_cons, append_nil.
      intros [= Hc]. rewrite Hc in Hp. vm_compute in Hp. discriminate Hp. }
    destruct ((String.length cleaned =? 12)%nat && String.prefix "91" cleaned) eqn:B2.
    { rewrite !append_cons, append_nil. intros [= Hc] _. exact Hc. }
    destruct ((String.length cleaned =? 13)%nat && String.prefix "091" cleaned) eqn:B3;
      [|discriminate].
    apply andb_prop in B3 as [_ Hp].
    destruct cleaned as [|z rest]; [discriminate|].
    apply prefix_cons in Hp as [<- _]. intros _ Hl. cbn in Hl. discriminate Hl.
  - intros H. rewrite (proj1 (Hyes H)). reflexivity.
Qed.

(** X18. An administrator is created once. Logging in by e-mail with an
    allow-listed address and password, and then again with any allow-listed
    password, returns the same user both times, with only [lastLogin] moved
    to the reading of the second login; the second login adds no user. *)
Theorem admin_email_login_twice (identifier pw pw' : string) (w : World) :
  includes RealAuthService.adminEmails identifier = true ->
  includes RealAuthService.adminPasswords pw = true ->
  includes RealAuthService.adminPasswords pw' = true ->
  NoDup (users w).*1 ->
  let r1 := fst (RealAuthService.authenticateAdmin identifier (Some pw) w) in
  let w1 := snd (RealAuthService.authenticateAdmin identifier (Some pw) w) in
  let r2 := fst (RealAuthService.authenticateAdmin identifier (Some pw') w1) in
  let w2 := snd (RealAuthService.authenticateAdmin identifier (Some pw') w1) in
  (users w2).*1 = (users w1).*1
  /\ exists k u1,
       user r1 = Some u1 /\ JsMap.get k (users w1) = Some u1
       /\ user r2 = Some (set_lastLogin (TimeValue (clock w (ticks w1))) u1)
       /\ JsMap.get k (users w2)
          = Some (set_lastLogin (TimeValue (clock w (ticks w1))) u1).
Proof.
  intros Hmail Hpw Hpw' Hnd. cbv zeta.
  pose proof (adminEmails_not_phone _ Hmail) as Hroute.
  pose proof (adminPasswords_nonempty _ Hpw) as Hpw0.
  pose proof (adminPasswords_nonempty _ Hpw') as Hpw0'.
  set (byMail := fun u : User => bool_decide (email u = Some identifier)).
  assert (Hrun : forall w0 pw0,
            includes RealAuthService.adminPasswords pw0 = true ->
            forall k u, JsMap.find byMail (users w0) = Some (k, u) ->
            RealAuthService.authenticateAdmin identifier (Some pw0) w0
            = RealAuthService.touchAndReturn k w0).
  { intros w0 pw0 H0 k u Hf.
    unfold RealAuthService.authenticateAdmin, RealAuthService.authenticateAdminEmail.
    rewrite Hroute, Hmail, H0, (adminPasswords_nonempty _ H0). cbn [negb orb].
    unfold RealAuthService.findUserByEmail. mrun. fold byMail. rewrite Hf. reflexivity. }
  assert (Hsecond : forall k u w1,
            NoDup (users w1).*1 -> clock w1 = clock w ->
            JsMap.find byMail (users w1) = Some (k, u) ->
            JsMap.get k (users w1) = Some u ->
            (users (snd (RealAuthService.authenticateAdmin identifier (Some pw') w1))).*1
            = (users w1).*1
            /\ user (fst (RealAuthService.authenticateAdmin identifier (Some pw') w1))
               = Some (set_lastLogin (TimeValue (clock w (ticks w1))) u)
            /\ JsMap.get k
                 (users (snd (RealAuthService.authenticateAdmin identifier (Some pw') w1)))
               = Some (set_lastLogin (TimeValue (clock w (ticks w1))) u)).
  { intros k u w1 Hnd1 Hclock Hf Hget.
    rewrite (Hrun w1 pw' Hpw' k u Hf), touchAndReturn_runs. wsimpl. cbn [user].
    rewrite Hclock, (get_update_eq _ _ _ _ Hget).
    split; [apply update_keys | split; reflexivity]. }
  destruct (JsMap.find byMail (users w)) as [[k u]|] eqn:Hfind.
  - pose proof (find_get _ _ _ _ Hnd Hfind) as Hget.
    rewrite (Hrun w pw Hpw k u Hfind), touchAndReturn_runs. wsimpl. cbn [user].
    set (w1 := set_localStorage _ _).
    set (u1 := set_lastLogin (TimeValue (clock w (ticks w))) u).
    assert (Hget1 : JsMap.get k (users w1) = Some u1) by apply get_update_eq, Hget.
    destruct (Hsecond k u1 w1) as (Hkeys & Hr2 & Hg2).
    + subst w1. wsimpl. rewrite update_keys. exact Hnd.
    + reflexivity.
    + subst w1. wsimpl. apply find_update_found; [reflexivity | exact Hnd | exact Hfind].
    + exact Hget1.
    + split; [exact Hkeys|]. exists k, u1.
      split; [exact Hget1|]. split; [exact Hget1|]. split; [exact Hr2 | exact Hg2].
  - assert (Hfirst : RealAuthService.authenticateAdmin identifier (Some pw) w
              = let (k, w3) :=
                  RealAuthService.createUser
                    {| reg_name := if String.eqb identifier "praveen@stellaronehealth.com"
                                   then "Praveen - StellarOne Health" else "Admin User";
                       reg_email := Some identifier;
                       reg_phone := "+919060328119";
                       reg_userType := admin;
                       reg_specialty := None;
                       reg_village := None;
                       reg_organization :=
                         Some (if String.eqb identifier "praveen@stellaronehealth.com"
                               then "StellarOne Health" else "EasyMed") |} w in
                RealAuthService.touchAndReturn k w3).
    { unfold RealAuthService.authenticateAdmin, RealAuthService.authenticateAdminEmail.
      rewrite Hroute, Hmail, Hpw, Hpw0. cbn [negb orb].
      unfold RealAuthService.findUserByEmail. mrun. fold byMail. rewrite Hfind.
      reflexivity. }
    rewrite Hfirst, createUser_runs. cbv zeta. rewrite touchAndReturn_runs. wsimpl.
    cbn [user].
    set (key := "user_" +:+ _).
    set (nu := newUser key _ _ _).
    set (w1 := set_localStorage _ _).
    set (u1 := set_lastLogin (TimeValue (clock w (S (S (S (ticks w)))))) nu).
    assert (Hget1 : JsMap.get key (users w1) = Some u1)
      by (apply get_update_eq, get_set_eq).
    destruct (Hsecond key u1 w1) as (Hkeys & Hr2 & Hg2).
    + subst w1. wsimpl. rewrite update_keys. apply set_NoDup, Hnd.
    + reflexivity.
    + subst w1. wsimpl.
      apply find_update_found; [reflexivity | apply set_NoDup, Hnd|].
      apply find_set_new; [exact Hfind|]. apply bool_decide_eq_true. reflexivity.
    + exact Hget1.
    + split; [exact Hkeys|]. exists key, u1.
      split; [exact Hget1|]. split; [exact Hget1|]. split; [exact Hr2 | exact Hg2].
Qed.

Lemma admin_email_login_twice_witness :
  let w1 := snd (RealAuthService.authenticateAdmin "admin@easymed.in" (Some "admin123")
                   (sample_world 1000)) in
  let w2 := snd (RealAuthService.authenticateAdmin "admin@easymed.in" (Some "easymed2025")
                   w1) in
  (users w2).*1 = (users w1).*1.
Proof.
  intros w1 w2.
  refine (proj1 (admin_email_login_twice "admin@easymed.in" "admin123" "easymed2025"
                   (sample_world 1000) _ _ _ _)).
  - reflexivity.
  - reflexivity.
  - reflexivity.
  - apply NoDup_nil_2.
Defined.

(** ** Linking a health profile *)

(** X19. [linkABHAProfile] changes one user or nothing. For an id the
    directory does not have it returns [false] and the world is as before.
    For an id it has it returns [true]; the user under that id now carries
    the profile and is verified, with every other field as it was; every
    other user is as before, no user is added, the directory is saved, and
    the codes, sessions and drafts are not touched. *)
Theorem linkABHAProfile_one_user (userId : string) (profile : json) (w : World) :
  let r := fst (RealAuthService.linkABHAProfile userId profile w) in
  let w' := snd (RealAuthService.linkABHAProfile userId profile w) in
  match JsMap.get userId (users w) with
  | None => r = false /\ w' = w
  | Some u =>
      r = true
      /\ (exists u', JsMap.get userId (users w') = Some u'
            /\ abhaProfile u' = Some profile /\ isVerified u' = true
            /\ id u' = id u /\ name u' = name u /\ email u' = email u
            /\ phone u' = phone u /\ userType u' = userType u
            /\ createdAt u' = createdAt u /\ lastLogin u' = lastLogin u)
      /\ (forall k, userId <> k -> JsMap.get k (users w') = JsMap.get k (users w))
      /\ (users w').*1 = (users w).*1
      /\ storage_synced w'
      /\ otpStore w' = otpStore w /\ otpSessions w' = otpSessions w
      /\ pendingRegistrations w' = pendingRegistrations w
  end.
Proof.
  cbv zeta. unfold RealAuthService.linkABHAProfile, RealAuthService.getUserById,
    RealAuthService.saveUsersToStorage. mrun.
  destruct (JsMap.get userId (users w)) as [u|] eqn:Hget; wsimpl;
    [|split; reflexivity].
  split; [reflexivity|]. split.
  { exists (link_profile profile u).
    split; [apply get_update_eq, Hget | repeat split]. }
  split; [intros k Hne; apply get_update_ne, Hne|].
  split; [apply update_keys | repeat split].
Qed.

(** ** Clearing the service *)

(** X20. After [clearAllData] nobody can log in on an old code. The
    directory, the drafts and the sessions are empty and the stored item is
    removed, so a service constructed afterwards starts with no users; the
    issuer's codes are left where they were, but every [verifyOTPAndLogin]
    fails, for want of a session, and changes nothing. *)
Theorem clearAllData_forgets (w : World) :
  let w1 := snd (RealAuthService.clearAllData w) in
  users w1 = [] /\ localStorage w1 = None
  /\ users (RealAuthService.constructor w1) = []
  /\ otpStore w1 = otpStore w
  /\ (forall k, fst (RealAuthService.getUserById k w1) = None)
  /\ (forall raw otp,
        success (fst (RealAuthService.verifyOTPAndLogin raw otp w1)) = false
        /\ snd (RealAuthService.verifyOTPAndLogin raw otp w1) = w1).
Proof.
  cbv zeta. unfold RealAuthService.clearAllData. mrun.
  repeat split.
  - unfold RealAuthService.verifyOTPAndLogin, TwilioService.formatPhoneNumber.
    destruct (formatPhoneNumber raw) as [p|]; [|reflexivity].
    mrun. rewrite lookup_empty. reflexivity.
  - unfold RealAuthService.verifyOTPAndLogin, TwilioService.formatPhoneNumber.
    destruct (formatPhoneNumber raw) as [p|]; [|reflexivity].
    mrun. rewrite lookup_empty. reflexivity.
Qed.

(** ** Registering again *)



(** ** Reloading the page *)

Section reload_facts.

Lemma dir_effect_clock w w' : dir_effect w w' -> clock w' = clock w.
Proof. intros [ | | | | ]; assumption. Qed.

Lemma dir_effect_dates w w' :
  dir_effect w w' -> dates_from_clock w -> dates_from_clock w'.
Proof.
  intros Heff Hd k' u' Hin. rewrite (dir_effect_clock w w' Heff).
  destruct Heff as [Hu _ _ _ | p reg _ _ Hu _ _ _ | k n Hu _ _ _ | k j Hu _ _ _
                   | k reg c l n Hu _ _ _]; rewrite Hu in Hin.
  - exact (Hd _ _ Hin).
  - exact (Hd _ _ Hin).
  - apply elem_of_update in Hin as (u0 & Hin & [->| ->]); [exact (Hd _ _ Hin)|].
    split; [exact (proj1 (Hd _ _ Hin)) | exists n; reflexivity].
  - apply elem_of_update in Hin as (u0 & Hin & [->| ->]); exact (Hd _ _ Hin).
  - apply elem_of_update in Hin as (u0 & Hin & Hu').
    assert (H0 : (exists i, createdAt u0 = TimeValue (clock w i))
                 /\ (exists i, lastLogin u0 = TimeValue (clock w i))).
    { apply elem_of_set in Hin as [Hin|[_ ->]]; [exact (Hd _ _ Hin)|].
      split; [exists c | exists l]; reflexivity. }
    destruct Hu' as [->| ->]; [exact H0|].
    split; [exact (proj1 H0) | exists n; reflexivity].
Qed.

Lemma dir_effect_follows w w' :
  dir_effect w w' -> storage_follows w -> storage_follows w'.
Proof.
  intros Heff Hf.
  destruct (dir_effect_synced w w' Heff) as [[Hu Hl]|Hs]; [|right; exact Hs].
  unfold storage_follows, storage_synced in *. rewrite Hu, Hl. exact Hf.
Qed.

Lemma run_all_reload cs : forall w,
  dates_from_clock w -> storage_follows w ->
  clock (run_all cs w) = clock w
  /\ dates_from_clock (run_all cs w) /\ storage_follows (run_all cs w).
Proof.
  induction cs as [|c cs IH]; intros w Hd Hf;
    [split; [reflexivity | split; assumption]|].
  cbn [run_all fold_left]. pose proof (proj1 (run_dir c w)) as Heff.
  destruct (IH (run c w) (dir_effect_dates _ _ Heff Hd) (dir_effect_follows _ _ Heff Hf))
    as (Hc & Hd' & Hf').
  split; [|split; assumption].
  etransitivity; [exact Hc | apply dir_effect_clock, Heff].
Qed.

(** A service constructed on what a directory with distinct keys and dates
    in range was saved as has that directory. *)
Lemma constructor_reloads w :
  NoDup (users w).*1 ->
  (forall k u, (k, u) ∈ users w -> Date_ok (createdAt u) /\ Date_ok (lastLogin u)) ->
  storage_follows w ->
  users (RealAuthService.constructor w) = users w.
Proof.
  intros Hnd Hok [[Hl Hu]|Hs];
    unfold RealAuthService.constructor, RealAuthService.loadUsersFromStorage,
      RealAuthService.fresh; mrun.
  - rewrite Hl, Hu. reflexivity.
  - unfold storage_synced in Hs. rewrite Hs. unfold Persist.users_toJSON. wsimpl.
    apply (load_entries_saved (users w) []); assumption.
Qed.

End reload_facts.



(** ** The status report *)

(** X23. [getStatus] reads and does not write, and its counts follow the
    calls: sending a code to a phone that has no session adds one active
    session, and to one that has a session adds none, with users and drafts
    as before; a successful login takes one active session away, adds at
    most one user and never adds a draft. *)
Theorem getStatus_counts
    (env : TwilioService.TwilioEnv) (raw otp : string) (w : World) :
  let st := fst (RealAuthService.getStatus env w) in
  snd (RealAuthService.getStatus env w) = w
  /\ (forall p, formatPhoneNumber raw = Some p ->
        let st1 := fst (RealAuthService.getStatus env
                          (snd (RealAuthService.sendOTP raw w))) in
        RealAuthService.activeSessions st1
        = match otpSessions w !! p with
          | Some _ => RealAuthService.activeSessions st
          | None => S (RealAuthService.activeSessions st)
          end
        /\ RealAuthService.totalUsers st1 = RealAuthService.totalUsers st
        /\ RealAuthService.pendingRegistrationCount st1
           = RealAuthService.pendingRegistrationCount st)
  /\ (success (fst (RealAuthService.verifyOTPAndLogin raw otp w)) = true ->
        let st2 := fst (RealAuthService.getStatus env
                          (snd (RealAuthService.verifyOTPAndLogin raw otp w))) in
        S (RealAuthService.activeSessions st2) = RealAuthService.activeSessions st
        /\ (RealAuthService.totalUsers st <= RealAuthService.totalUsers st2
            <= S (RealAuthService.totalUsers st))%nat
        /\ (RealAuthService.pendingRegistrationCount st2
            <= RealAuthService.pendingRegistrationCount st)%nat).
Proof.
  cbv zeta. unfold RealAuthService.getStatus, gets.
  cbn [fst snd RealAuthService.activeSessions RealAuthService.totalUsers
       RealAuthService.pendingRegistrationCount].
  split; [reflexivity|]. split.
  - intros p E. rewrite (auth_sendOTP_sent raw p w E). wsimpl.
    split; [|split; reflexivity].
    rewrite map_size_insert. destruct (otpSessions w !! p); reflexivity.
  - intros Hok.
    destruct (login_success_inv raw otp w Hok)
      as (p & s & e & E & Hs & Hto & He & <- & Hlive).
    pose proof (proj1 (verifyOTPAndLogin_dir raw (code e) w)) as Heff.
    cbv zeta in Heff. apply dir_effect_keys in Heff.
    assert (Hlen : (length (users w)
                    <= length (users (snd (RealAuthService.verifyOTPAndLogin raw (code e) w)))
                    <= S (length (users w)))%nat).
    { destruct Heff as [H|(k & _ & H)]; apply (f_equal length) in H;
        rewrite ?length_app, !length_fmap in H; cbn [length] in H; lia. }
    split; [|split; [exact Hlen|]]; clear Hlen Heff Hok.
    + assert (Hd : otpSessions (snd (RealAuthService.verifyOTPAndLogin raw (code e) w))
                   = delete p (otpSessions w)).
      { rewrite (login_runs raw p s e w E Hs Hto He Hlive). cbv zeta.
        destruct (JsMap.find _ (users w)) as [[k u]|];
          [|destruct (pendingRegistrations w !! p) as [reg|];
            rewrite createUser_runs; cbv zeta];
          rewrite touchAndReturn_runs; reflexivity. }
      rewrite Hd, map_size_delete, Hs.
      pose proof (map_size_ne_0_lookup_2 (otpSessions w) p (mk_is_Some _ _ Hs)). lia.
    + rewrite (login_runs raw p s e w E Hs Hto He Hlive). cbv zeta.
      destruct (JsMap.find _ (users w)) as [[k u]|];
        [|destruct (pendingRegistrations w !! p) as [reg|] eqn:Hreg;
          rewrite createUser_runs; cbv zeta];
        rewrite touchAndReturn_runs; wsimpl; try reflexivity.
      rewrite map_size_delete, Hreg. cbn. lia.
Qed.

(** X24. The issuer reports demo mode unless it is fully configured outside
    development, and shows at most ten characters of either identifier: with
    any of the three credentials missing, or in development mode, [demoMode]
    is on; each identifier is reported as "Not set" or as its first ten
    characters followed by three dots, thirteen characters at most, and the
    report does not depend on the auth token beyond whether it is set. *)
Theorem getStatus_masks (env : TwilioService.TwilioEnv) :
  let st := TwilioService.getStatus env in
  (TwilioService.demoMode st = false <->
     TwilioService.VITE_TWILIO_ACCOUNT_SID env <> EmptyString
     /\ TwilioService.VITE_TWILIO_AUTH_TOKEN env <> EmptyString
     /\ TwilioService.VITE_TWILIO_VERIFY_SERVICE_SID env <> EmptyString
     /\ TwilioService.MODE env <> "development")
  /\ (String.length (TwilioService.accountSid st) <= 13)%nat
  /\ (String.length (TwilioService.serviceSid st) <= 13)%nat
  /\ (forall token, token <> EmptyString ->
        TwilioService.VITE_TWILIO_AUTH_TOKEN env <> EmptyString ->
        TwilioService.getStatus
          {| TwilioService.VITE_TWILIO_ACCOUNT_SID :=
               TwilioService.VITE_TWILIO_ACCOUNT_SID env;
             TwilioService.VITE_TWILIO_AUTH_TOKEN := token;
             TwilioService.VITE_TWILIO_VERIFY_SERVICE_SID :=
               TwilioService.VITE_TWILIO_VERIFY_SERVICE_SID env;
             TwilioService.MODE := TwilioService.MODE env |} = st).
Proof.
  assert (Hlen : forall s, (String.length (TwilioService.masked s) <= 13)%nat).
  { intros s. unfold TwilioService.masked.
    destruct (String.eqb s EmptyString); [cbn; lia|].
    assert (Happ : forall a b,
              String.length (a +:+ b) = (String.length a + String.length b)%nat).
    { induction a as [|c a IH]; intros b; [reflexivity|].
      rewrite append_cons. cbn [String.length]. rewrite IH. reflexivity. }
    assert (H : forall n t, (String.length (String.substring 0 n t) <= n)%nat).
    { induction n as [|n IH]; intros [|c t]; cbn [String.substring String.length];
        try lia. specialize (IH t). lia. }
    specialize (H 10%nat s). rewrite Happ. cbn [String.length]. lia. }
  cbv zeta. unfold TwilioService.getStatus, TwilioService.isConfigured.
  cbn [TwilioService.demoMode TwilioService.accountSid TwilioService.serviceSid
       TwilioService.VITE_TWILIO_ACCOUNT_SID TwilioService.VITE_TWILIO_AUTH_TOKEN
       TwilioService.VITE_TWILIO_VERIFY_SERVICE_SID TwilioService.MODE].
  split; [|split; [apply Hlen | split; [apply Hlen|]]].
  - rewrite orb_false_iff, negb_false_iff, !andb_true_iff, !negb_true_iff,
      !String.eqb_neq. tauto.
  - intros token Ht Hset. apply String.eqb_neq in Ht, Hset. rewrite Ht, Hset.
    reflexivity.
Qed.
